(** * gymu.wrappers.atari: the Atari preprocessing wrappers

    A shallow embedding of [src/gymu/wrappers/atari/__init__.py].

    Every wrapper class of the module becomes a record holding the wrapped
    environment [env] and the wrapper's own attributes; every method becomes
    a computation in a state-and-exception monad over that record, so that
    attribute assignment, calls on [self.env], [assert] and the exceptions of
    Python are all explicit. *)

From Stdlib Require Import ZArith List String Bool Lia.
From Stdlib Require Import Floats.SpecFloat.
Import ListNotations.
Open Scope string_scope.
Open Scope list_scope.
Open Scope Z_scope.

(** ** Python values *)

(** The exceptions the module can raise itself, and [EnvError] for whatever
    an inner environment raises on its own. *)
Inductive Exn : Type :=
| AssertionError
| IndexError
| ValueError
| UnboundLocalError
| EnvError (msg : string).

Inductive Res (A : Type) : Type :=
| Ok (a : A)
| Raise (e : Exn).
Arguments Ok {A} a.
Arguments Raise {A} e.

Definition is_ok {A} (r : Res A) : bool :=
  match r with Ok _ => true | Raise _ => false end.

(** A method body: it reads and updates the object it runs on and either
    returns a value or raises.  The object is returned in both cases, since
    an exception does not undo the assignments made before it. *)
Definition M (S A : Type) : Type := S -> Res A * S.

Definition ret {S A} (a : A) : M S A := fun s => (Ok a, s).

Definition bind {S A B} (m : M S A) (k : A -> M S B) : M S B :=
  fun s => match m s with
           | (Ok a, s') => k a s'
           | (Raise e, s') => (Raise e, s')
           end.

Definition raise {S A} (e : Exn) : M S A := fun s => (Raise e, s).

Definition get {S A} (f : S -> A) : M S A := fun s => (Ok (f s), s).

Definition modify {S} (f : S -> S) : M S unit := fun s => (Ok tt, f s).

(** [assert c] *)
Definition assert {S} (c : bool) : M S unit :=
  if c then ret tt else raise AssertionError.

(** Runs a computation on an attribute of the object (for [self.env.f(..)])
    and stores the updated attribute back. *)
Definition on_attr {S E A} (proj : S -> E) (upd : E -> S -> S) (m : M E A)
  : M S A :=
  fun s => let (r, e') := m (proj s) in (r, upd e' s).

Declare Scope py_scope.
Delimit Scope py_scope with py.
Notation "x <- m ;; k" := (bind m (fun x => k))
  (at level 61, m at next level, right associativity) : py_scope.
Notation "' p <- m ;; k" := (bind m (fun x => match x with p => k end))
  (at level 61, p pattern, m at next level, right associativity) : py_scope.
Notation "m ;; k" := (bind m (fun _ => k))
  (at level 61, right associativity) : py_scope.
Open Scope py_scope.

(** [l[i]] for a list and a non-negative constant index. *)
Definition getitem {S A} (l : list A) (i : nat) : M S A :=
  match nth_error l i with
  | Some x => ret x
  | None => raise IndexError
  end.

(** [x in l] for a list of strings. *)
Definition str_in (x : string) (l : list string) : bool :=
  existsb (String.eqb x) l.

(** [sub in s] for strings: [sub] occurs in [s] at some position. *)
Fixpoint contains (sub s : string) : bool :=
  if String.prefix sub s then true
  else match s with
       | EmptyString => false
       | String _ s' => contains sub s'
       end.

(** ** Floating point rewards

    Rewards are Python floats: IEEE 754 binary64 values, in the inductive
    specification of the Standard Library. *)
Definition Reward : Type := spec_float.

Definition float_add : Reward -> Reward -> Reward := SFadd 53 1024.
Definition float_div : Reward -> Reward -> Reward := SFdiv 53 1024.
Definition float_of_Z (z : Z) : Reward := binary_normalize 53 1024 z 0 false.

Definition float_zero : Reward := S754_zero false.
Definition float_one : Reward := Eval vm_compute in float_of_Z 1.
Definition float_gt (x y : Reward) : bool := SFltb y x.
Definition float_lt (x y : Reward) : bool := SFltb x y.
Definition float_eq (x y : Reward) : bool := SFeqb x y.

(** ** The environment interface *)

Definition Action : Type := Z.
(** An observation is an array of pixel values, flattened. *)
Definition Obs : Type := list Z.
Definition Info : Type := list (string * Z).
Definition Kwargs : Type := list (string * Z).
(** The tuple [(obs, reward, done, info)] returned by [step]. *)
Definition StepResult : Type := (Obs * Reward * bool * Info)%type.

Module np.

(** [np.sign] on a float, as numpy computes it:
    [x > 0 ? 1 : (x < 0 ? -1 : (x == 0 ? 0 : x))]. *)
Definition sign (x : Reward) : Reward :=
  if float_gt x float_zero then float_one
  else if float_lt x float_zero then SFopp float_one
  else if float_eq x float_zero then float_zero
  else x.

(** [np.zeros(shape)], flattened. *)
Definition zeros (shape : list nat) : Obs :=
  repeat 0 (fold_right Nat.mul 1%nat shape).

(** The element-wise maximum of two arrays of the same shape. *)
Fixpoint maximum (a b : Obs) : Obs :=
  match a, b with
  | x :: a', y :: b' => Z.max x y :: maximum a' b'
  | _, _ => []
  end.

(** [buffer.max(axis=0)] on an array of two slots. *)
Definition max_axis0 (buffer : Obs * Obs) : Obs :=
  maximum (fst buffer) (snd buffer).

(** The integer dtypes an array of pixels can have. *)
Inductive dtype : Type :=
| uint8 | int8 | uint16 | int16 | uint32 | int32 | uint64 | int64.

Definition bits (dt : dtype) : Z :=
  match dt with
  | uint8 | int8 => 8
  | uint16 | int16 => 16
  | uint32 | int32 => 32
  | uint64 | int64 => 64
  end.

Definition signed (dt : dtype) : bool :=
  match dt with
  | int8 | int16 | int32 | int64 => true
  | uint8 | uint16 | uint32 | uint64 => false
  end.

(** The values of the dtype. *)
Definition in_range (dt : dtype) (v : Z) : Prop :=
  if signed dt
  then - 2 ^ (bits dt - 1) <= v < 2 ^ (bits dt - 1)
  else 0 <= v < 2 ^ bits dt.

(** The cast of an integer to the dtype, as an assignment into an array
    makes it: the value wraps around. *)
Definition cast (dt : dtype) (v : Z) : Z :=
  if signed dt
  then (v + 2 ^ (bits dt - 1)) mod 2 ^ bits dt - 2 ^ (bits dt - 1)
  else v mod 2 ^ bits dt.

(** [buffer[k] = obs], on flattened arrays: the content of slot [k] after
    the assignment.  An array of the size of the slot is stored element by
    element, an array of one element is broadcast to every element of the
    slot, and any other array raises [ValueError]; what is stored is cast to
    the dtype of the buffer. *)
Definition assign (dt : dtype) (slot obs : Obs) : Res Obs :=
  if Nat.eqb (List.length obs) (List.length slot)
  then Ok (map (cast dt) obs)
  else match obs with
       | [v] => Ok (repeat (cast dt v) (List.length slot))
       | _ => Raise ValueError
       end.

End np.

Module gym.

(** What the wrappers read through [env.unwrapped], [env.spec] and
    [env.observation_space]. *)
Class Unwrapped (E : Type) : Type := {
  get_action_meanings : E -> list string;
  ale_lives : E -> Z;
  spec_id : E -> string;
  observation_space_shape : E -> list nat;
  observation_space_dtype : E -> np.dtype
}.

(** [reset] with its keyword arguments, [step(action)], and the random
    generator of the engine, [unwrapped.np_random.randint(low, high)]. *)
Class Env (E : Type) `{Unwrapped E} : Type := {
  reset : Kwargs -> M E Obs;
  step : Action -> M E StepResult;
  np_random_randint : Z -> Z -> M E Z
}.

End gym.

(** Runs the body of an [__init__] on the freshly allocated object. *)
Definition construct {S} (self : S) (body : M S unit) : Res S :=
  match body self with
  | (Ok _, self') => Ok self'
  | (Raise e, _) => Raise e
  end.


(** ** NoopResetEnv *)

Module NoopResetEnv.
Section Class.
Context {E : Type} `{gym.Env E}.

Record t : Type := mk {
  env : E;
  noop_max : Z;
  override_num_noops : option Z;
  noop_action : Action
}.

Definition set_env (e : E) (self : t) : t :=
  mk e (noop_max self) (override_num_noops self) (noop_action self).

(** [self.env.f(..)] *)
Definition self_env {A} (m : M E A) : M t A := on_attr env set_env m.

Definition __init__ (env : E) (noop_max : Z) : Res t :=
  construct (mk env noop_max None 0)
    (m0 <- getitem (gym.get_action_meanings env) 0 ;;
     assert (String.eqb m0 "NOOP")).

(** The [for _ in range(noops)] loop, with [n] iterations left. *)
Fixpoint reset_loop (kwargs : Kwargs) (n : nat) (obs : option Obs)
  : M t (option Obs) :=
  match n with
  | O => ret obs
  | S n' =>
      a <- get noop_action ;;
      '(obs, _, done, _) <- self_env (gym.step a) ;;
      obs <- (if done : bool then self_env (gym.reset kwargs) else ret obs) ;;
      reset_loop kwargs n' (Some obs)
  end.

(** [reset] returns [obs], which Python initialises to [None]. *)
Definition reset (kwargs : Kwargs) : M t (option Obs) :=
  self_env (gym.reset kwargs) ;;
  override <- get override_num_noops ;;
  noops <- match override with
           | Some n => ret n
           | None =>
               noop_max <- get noop_max ;;
               self_env (gym.np_random_randint 1 (noop_max + 1))
           end ;;
  assert (noops >? 0) ;;
  reset_loop kwargs (Z.to_nat noops) None.

Definition step (action : Action) : M t StepResult :=
  self_env (gym.step action).

End Class.
Arguments t E : clear implicits.
End NoopResetEnv.

(** ** FireResetEnv *)

Module FireResetEnv.
Section Class.
Context {E : Type} `{gym.Env E}.

Record t : Type := mk { env : E }.

Definition set_env (e : E) (_ : t) : t := mk e.
Definition self_env {A} (m : M E A) : M t A := on_attr env set_env m.

Definition __init__ (env : E) : Res t :=
  construct (mk env)
    (m1 <- getitem (gym.get_action_meanings env) 1 ;;
     assert (String.eqb m1 "FIRE") ;;
     assert (Z.of_nat (List.length (gym.get_action_meanings env)) >=? 3)).

Definition reset (kwargs : Kwargs) : M t Obs :=
  self_env (gym.reset kwargs) ;;
  '(obs, _, done, _) <- self_env (gym.step 1) ;;
  (if done : bool then (self_env (gym.reset kwargs) ;; ret tt) else ret tt) ;;
  '(obs, _, done, _) <- self_env (gym.step 2) ;;
  (if done : bool then (self_env (gym.reset kwargs) ;; ret tt) else ret tt) ;;
  ret obs.

Definition step (action : Action) : M t StepResult :=
  self_env (gym.step action).

End Class.
Arguments t E : clear implicits.
End FireResetEnv.

(** ** EpisodicLifeEnv *)

Module EpisodicLifeEnv.
Section Class.
Context {E : Type} `{gym.Env E}.

Record t : Type := mk {
  env : E;
  lives : Z;
  was_real_done : bool
}.

Definition set_env (e : E) (self : t) : t :=
  mk e (lives self) (was_real_done self).
Definition set_lives (l : Z) (self : t) : t :=
  mk (env self) l (was_real_done self).
Definition set_was_real_done (b : bool) (self : t) : t :=
  mk (env self) (lives self) b.
Definition self_env {A} (m : M E A) : M t A := on_attr env set_env m.

Definition __init__ (env : E) : Res t :=
  construct (mk env 0 true) (ret tt).

Definition step (action : Action) : M t StepResult :=
  '(obs, reward, done, info) <- self_env (gym.step action) ;;
  modify (set_was_real_done done) ;;
  new_lives <- self_env (get gym.ale_lives) ;;
  self_lives <- get lives ;;
  let done :=
    if (0 <? new_lives) && (new_lives <? self_lives) then true else done in
  modify (set_lives new_lives) ;;
  ret (obs, reward, done, info).

Definition reset (kwargs : Kwargs) : M t Obs :=
  was_real_done <- get was_real_done ;;
  obs <- (if was_real_done : bool
          then self_env (gym.reset kwargs)
          else '(obs, _, _, _) <- self_env (gym.step 0) ;; ret obs) ;;
  new_lives <- self_env (get gym.ale_lives) ;;
  modify (set_lives new_lives) ;;
  ret obs.

End Class.
Arguments t E : clear implicits.
End EpisodicLifeEnv.

(** ** MaxAndSkipEnv *)

Module MaxAndSkipEnv.
Section Class.
Context {E : Type} `{gym.Env E}.

(** [_obs_buffer] is the content of the two slots of the array, flattened;
    [_obs_buffer_dtype] is the dtype the array was made with. *)
Record t : Type := mk {
  env : E;
  _obs_buffer : Obs * Obs;
  _skip : Z;
  _obs_buffer_dtype : np.dtype
}.

Definition set_env (e : E) (self : t) : t :=
  mk e (_obs_buffer self) (_skip self) (_obs_buffer_dtype self).
Definition set_obs_buffer (buffer : Obs * Obs) (self : t) : t :=
  mk (env self) buffer (_skip self) (_obs_buffer_dtype self).
(** [self._obs_buffer[0] = obs] and [self._obs_buffer[1] = obs] *)
Definition set_slot0 (obs : Obs) : M t unit :=
  buffer <- get _obs_buffer ;;
  dtype <- get _obs_buffer_dtype ;;
  match np.assign dtype (fst buffer) obs with
  | Ok slot => modify (set_obs_buffer (slot, snd buffer))
  | Raise ex => raise ex
  end.
Definition set_slot1 (obs : Obs) : M t unit :=
  buffer <- get _obs_buffer ;;
  dtype <- get _obs_buffer_dtype ;;
  match np.assign dtype (snd buffer) obs with
  | Ok slot => modify (set_obs_buffer (fst buffer, slot))
  | Raise ex => raise ex
  end.
Definition self_env {A} (m : M E A) : M t A := on_attr env set_env m.

Definition __init__ (env : E) (skip : Z) : Res t :=
  let zeros := np.zeros (gym.observation_space_shape env) in
  construct
    (mk env (zeros, zeros) skip (gym.observation_space_dtype env))
    (ret tt).

(** The [for i in range(self._skip)] loop with [n] iterations left, at
    index [i].  [last] holds the [done] and [info] of the latest inner
    step; it is [None] while no inner step was made ([done = None], and
    [info] not bound yet). *)
Fixpoint step_loop (action : Action) (n : nat) (i : Z)
    (total_reward : Reward) (last : option (bool * Info))
  : M t (Reward * option (bool * Info)) :=
  match n with
  | O => ret (total_reward, last)
  | S n' =>
      '(obs, reward, done, info) <- self_env (gym.step action) ;;
      skip <- get _skip ;;
      (if i =? skip - 2 then set_slot0 obs else ret tt) ;;
      skip <- get _skip ;;
      (if i =? skip - 1 then set_slot1 obs else ret tt) ;;
      let total_reward := float_add total_reward reward in
      if done : bool
      then ret (total_reward, Some (done, info))
      else step_loop action n' (i + 1) total_reward (Some (done, info))
  end.

Definition step (action : Action) : M t StepResult :=
  skip <- get _skip ;;
  '(total_reward, last) <-
     step_loop action (Z.to_nat skip) 0 float_zero None ;;
  buffer <- get _obs_buffer ;;
  let max_frame := np.max_axis0 buffer in
  match last with
  | Some (done, info) => ret (max_frame, total_reward, done, info)
  | None => raise UnboundLocalError
  end.

Definition reset (kwargs : Kwargs) : M t Obs :=
  self_env (gym.reset kwargs).

End Class.
Arguments t E : clear implicits.
End MaxAndSkipEnv.

(** ** ClipRewardEnv *)

Module ClipRewardEnv.
Section Class.
Context {E : Type} `{gym.Env E}.

Record t : Type := mk { env : E }.

Definition set_env (e : E) (_ : t) : t := mk e.
Definition self_env {A} (m : M E A) : M t A := on_attr env set_env m.

Definition __init__ (env : E) : Res t :=
  construct (mk env) (ret tt).

Definition reward (reward : Reward) : Reward := np.sign reward.

(** Inherited from [gym.RewardWrapper]: the inner step, with
    [self.reward] applied to its reward. *)
Definition step (action : Action) : M t StepResult :=
  '(observation, r, done, info) <- self_env (gym.step action) ;;
  ret (observation, reward r, done, info).

Definition reset (kwargs : Kwargs) : M t Obs :=
  self_env (gym.reset kwargs).

End Class.
Arguments t E : clear implicits.
End ClipRewardEnv.

(** ** The wrappers are environments

    [gym.Wrapper] forwards [unwrapped], [spec] and [observation_space] to the
    wrapped environment. *)

#[export] Instance NoopResetEnv_Unwrapped {E} `{gym.Unwrapped E}
  : gym.Unwrapped (NoopResetEnv.t E) := {|
  gym.get_action_meanings self := gym.get_action_meanings (NoopResetEnv.env self);
  gym.ale_lives self := gym.ale_lives (NoopResetEnv.env self);
  gym.spec_id self := gym.spec_id (NoopResetEnv.env self);
  gym.observation_space_shape self :=
    gym.observation_space_shape (NoopResetEnv.env self);
  gym.observation_space_dtype self :=
    gym.observation_space_dtype (NoopResetEnv.env self)
|}.

#[export] Instance FireResetEnv_Unwrapped {E} `{gym.Unwrapped E}
  : gym.Unwrapped (FireResetEnv.t E) := {|
  gym.get_action_meanings self := gym.get_action_meanings (FireResetEnv.env self);
  gym.ale_lives self := gym.ale_lives (FireResetEnv.env self);
  gym.spec_id self := gym.spec_id (FireResetEnv.env self);
  gym.observation_space_shape self :=
    gym.observation_space_shape (FireResetEnv.env self);
  gym.observation_space_dtype self :=
    gym.observation_space_dtype (FireResetEnv.env self)
|}.

#[export] Instance EpisodicLifeEnv_Unwrapped {E} `{gym.Unwrapped E}
  : gym.Unwrapped (EpisodicLifeEnv.t E) := {|
  gym.get_action_meanings self :=
    gym.get_action_meanings (EpisodicLifeEnv.env self);
  gym.ale_lives self := gym.ale_lives (EpisodicLifeEnv.env self);
  gym.spec_id self := gym.spec_id (EpisodicLifeEnv.env self);
  gym.observation_space_shape self :=
    gym.observation_space_shape (EpisodicLifeEnv.env self);
  gym.observation_space_dtype self :=
    gym.observation_space_dtype (EpisodicLifeEnv.env self)
|}.

#[export] Instance MaxAndSkipEnv_Unwrapped {E} `{gym.Unwrapped E}
  : gym.Unwrapped (MaxAndSkipEnv.t E) := {|
  gym.get_action_meanings self :=
    gym.get_action_meanings (MaxAndSkipEnv.env self);
  gym.ale_lives self := gym.ale_lives (MaxAndSkipEnv.env self);
  gym.spec_id self := gym.spec_id (MaxAndSkipEnv.env self);
  gym.observation_space_shape self :=
    gym.observation_space_shape (MaxAndSkipEnv.env self);
  gym.observation_space_dtype self :=
    gym.observation_space_dtype (MaxAndSkipEnv.env self)
|}.

#[export] Instance ClipRewardEnv_Unwrapped {E} `{gym.Unwrapped E}
  : gym.Unwrapped (ClipRewardEnv.t E) := {|
  gym.get_action_meanings self :=
    gym.get_action_meanings (ClipRewardEnv.env self);
  gym.ale_lives self := gym.ale_lives (ClipRewardEnv.env self);
  gym.spec_id self := gym.spec_id (ClipRewardEnv.env self);
  gym.observation_space_shape self :=
    gym.observation_space_shape (ClipRewardEnv.env self);
  gym.observation_space_dtype self :=
    gym.observation_space_dtype (ClipRewardEnv.env self)
|}.

(** An outer wrapper unpacks what [NoopResetEnv.reset] returns as an
    observation; [None] is none. *)
Definition some_obs {S} (m : M S (option Obs)) : M S Obs :=
  o <- m ;;
  match o with
  | Some obs => ret obs
  | None => raise (EnvError "reset returned None")
  end.

#[export] Instance NoopResetEnv_Env {E} `{gym.Env E}
  : gym.Env (NoopResetEnv.t E) := {|
  gym.reset kwargs := some_obs (NoopResetEnv.reset kwargs);
  gym.step := NoopResetEnv.step;
  gym.np_random_randint low high :=
    NoopResetEnv.self_env (gym.np_random_randint low high)
|}.

#[export] Instance FireResetEnv_Env {E} `{gym.Env E}
  : gym.Env (FireResetEnv.t E) := {|
  gym.reset := FireResetEnv.reset;
  gym.step := FireResetEnv.step;
  gym.np_random_randint low high :=
    FireResetEnv.self_env (gym.np_random_randint low high)
|}.

#[export] Instance EpisodicLifeEnv_Env {E} `{gym.Env E}
  : gym.Env (EpisodicLifeEnv.t E) := {|
  gym.reset := EpisodicLifeEnv.reset;
  gym.step := EpisodicLifeEnv.step;
  gym.np_random_randint low high :=
    EpisodicLifeEnv.self_env (gym.np_random_randint low high)
|}.

#[export] Instance MaxAndSkipEnv_Env {E} `{gym.Env E}
  : gym.Env (MaxAndSkipEnv.t E) := {|
  gym.reset := MaxAndSkipEnv.reset;
  gym.step := MaxAndSkipEnv.step;
  gym.np_random_randint low high :=
    MaxAndSkipEnv.self_env (gym.np_random_randint low high)
|}.

#[export] Instance ClipRewardEnv_Env {E} `{gym.Env E}
  : gym.Env (ClipRewardEnv.t E) := {|
  gym.reset := ClipRewardEnv.reset;
  gym.step := ClipRewardEnv.step;
  gym.np_random_randint low high :=
    ClipRewardEnv.self_env (gym.np_random_randint low high)
|}.

(** ** wrap_atari *)

(** The environments [wrap_atari] handles: the base environment and the
    wrappers around it, innermost last.

    Modelled from the spec: the visual transform ([..image]: [image], [grey],
    [resize], [CHW] and the division by a number) and the frame stack
    ([..np_wrap]: [Stack]) are not part of the sources; each call is kept as
    a constructor holding the wrapped environment and the arguments of the
    call. *)
#[warnings="-register-all"]
Inductive AtariEnv (B : Type) : Type :=
| Base (b : B)
| NoopReset (w : NoopResetEnv.t (AtariEnv B))
| MaxAndSkip (w : MaxAndSkipEnv.t (AtariEnv B))
| EpisodicLife (w : EpisodicLifeEnv.t (AtariEnv B))
| FireReset (w : FireResetEnv.t (AtariEnv B))
| ClipReward (w : ClipRewardEnv.t (AtariEnv B))
| image (env : AtariEnv B)
| grey (env : AtariEnv B) (weights : Reward * Reward * Reward)
| resize (env : AtariEnv B) (width height channels : Z)
| CHW (env : AtariEnv B)
| truediv (env : AtariEnv B) (d : Z)
| Stack (env : AtariEnv B) (n : Z) (dim : Z).
Arguments Base {B} b.
Arguments NoopReset {B} w.
Arguments MaxAndSkip {B} w.
Arguments EpisodicLife {B} w.
Arguments FireReset {B} w.
Arguments ClipReward {B} w.
Arguments image {B} env.
Arguments grey {B} env weights.
Arguments resize {B} env width height channels.
Arguments CHW {B} env.
Arguments truediv {B} env d.
Arguments Stack {B} env n dim.

(** [env.unwrapped] *)
Fixpoint unwrapped {B} (e : AtariEnv B) : B :=
  match e with
  | Base b => b
  | NoopReset (NoopResetEnv.mk env _ _ _) => unwrapped env
  | MaxAndSkip (MaxAndSkipEnv.mk env _ _ _) => unwrapped env
  | EpisodicLife (EpisodicLifeEnv.mk env _ _) => unwrapped env
  | FireReset (FireResetEnv.mk env) => unwrapped env
  | ClipReward (ClipRewardEnv.mk env) => unwrapped env
  | image env | grey env _ | resize env _ _ _ | CHW env | truediv env _
  | Stack env _ _ => unwrapped env
  end.

#[export] Instance AtariEnv_Unwrapped {B} `{gym.Unwrapped B}
  : gym.Unwrapped (AtariEnv B) := {|
  gym.get_action_meanings e := gym.get_action_meanings (unwrapped e);
  gym.ale_lives e := gym.ale_lives (unwrapped e);
  gym.spec_id e := gym.spec_id (unwrapped e);
  gym.observation_space_shape e := gym.observation_space_shape (unwrapped e);
  gym.observation_space_dtype e := gym.observation_space_dtype (unwrapped e)
|}.

(** A constructor call inside a function body. *)
Definition new {S A B} (wrap : A -> B) (r : Res A) : M S B :=
  match r with
  | Ok a => ret (wrap a)
  | Raise e => raise e
  end.

(** The value a function body returns. *)
Definition call {A} (body : M unit A) : Res A := fst (body tt).

(** [1/3] *)
Definition one_third : Reward := float_div (float_of_Z 1) (float_of_Z 3).

Definition wrap_atari {B} `{gym.Unwrapped B} (env : AtariEnv B)
    (episode_life clip_rewards : bool) (frame_stack : Z)
  : Res (AtariEnv B) :=
  call (
    assert (contains "NoFrameskip" (gym.spec_id env)) ;;
    env <- new NoopReset (NoopResetEnv.__init__ env 30) ;;
    env <- new MaxAndSkip (MaxAndSkipEnv.__init__ env 4) ;;
    env <- (if episode_life
            then new EpisodicLife (EpisodicLifeEnv.__init__ env)
            else ret env) ;;
    env <- (if str_in "FIRE" (gym.get_action_meanings env)
            then new FireReset (FireResetEnv.__init__ env)
            else ret env) ;;
    let env := grey (image env) (one_third, one_third, one_third) in
    let env := truediv (CHW (resize env 84 84 1)) 255 in
    env <- (if clip_rewards
            then new ClipReward (ClipRewardEnv.__init__ env)
            else ret env) ;;
    env <- (if frame_stack >? 1
            then ret (Stack env frame_stack 0)
            else ret env) ;;
    ret env).

(** The layers of a wrapped environment, innermost first, each with the
    attributes it holds. *)
Inductive Layer : Type :=
| NoopResetLayer (noop_max : Z) (override_num_noops : option Z)
    (noop_action : Action)
| MaxAndSkipLayer (buffer : Obs * Obs) (skip : Z)
| EpisodicLifeLayer (lives : Z) (was_real_done : bool)
| FireResetLayer
| ClipRewardLayer
| ImageLayer
| GreyLayer (weights : Reward * Reward * Reward)
| ResizeLayer (width height channels : Z)
| CHWLayer
| TruedivLayer (d : Z)
| StackLayer (n dim : Z).

Fixpoint chain {B} (e : AtariEnv B) : list Layer :=
  match e with
  | Base _ => []
  | NoopReset (NoopResetEnv.mk env nm ov a) =>
      chain env ++ [NoopResetLayer nm ov a]
  | MaxAndSkip (MaxAndSkipEnv.mk env buffer skip _) =>
      chain env ++ [MaxAndSkipLayer buffer skip]
  | EpisodicLife (EpisodicLifeEnv.mk env l d) =>
      chain env ++ [EpisodicLifeLayer l d]
  | FireReset (FireResetEnv.mk env) => chain env ++ [FireResetLayer]
  | ClipReward (ClipRewardEnv.mk env) => chain env ++ [ClipRewardLayer]
  | image env => chain env ++ [ImageLayer]
  | grey env w => chain env ++ [GreyLayer w]
  | resize env w h c => chain env ++ [ResizeLayer w h c]
  | CHW env => chain env ++ [CHWLayer]
  | truediv env d => chain env ++ [TruedivLayer d]
  | Stack env n dim => chain env ++ [StackLayer n dim]
  end.

(** The chain of the pipeline, in the words of its description: the no-op
    reset with [noop_max = 30], the frame skip with [skip = 4] and a zeroed
    buffer, the episodic life if asked for, the fire reset if there is a
    "FIRE" action, the visual transform, the reward clipping if asked for,
    and the frame stack along axis 0 if its depth is above 1. *)
Definition atari_layers (shape : list nat)
    (fire episode_life clip_rewards : bool) (frame_stack : Z) : list Layer :=
  [NoopResetLayer 30 None 0;
   MaxAndSkipLayer (np.zeros shape, np.zeros shape) 4]
  ++ (if episode_life then [EpisodicLifeLayer 0 true] else [])
  ++ (if fire then [FireResetLayer] else [])
  ++ [ImageLayer; GreyLayer (one_third, one_third, one_third);
      ResizeLayer 84 84 1; CHWLayer; TruedivLayer 255]
  ++ (if clip_rewards then [ClipRewardLayer] else [])
  ++ (if frame_stack >? 1 then [StackLayer frame_stack 0] else []).

(** What the constructors called by [wrap_atari] ask of the action list. *)
Definition constructors_accept (m : list string) : Prop :=
  nth_error m 0 = Some "NOOP"
  /\ (str_in "FIRE" m = true ->
      nth_error m 1 = Some "FIRE" /\ (3 <= List.length m)%nat).

Definition constructors_acceptb (m : list string) : bool :=
  match m with
  | [] => false
  | m0 :: rest =>
      String.eqb m0 "NOOP"
      && (negb (str_in "FIRE" m)
          || match rest with
             | m1 :: _ :: _ => String.eqb m1 "FIRE"
             | _ => false
             end)
  end.

(** ** Observing the calls a wrapper makes

    [Spy.t E] is the environment [E] with a record of every [reset] and
    [step] call made on it, in order, with what the call returned. *)
Inductive Event : Type :=
| EvReset (kwargs : Kwargs) (r : Res Obs)
| EvStep (action : Action) (r : Res StepResult).

Module Spy.
Section Class.
Context {E : Type} `{gym.Env E}.

Record t : Type := mk { env : E; calls : list Event }.

Definition reset (kwargs : Kwargs) : M t Obs :=
  fun self =>
    let (r, e') := gym.reset kwargs (env self) in
    (r, mk e' (calls self ++ [EvReset kwargs r])).

Definition step (action : Action) : M t StepResult :=
  fun self =>
    let (r, e') := gym.step action (env self) in
    (r, mk e' (calls self ++ [EvStep action r])).

Definition np_random_randint (low high : Z) : M t Z :=
  fun self =>
    let (r, e') := gym.np_random_randint low high (env self) in
    (r, mk e' (calls self)).

End Class.
Arguments t E : clear implicits.
End Spy.

#[export] Instance Spy_Unwrapped {E} `{gym.Unwrapped E}
  : gym.Unwrapped (Spy.t E) := {|
  gym.get_action_meanings self := gym.get_action_meanings (Spy.env self);
  gym.ale_lives self := gym.ale_lives (Spy.env self);
  gym.spec_id self := gym.spec_id (Spy.env self);
  gym.observation_space_shape self :=
    gym.observation_space_shape (Spy.env self);
  gym.observation_space_dtype self :=
    gym.observation_space_dtype (Spy.env self)
|}.

#[export] Instance Spy_Env {E} `{gym.Env E} : gym.Env (Spy.t E) := {|
  gym.reset := Spy.reset;
  gym.step := Spy.step;
  gym.np_random_randint := Spy.np_random_randint
|}.

(** ** The same environment with other rewards

    [Tamper.t E] behaves as [E] does, except that every reward a step
    returns is replaced by [f] of it. *)
Module Tamper.
Section Class.
Context {E : Type} `{gym.Env E}.

Record t : Type := mk { env : E; f : Reward -> Reward }.

Definition set_env (e : E) (self : t) : t := mk e (f self).
Definition self_env {A} (m : M E A) : M t A := on_attr env set_env m.

Definition reset (kwargs : Kwargs) : M t Obs :=
  self_env (gym.reset kwargs).

Definition step (action : Action) : M t StepResult :=
  '(obs, reward, done, info) <- self_env (gym.step action) ;;
  f <- get f ;;
  ret (obs, f reward, done, info).

End Class.
Arguments t E : clear implicits.
End Tamper.

#[export] Instance Tamper_Unwrapped {E} `{gym.Unwrapped E}
  : gym.Unwrapped (Tamper.t E) := {|
  gym.get_action_meanings self := gym.get_action_meanings (Tamper.env self);
  gym.ale_lives self := gym.ale_lives (Tamper.env self);
  gym.spec_id self := gym.spec_id (Tamper.env self);
  gym.observation_space_shape self :=
    gym.observation_space_shape (Tamper.env self);
  gym.observation_space_dtype self :=
    gym.observation_space_dtype (Tamper.env self)
|}.

#[export] Instance Tamper_Env {E} `{gym.Env E} : gym.Env (Tamper.t E) := {|
  gym.reset := Tamper.reset;
  gym.step := Tamper.step;
  gym.np_random_randint low high :=
    Tamper.self_env (gym.np_random_randint low high)
|}.

(** ** A scripted engine

    A deterministic environment for running the wrappers on: every step
    plays the next entry of [script] (the tuple to return and the lives left
    after it), whatever the action; when the script is over the game is. *)
Module Scripted.

Record t : Type := mk {
  script : list (StepResult * Z);
  lives : Z;
  first_obs : Obs;
  full_lives : Z;
  seed : Z;
  meanings : list string;
  id : string;
  shape : list nat
}.

Definition reset (kwargs : Kwargs) : M t Obs :=
  fun s =>
    (Ok (first_obs s),
     mk (script s) (full_lives s) (first_obs s) (full_lives s) (seed s)
        (meanings s) (id s) (shape s)).

Definition step (action : Action) : M t StepResult :=
  fun s =>
    match script s with
    | [] => (Ok (first_obs s, float_zero, true, []), s)
    | (r, l) :: rest =>
        (Ok r,
         mk rest l (first_obs s) (full_lives s) (seed s)
            (meanings s) (id s) (shape s))
    end.

(** [randint(low, high)] draws from [low, high) and fails on an empty
    range, as numpy does. *)
Definition np_random_randint (low high : Z) : M t Z :=
  fun s =>
    if low <? high
    then (Ok (low + seed s mod (high - low)),
          mk (script s) (lives s) (first_obs s) (full_lives s)
             (seed s * 5 + 3) (meanings s) (id s) (shape s))
    else (Raise ValueError, s).

End Scripted.

#[export] Instance Scripted_Unwrapped : gym.Unwrapped Scripted.t := {|
  gym.get_action_meanings := Scripted.meanings;
  gym.ale_lives := Scripted.lives;
  gym.spec_id := Scripted.id;
  gym.observation_space_shape := Scripted.shape;
  gym.observation_space_dtype _ := np.uint8
|}.

#[export] Instance Scripted_Env : gym.Env Scripted.t := {|
  gym.reset := Scripted.reset;
  gym.step := Scripted.step;
  gym.np_random_randint := Scripted.np_random_randint
|}.

(** ** Reading step results and call records *)

Definition sr_obs (r : StepResult) : Obs := let '(o, _, _, _) := r in o.
Definition sr_reward (r : StepResult) : Reward := let '(_, x, _, _) := r in x.
Definition sr_done (r : StepResult) : bool := let '(_, _, d, _) := r in d.
Definition sr_info (r : StepResult) : Info := let '(_, _, _, i) := r in i.

(** The rewards summed the way the loop does: from [0.0], left to right. *)
Definition sum_rewards (rs : list StepResult) : Reward :=
  fold_left float_add (map sr_reward rs) float_zero.

(** No step but the last one reported [done]. *)
Fixpoint none_done_before_last (rs : list StepResult) : bool :=
  match rs with
  | [] => true
  | r :: rs' =>
      match rs' with
      | [] => true
      | _ :: _ => negb (sr_done r) && none_done_before_last rs'
      end
  end.

(** A buffer slot after a window of inner steps [rs]: the observation of the
    step at index [k] when that index was reached, the old content
    otherwise. *)
Definition slot_after (old : Obs) (k : Z) (rs : list StepResult) : Obs :=
  if k <? 0 then old
  else match nth_error rs (Z.to_nat k) with
       | Some r => sr_obs r
       | None => old
       end.

Definition is_step (ev : Event) : bool :=
  match ev with EvStep _ _ => true | EvReset _ _ => false end.

Definition count_steps (evs : list Event) : Z :=
  Z.of_nat (List.length (filter is_step evs)).

(** Every step of the record was made with action [a] and returned. *)
Definition steps_with (a : Action) (evs : list Event) : bool :=
  forallb (fun ev => match ev with
                     | EvStep a' r => (a' =? a) && is_ok r
                     | EvReset _ _ => true
                     end) evs.

(** Every step that reported [done] is directly followed by a reset. *)
Fixpoint reset_follows_done (evs : list Event) : bool :=
  match evs with
  | [] => true
  | ev :: rest =>
      match ev with
      | EvStep _ (Ok (_, _, true, _)) =>
          match rest with
          | EvReset _ _ :: _ => reset_follows_done rest
          | _ => false
          end
      | _ => reset_follows_done rest
      end
  end.

(** [obs] is what the call [ev] returned, and [ev] left the environment in
    a live state: a reset, or a step that did not report [done]. *)
Definition live_obs (ev : Event) (obs : Obs) : Prop :=
  match ev with
  | EvReset _ (Ok o) => o = obs
  | EvStep _ (Ok (o, _, d, _)) => o = obs /\ d = false
  | _ => False
  end.

(** The attributes [NoopResetEnv] sets at construction are left as they
    were. *)
Definition same_config {E} (self self' : NoopResetEnv.t E) : Prop :=
  NoopResetEnv.noop_max self' = NoopResetEnv.noop_max self
  /\ NoopResetEnv.override_num_noops self'
     = NoopResetEnv.override_num_noops self
  /\ NoopResetEnv.noop_action self' = NoopResetEnv.noop_action self.

(** The number of no-ops is well defined: [override_num_noops] is positive
    when it is set. *)
Definition override_positive {E} (self : NoopResetEnv.t E) : Prop :=
  match NoopResetEnv.override_num_noops self with
  | Some k => 0 < k
  | None => True
  end.

(** The calls a [FireResetEnv.reset] makes after its first reset, given what
    the two steps returned and what the resets after them did. *)
Definition fire_calls (kwargs : Kwargs) (r1 r2 : StepResult)
    (after1 after2 : Res Obs) : list Event :=
  [EvStep 1 (Ok r1)]
  ++ (if sr_done r1 then [EvReset kwargs after1] else [])
  ++ [EvStep 2 (Ok r2)]
  ++ (if sr_done r2 then [EvReset kwargs after2] else []).

(** A wrapper put on the tampered environment instead. *)
Definition tamper_noop {E} (f : Reward -> Reward) (self : NoopResetEnv.t E)
  : NoopResetEnv.t (Tamper.t E) :=
  NoopResetEnv.mk (Tamper.mk (NoopResetEnv.env self) f)
    (NoopResetEnv.noop_max self) (NoopResetEnv.override_num_noops self)
    (NoopResetEnv.noop_action self).

Definition tamper_fire {E} (f : Reward -> Reward) (self : FireResetEnv.t E)
  : FireResetEnv.t (Tamper.t E) :=
  FireResetEnv.mk (Tamper.mk (FireResetEnv.env self) f).

Definition tamper_life {E} (f : Reward -> Reward) (self : EpisodicLifeEnv.t E)
  : EpisodicLifeEnv.t (Tamper.t E) :=
  EpisodicLifeEnv.mk (Tamper.mk (EpisodicLifeEnv.env self) f)
    (EpisodicLifeEnv.lives self) (EpisodicLifeEnv.was_real_done self).

(** A wrapper with the spy taken off its inner environment. *)
Definition unspy_noop {E} (self : NoopResetEnv.t (Spy.t E))
  : NoopResetEnv.t E :=
  NoopResetEnv.mk (Spy.env (NoopResetEnv.env self))
    (NoopResetEnv.noop_max self) (NoopResetEnv.override_num_noops self)
    (NoopResetEnv.noop_action self).

Definition unspy_fire {E} (self : FireResetEnv.t (Spy.t E))
  : FireResetEnv.t E :=
  FireResetEnv.mk (Spy.env (FireResetEnv.env self)).

Definition unspy_life {E} (self : EpisodicLifeEnv.t (Spy.t E))
  : EpisodicLifeEnv.t E :=
  EpisodicLifeEnv.mk (Spy.env (EpisodicLifeEnv.env self))
    (EpisodicLifeEnv.lives self) (EpisodicLifeEnv.was_real_done self).

Definition unspy_skip {E} (self : MaxAndSkipEnv.t (Spy.t E))
  : MaxAndSkipEnv.t E :=
  MaxAndSkipEnv.mk (Spy.env (MaxAndSkipEnv.env self))
    (MaxAndSkipEnv._obs_buffer self) (MaxAndSkipEnv._skip self)
    (MaxAndSkipEnv._obs_buffer_dtype self).

(** The result of a method with the object it leaves mapped by [g]. *)
Definition map_self {S S' A} (g : S -> S') (x : Res A * S) : Res A * S' :=
  (fst x, g (snd x)).

(** The floats [5.0] and [-3.2]: the latter is the double nearest to
    [-32/10], which a correctly rounded division yields. *)
Definition float_5_0 : Reward := Eval vm_compute in float_of_Z 5.
Definition float_minus_3_2 : Reward :=
  Eval vm_compute in float_div (float_of_Z (-32)) (float_of_Z 10).

(** A two-pixel frame, and a script entry showing it. *)
Definition frame (v : Z) : Obs := [v; 255 - v].

Definition plays (v : Z) (reward : Reward) (done : bool) (lives : Z)
  : StepResult * Z :=
  ((frame v, reward, done, []), lives).

(** A game of three lives: a life is lost on the 2nd step and the game ends
    on the 6th. *)
Definition breakout : Scripted.t :=
  Scripted.mk
    [plays 1 float_zero false 3; plays 2 float_one false 2;
     plays 3 float_5_0 false 2; plays 4 float_zero false 2;
     plays 5 float_one false 2; plays 6 float_minus_3_2 true 0]
    3 (frame 0) 3 11 ["NOOP"; "FIRE"; "RIGHT"; "LEFT"]
    "BreakoutNoFrameskip-v4" [2%nat].

(** The same game one step later, about to lose a life. *)
Definition breakout_losing : Scripted.t :=
  Scripted.mk
    [plays 2 float_one false 2; plays 3 float_5_0 false 2;
     plays 4 float_zero false 2; plays 5 float_one true 0]
    3 (frame 1) 3 11 ["NOOP"; "FIRE"; "RIGHT"; "LEFT"]
    "BreakoutNoFrameskip-v4" [2%nat].

(** A game that ends on its 2nd step. *)
Definition breakout_ending : Scripted.t :=
  Scripted.mk
    [plays 5 float_one false 1; plays 6 float_5_0 true 0;
     plays 7 float_one false 0]
    1 (frame 4) 3 11 ["NOOP"; "FIRE"; "RIGHT"; "LEFT"]
    "BreakoutNoFrameskip-v4" [2%nat].

Definition spied (e : Scripted.t) : Spy.t Scripted.t := Spy.mk e [].

(** A game whose frames are what the script says, pixel by pixel. *)
Definition shows (frames : list Obs) : Scripted.t :=
  Scripted.mk (map (fun obs => ((obs, float_one, false, []), 3)) frames)
    3 (frame 0) 3 11 ["NOOP"; "FIRE"; "RIGHT"; "LEFT"]
    "BreakoutNoFrameskip-v4" [2%nat].

(** Frames with pixels outside of [uint8], frames of three pixels, and
    frames of a single pixel. *)
Definition overexposed : Scripted.t := shows [[300; -45]; [256; -1]].
Definition widescreen : Scripted.t :=
  shows [[1; 2; 3]; [4; 5; 6]; [7; 8; 9]; [10; 11; 12]].
Definition pinhole : Scripted.t := shows [[7]; [9]].

(** A game of three lives that loses one on its 3rd and on its 7th step and
    never ends. *)
Definition losing_lives : Scripted.t :=
  Scripted.mk
    [plays 1 float_zero false 3; plays 2 float_zero false 3;
     plays 3 float_zero false 2; plays 4 float_one false 2;
     plays 5 float_zero false 2; plays 6 float_zero false 2;
     plays 7 float_zero false 1; plays 8 float_zero false 1]
    3 (frame 0) 3 11 ["NOOP"; "FIRE"; "RIGHT"; "LEFT"]
    "BreakoutNoFrameskip-v4" [2%nat].

(** The [done] flags of a run of steps, one per action. *)
Fixpoint play {S} (step : Action -> M S StepResult) (actions : list Action)
  : M S (list bool) :=
  match actions with
  | [] => ret []
  | a :: rest =>
      r <- step a ;;
      ds <- play step rest ;;
      ret (sr_done r :: ds)
  end.

(** An engine of a no-frameskip game whose "FIRE" action is not at
    index 1. *)
Definition fire_last_engine : Scripted.t :=
  Scripted.mk [] 0 [0] 0 0 ["NOOP"; "UP"; "FIRE"] "PongNoFrameskip-v4"
    [1%nat].

(** An engine whose action list is too short to have an index 1. *)
Definition one_action_engine : Scripted.t :=
  Scripted.mk [] 0 [0] 0 0 ["NOOP"] "PongNoFrameskip-v4" [1%nat].

(** The buffer after the inner step of index [i] returned [obs], a frame
    that the buffer takes as it is. *)
Definition store (i skip : Z) (obs : Obs) (buffer : Obs * Obs) : Obs * Obs :=
  (if i =? skip - 2 then obs else fst buffer,
   if i =? skip - 1 then obs else snd buffer).

(** The buffer after the stores of the iteration of index [i], or the
    exception of the store that failed. *)
Definition stored (i skip : Z) (dt : np.dtype) (obs : Obs)
    (buffer : Obs * Obs) : Res (Obs * Obs) :=
  match (if i =? skip - 2 then np.assign dt (fst buffer) obs
         else Ok (fst buffer)) with
  | Raise ex => Raise ex
  | Ok slot0 =>
      match (if i =? skip - 1 then np.assign dt (snd buffer) obs
             else Ok (snd buffer)) with
      | Raise ex => Raise ex
      | Ok slot1 => Ok (slot0, slot1)
      end
  end.

(** A frame that the buffer takes as it is: of the size of a slot, with
    every pixel a value of the dtype. *)
Definition fits (dt : np.dtype) (size : nat) (obs : Obs) : Prop :=
  List.length obs = size /\ Forall (np.in_range dt) obs.

(** Every frame the environment returns from a step is one. *)
Definition frames_fit {E} `{gym.Env E} (dt : np.dtype) (size : nat) : Prop :=
  forall action (e : E) r e',
    gym.step action e = (Ok r, e') -> fits dt size (sr_obs r).

(** A frame numpy refuses to store in a slot: it has neither the slot's
    size nor a single element to broadcast. *)
Definition misfit (slot obs : Obs) : Prop :=
  List.length obs <> List.length slot /\ List.length obs <> 1%nat.

(** [done] and [info] after a window of inner steps. *)
Definition last_result (rs : list StepResult) (init : option (bool * Info))
  : option (bool * Info) :=
  fold_left (fun _ r => Some (sr_done r, sr_info r)) rs init.

(** An environment that never raises, and whose random generator keeps to
    the range it is asked for. *)
Class WellBehaved (E : Type) `{gym.Env E} : Prop := {
  reset_returns : forall kwargs e,
    exists obs e', gym.reset kwargs e = (Ok obs, e');
  step_returns : forall action e,
    exists r e', gym.step action e = (Ok r, e');
  randint_range : forall low high e, low < high ->
    exists n e', gym.np_random_randint low high e = (Ok n, e')
                 /\ low <= n < high
}.

(** ** More on call records *)

(** The call returned. *)
Definition ev_ok (ev : Event) : bool :=
  match ev with
  | EvReset _ r => is_ok r
  | EvStep _ r => is_ok r
  end.

(** The exception of the first call that raised, if any did. *)
Fixpoint raised (evs : list Event) : option Exn :=
  match evs with
  | [] => None
  | EvReset _ (Raise ex) :: _ => Some ex
  | EvStep _ (Raise ex) :: _ => Some ex
  | _ :: rest => raised rest
  end.

(** No call was made after one that raised. *)
Fixpoint stops_at_raise (evs : list Event) : bool :=
  match evs with
  | [] => true
  | ev :: rest =>
      if ev_ok ev then stops_at_raise rest
      else match rest with [] => true | _ :: _ => false end
  end.

Definition is_reset (ev : Event) : bool :=
  match ev with EvReset _ _ => true | EvStep _ _ => false end.

Definition count_resets (evs : list Event) : Z :=
  Z.of_nat (List.length (filter is_reset evs)).

Definition is_done_step (ev : Event) : bool :=
  match ev with
  | EvStep _ (Ok (_, _, d, _)) => d
  | _ => false
  end.

(** The steps of the record that reported [done]. *)
Definition count_done (evs : list Event) : Z :=
  Z.of_nat (List.length (filter is_done_step evs)).

(** A frame skip put on the environment itself instead of on its
    [NoopResetEnv]. *)
Definition strip_noop {E} (self : MaxAndSkipEnv.t (NoopResetEnv.t E))
  : MaxAndSkipEnv.t E :=
  MaxAndSkipEnv.mk (NoopResetEnv.env (MaxAndSkipEnv.env self))
    (MaxAndSkipEnv._obs_buffer self) (MaxAndSkipEnv._skip self)
    (MaxAndSkipEnv._obs_buffer_dtype self).

(** The [NoopResetEnv] put back under a frame skip. *)
Definition put_noop {E} (noop : NoopResetEnv.t E) (self : MaxAndSkipEnv.t E)
  : MaxAndSkipEnv.t (NoopResetEnv.t E) :=
  MaxAndSkipEnv.mk (NoopResetEnv.set_env (MaxAndSkipEnv.env self) noop)
    (MaxAndSkipEnv._obs_buffer self) (MaxAndSkipEnv._skip self)
    (MaxAndSkipEnv._obs_buffer_dtype self).

(** Every frame the environment returns from a step has [n] pixels. *)
Definition frames_of_size {E} `{gym.Env E} (n : nat) : Prop :=
  forall action (e : E) r e',
    gym.step action e = (Ok r, e') -> List.length (sr_obs r) = n.

(** An engine with a fuse: it plays [fuse] frames and then every call on it
    raises. *)
Module Fused.

Record t : Type := mk { fuse : nat; played : Z }.

Definition reset (kwargs : Kwargs) : M t Obs :=
  fun s =>
    match fuse s with
    | O => (Raise (EnvError "engine crashed"), s)
    | S k => (Ok (frame 0), mk k 0)
    end.

Definition step (action : Action) : M t StepResult :=
  fun s =>
    match fuse s with
    | O => (Raise (EnvError "engine crashed"), s)
    | S k => (Ok (frame (played s + 1), float_one, false, []),
              mk k (played s + 1))
    end.

Definition np_random_randint (low high : Z) : M t Z :=
  fun s => if low <? high then (Ok low, s) else (Raise ValueError, s).

End Fused.

#[export] Instance Fused_Unwrapped : gym.Unwrapped Fused.t := {|
  gym.get_action_meanings _ := ["NOOP"; "FIRE"; "UP"];
  gym.ale_lives _ := 1;
  gym.spec_id _ := "FusedNoFrameskip-v0";
  gym.observation_space_shape _ := [2%nat];
  gym.observation_space_dtype _ := np.uint8
|}.

#[export] Instance Fused_Env : gym.Env Fused.t := {|
  gym.reset := Fused.reset;
  gym.step := Fused.step;
  gym.np_random_randint := Fused.np_random_randint
|}.

(** An engine that never stops: frame [t] at tick [t], of two pixels, and
    [done] on every third tick. *)
Module Ticker.

Record t : Type := mk { tick : Z; seed : Z }.

Definition reset (kwargs : Kwargs) : M t Obs :=
  fun s => (Ok (frame 0), mk 0 (seed s)).

Definition step (action : Action) : M t StepResult :=
  fun s =>
    (Ok (frame (tick s + 1), float_one, (tick s + 1) mod 3 =? 0, []),
     mk (tick s + 1) (seed s)).

Definition np_random_randint (low high : Z) : M t Z :=
  fun s =>
    if low <? high
    then (Ok (low + seed s mod (high - low)), mk (tick s) (seed s * 5 + 3))
    else (Raise ValueError, s).

End Ticker.

#[export] Instance Ticker_Unwrapped : gym.Unwrapped Ticker.t := {|
  gym.get_action_meanings _ := ["NOOP"; "FIRE"; "UP"];
  gym.ale_lives s := 3 - (Ticker.tick s / 3) mod 3;
  gym.spec_id _ := "TickerNoFrameskip-v0";
  gym.observation_space_shape _ := [2%nat];
  gym.observation_space_dtype _ := np.uint8
|}.

#[export] Instance Ticker_Env : gym.Env Ticker.t := {|
  gym.reset := Ticker.reset;
  gym.step := Ticker.step;
  gym.np_random_randint := Ticker.np_random_randint
|}.

(** An engine whose frames are always two pixels of a byte each: frame
    [t mod 256] at tick [t], and [done] on every fifth tick. *)
Module Pacer.

Record t : Type := mk { tick : Z; seed : Z }.

Definition reset (kwargs : Kwargs) : M t Obs :=
  fun s => (Ok (frame 0), mk 0 (seed s)).

Definition step (action : Action) : M t StepResult :=
  fun s =>
    (Ok (frame ((tick s + 1) mod 256), float_one, (tick s + 1) mod 5 =? 0,
         []),
     mk (tick s + 1) (seed s)).

Definition np_random_randint (low high : Z) : M t Z :=
  fun s =>
    if low <? high
    then (Ok (low + seed s mod (high - low)), mk (tick s) (seed s * 5 + 3))
    else (Raise ValueError, s).

End Pacer.

#[export] Instance Pacer_Unwrapped : gym.Unwrapped Pacer.t := {|
  gym.get_action_meanings _ := ["NOOP"; "FIRE"; "UP"];
  gym.ale_lives s := 3 - (Pacer.tick s / 5) mod 3;
  gym.spec_id _ := "PacerNoFrameskip-v0";
  gym.observation_space_shape _ := [2%nat];
  gym.observation_space_dtype _ := np.uint8
|}.

#[export] Instance Pacer_Env : gym.Env Pacer.t := {|
  gym.reset := Pacer.reset;
  gym.step := Pacer.step;
  gym.np_random_randint := Pacer.np_random_randint
|}.

(** The exception a result carries. *)
Definition exn_of {A} (r : Res A) : option Exn :=
  match r with Ok _ => None | Raise ex => Some ex end.

(** * Properties *)

(** ** The fixtures are well behaved *)

#[export] Instance Scripted_WellBehaved : WellBehaved Scripted.t.
Proof.
  split.
  - intros kwargs e. eexists _, _. reflexivity.
  - intros action e. cbn. unfold Scripted.step.
    destruct (Scripted.script e) as [|[r l] rest]; eexists _, _; reflexivity.
  - intros low high e Hlt. cbn. unfold Scripted.np_random_randint.
    apply Z.ltb_lt in Hlt as Hb. rewrite Hb. eexists _, _. split; [reflexivity|].
    pose proof (Z.mod_pos_bound (Scripted.seed e) (high - low)). lia.
Qed.

#[export] Instance Spy_WellBehaved {E} `{WellBehaved E} : WellBehaved (Spy.t E).
Proof.
  split.
  - intros kwargs [e log]. cbn. unfold Spy.reset. cbn.
    destruct (reset_returns kwargs e) as (obs & e' & ->). eexists _, _. reflexivity.
  - intros action [e log]. cbn. unfold Spy.step. cbn.
    destruct (step_returns action e) as (r & e' & ->). eexists _, _. reflexivity.
  - intros low high [e log] Hlt. cbn. unfold Spy.np_random_randint. cbn.
    destruct (randint_range low high e Hlt) as (n & e' & -> & Hn).
    eexists _, _. split; [reflexivity|exact Hn].
Qed.

(** Unfolds the plumbing of method bodies. *)
Ltac run :=
  cbv [bind ret raise get modify assert on_attr construct new call getitem
       some_obs NoopResetEnv.self_env FireResetEnv.self_env
       EpisodicLifeEnv.self_env MaxAndSkipEnv.self_env
       ClipRewardEnv.self_env Tamper.self_env] in *;
  cbn in *.

#[export] Instance Pacer_WellBehaved : WellBehaved Pacer.t.
Proof.
  split.
  - intros kwargs e. eexists _, _. reflexivity.
  - intros action e. eexists _, _. reflexivity.
  - intros low high e Hlt. cbn. unfold Pacer.np_random_randint.
    apply Z.ltb_lt in Hlt as Hb. rewrite Hb. eexists _, _.
    split; [reflexivity|].
    pose proof (Z.mod_pos_bound (Pacer.seed e) (high - low)). lia.
Qed.

(** The frames of the pacer have two pixels in the range of [uint8]. *)
Lemma Pacer_frames_fit : frames_fit (E:=Pacer.t) np.uint8 2.
Proof.
  intros action e r e' Hstep. cbn in Hstep. unfold Pacer.step in Hstep.
  injection Hstep as <- _. cbn [sr_obs]. unfold frame, fits.
  split; [reflexivity|].
  pose proof (Z.mod_pos_bound (Pacer.tick e + 1) 256 ltac:(lia)) as Hv.
  apply Forall_cons; [|apply Forall_cons; [|apply Forall_nil]];
    cbv [np.in_range np.signed np.bits]; change (2 ^ 8) with 256; lia.
Qed.

(** ** Calls on a spied environment *)

Section SpyCalls.
Context {E : Type} `{WellBehaved E}.

(** A step of the spied inner environment, spelled out. *)
Lemma spy_step (action : Action) (spy : Spy.t E) :
  exists r e',
    gym.step action (Spy.env spy) = (Ok r, e')
    /\ Spy.step action spy
       = (Ok r, Spy.mk e' (Spy.calls spy ++ [EvStep action (Ok r)])).
Proof.
  destruct (step_returns action (Spy.env spy)) as (r & e' & Hs).
  exists r, e'. split; [exact Hs|].
  unfold Spy.step. rewrite Hs. reflexivity.
Qed.

Lemma spy_reset (kwargs : Kwargs) (spy : Spy.t E) :
  exists obs e',
    gym.reset kwargs (Spy.env spy) = (Ok obs, e')
    /\ Spy.reset kwargs spy
       = (Ok obs, Spy.mk e' (Spy.calls spy ++ [EvReset kwargs (Ok obs)])).
Proof.
  destruct (reset_returns kwargs (Spy.env spy)) as (obs & e' & Hs).
  exists obs, e'. split; [exact Hs|].
  unfold Spy.reset. rewrite Hs. reflexivity.
Qed.

Lemma spy_randint (low high : Z) (spy : Spy.t E) :
  low < high ->
  exists n e',
    low <= n < high
    /\ Spy.np_random_randint low high spy
       = (Ok n, Spy.mk e' (Spy.calls spy)).
Proof.
  intros Hlt.
  destruct (randint_range low high (Spy.env spy) Hlt) as (n & e' & Hs & Hn).
  exists n, e'. split; [exact Hn|].
  unfold Spy.np_random_randint. rewrite Hs. reflexivity.
Qed.

End SpyCalls.

(** ** EpisodicLifeEnv *)

Section EpisodicLife.
Context {E : Type} `{WellBehaved E}.
Import EpisodicLifeEnv.

(** C9. A freshly constructed [EpisodicLifeEnv] has [lives = 0] and
    [was_real_done = True], and its first [reset] is a real inner reset,
    whatever the inner environment is and whatever that reset does. *)
Theorem EpisodicLifeEnv_first_reset_is_real
    (spy : Spy.t E) (kwargs : Kwargs) :
  exists self,
    __init__ spy = Ok self
    /\ lives self = 0
    /\ was_real_done self = true
    /\ fst (reset kwargs self) = fst (gym.reset kwargs (Spy.env spy))
    /\ Spy.calls (env (snd (reset kwargs self)))
       = Spy.calls spy
         ++ [EvReset kwargs (fst (gym.reset kwargs (Spy.env spy)))].
Proof.
  eexists. split; [reflexivity|]. split; [reflexivity|].
  split; [reflexivity|].
  unfold reset. run. unfold Spy.reset.
  destruct (gym.reset kwargs (Spy.env spy)) as [[obs|ex] e']; cbn;
    split; reflexivity.
Qed.

(** C1. [EpisodicLifeEnv.step] makes one inner step with the action it was
    given, stores the inner [done] in [was_real_done], and returns the
    inner observation, reward and info with a [done] that is true exactly
    when the inner one was or the lives went down to a positive count;
    afterwards [lives] is the count of the engine. *)
Theorem EpisodicLifeEnv_step_spec
    (action : Action) (self : EpisodicLifeEnv.t (Spy.t E)) :
  exists obs reward done info e' done' self',
    gym.step action (Spy.env (env self)) = (Ok (obs, reward, done, info), e')
    /\ step action self = (Ok (obs, reward, done', info), self')
    /\ (done' = true <->
        done = true \/ 0 < gym.ale_lives e' < lives self)
    /\ was_real_done self' = done
    /\ lives self' = gym.ale_lives e'
    /\ env self'
       = Spy.mk e' (Spy.calls (env self)
                    ++ [EvStep action (Ok (obs, reward, done, info))]).
Proof.
  destruct self as [spy l wrd].
  destruct (spy_step action spy) as ([[[obs reward] done] info] & e' & Hin & Hspy).
  exists obs, reward, done, info, e'.
  unfold step. run. rewrite Hspy. cbn.
  eexists _, _. split; [exact Hin|]. split; [reflexivity|].
  repeat split; try reflexivity.
  - destruct (0 <? gym.ale_lives e') eqn:Hpos,
             (gym.ale_lives e' <? l) eqn:Hless;
      cbn; intros Hd; auto; right;
      apply Z.ltb_lt in Hpos; apply Z.ltb_lt in Hless; lia.
  - intros [Hd | [Hpos Hless]].
    + subst done. destruct (_ && _); reflexivity.
    + apply Z.ltb_lt in Hpos, Hless. rewrite Hpos, Hless. reflexivity.
Qed.

(** C2. [EpisodicLifeEnv.reset] makes a real inner reset when
    [was_real_done] holds and a single inner step with action 0, and no
    reset, otherwise; it returns the observation of that call and leaves
    [lives] at the count of the engine. *)
Theorem EpisodicLifeEnv_reset_spec
    (kwargs : Kwargs) (self : EpisodicLifeEnv.t (Spy.t E)) :
  exists obs self',
    reset kwargs self = (Ok obs, self')
    /\ lives self' = gym.ale_lives (env self')
    /\ if was_real_done self
       then exists e',
           gym.reset kwargs (Spy.env (env self)) = (Ok obs, e')
           /\ env self'
              = Spy.mk e' (Spy.calls (env self)
                           ++ [EvReset kwargs (Ok obs)])
       else exists reward done info e',
           gym.step 0 (Spy.env (env self))
           = (Ok (obs, reward, done, info), e')
           /\ env self'
              = Spy.mk e' (Spy.calls (env self)
                           ++ [EvStep 0 (Ok (obs, reward, done, info))]).
Proof.
  destruct self as [spy l [|]].
  - destruct (spy_reset kwargs spy) as (obs & e' & Hin & Hspy).
    unfold reset. run. rewrite Hspy. cbn.
    eexists _, _. split; [reflexivity|]. split; [reflexivity|].
    exists e'. split; [exact Hin|reflexivity].
  - destruct (spy_step 0 spy) as ([[[obs reward] done] info] & e' & Hin & Hspy).
    unfold reset. run. rewrite Hspy. cbn.
    eexists _, _. split; [reflexivity|]. split; [reflexivity|].
    exists reward, done, info, e'. split; [exact Hin|reflexivity].
Qed.

End EpisodicLife.

(** ** NoopResetEnv *)

Section NoopResetLoop.
Context {E : Type} `{gym.Env E}.
Import NoopResetEnv.

(** One iteration whose step reported [done]: the environment is reset and
    the loop goes on with the observation of the reset. *)
Lemma reset_loop_done kwargs n obs e nm ov a o rw i e1 o2 e2 :
  gym.step a e = (Ok (o, rw, true, i), e1) ->
  gym.reset kwargs e1 = (Ok o2, e2) ->
  reset_loop kwargs (S n) obs (mk e nm ov a)
  = reset_loop kwargs n (Some o2) (mk e2 nm ov a).
Proof.
  intros Hstep Hreset. cbn [reset_loop]. run.
  rewrite Hstep. cbn. rewrite Hreset. reflexivity.
Qed.

(** One iteration whose step did not: the loop goes on with the
    observation of the step. *)
Lemma reset_loop_live kwargs n obs e nm ov a o rw i e1 :
  gym.step a e = (Ok (o, rw, false, i), e1) ->
  reset_loop kwargs (S n) obs (mk e nm ov a)
  = reset_loop kwargs n (Some o) (mk e1 nm ov a).
Proof.
  intros Hstep. cbn [reset_loop]. run.
  rewrite Hstep. reflexivity.
Qed.

End NoopResetLoop.

Section NoopReset.
Context {E : Type} `{WellBehaved E}.
Import NoopResetEnv.

(** What a constructed [NoopResetEnv] holds: the no-op action is action 0,
    which the engine calls "NOOP". *)
Lemma NoopResetEnv_init_attrs (env : Spy.t E) (nm : Z) self :
  __init__ env nm = Ok self ->
  self = mk env nm None 0
  /\ nth_error (gym.get_action_meanings env) 0 = Some "NOOP".
Proof.
  unfold __init__, construct, bind, getitem.
  destruct (nth_error (gym.get_action_meanings env) 0) as [m0|] eqn:Hm0;
    [|discriminate].
  unfold ret, assert.
  destruct (String.eqb m0 "NOOP") eqn:Heq; [|discriminate].
  apply String.eqb_eq in Heq. subst m0.
  intros Hok. injection Hok as <-. split; reflexivity.
Qed.

(** The loop of [n] iterations: [n] steps with the no-op action, a reset
    right after each one that reported [done], and the observation of the
    last call as the result. *)
Lemma reset_loop_spec (kwargs : Kwargs) (n : nat) :
  forall (obs : option Obs) (self : NoopResetEnv.t (Spy.t E)),
  exists evs obs' self',
    reset_loop kwargs n obs self = (Ok obs', self')
    /\ Spy.calls (env self') = Spy.calls (env self) ++ evs
    /\ count_steps evs = Z.of_nat n
    /\ steps_with (noop_action self) evs = true
    /\ reset_follows_done evs = true
    /\ match n with
       | O => obs' = obs /\ evs = []
       | S _ => exists o evs0 ev,
           obs' = Some o /\ evs = evs0 ++ [ev] /\ live_obs ev o
       end
    /\ same_config self self'.
Proof.
  induction n as [|n IH]; intros obs self.
  - exists [], obs, self. cbn. rewrite app_nil_r.
    repeat split; reflexivity.
  - destruct self as [spy nm ov a].
    destruct (spy_step a spy) as ([[[o rw] d] i] & e1 & _ & Hstep).
    destruct d.
    + destruct (spy_reset kwargs
                  (Spy.mk e1 (Spy.calls spy
                              ++ [EvStep a (Ok (o, rw, true, i))])))
        as (o2 & e2 & _ & Hreset).
      pose proof (reset_loop_done (E:=Spy.t E) kwargs n obs spy nm ov a
                    o rw i _ o2 _ Hstep Hreset) as Hiter.
      rewrite Hiter.
      destruct (IH (Some o2) (mk (Spy.mk e2 (Spy.calls
                  (Spy.mk e1 (Spy.calls spy
                              ++ [EvStep a (Ok (o, rw, true, i))]))
                  ++ [EvReset kwargs (Ok o2)])) nm ov a))
        as (evs & obs' & self' & Hrun & Hcalls & Hcount & Hact & Hfollow
            & Hlast & Hcfg).
      exists (EvStep a (Ok (o, rw, true, i))
              :: EvReset kwargs (Ok o2) :: evs), obs', self'.
      split; [exact Hrun|]. cbn [env Spy.calls Spy.env noop_action] in *.
      split; [rewrite Hcalls, <- !app_assoc; reflexivity|].
      split; [unfold count_steps in *; cbn [filter is_step List.length];
              lia|].
      split; [unfold steps_with in *; cbn [forallb is_ok];
              rewrite Z.eqb_refl, Hact; reflexivity|].
      split; [exact Hfollow|].
      split; [|exact Hcfg].
      destruct n as [|n].
      * destruct Hlast as [-> ->].
        exists o2, [EvStep a (Ok (o, rw, true, i))], (EvReset kwargs (Ok o2)).
        repeat split; reflexivity.
      * destruct Hlast as (o' & evs0 & ev & -> & -> & Hlive).
        exists o', (EvStep a (Ok (o, rw, true, i))
                    :: EvReset kwargs (Ok o2) :: evs0), ev.
        repeat split; auto.
    + pose proof (reset_loop_live (E:=Spy.t E) kwargs n obs spy nm ov a
                    o rw i _ Hstep) as Hiter.
      rewrite Hiter.
      destruct (IH (Some o)
                  (mk (Spy.mk e1 (Spy.calls spy
                                  ++ [EvStep a (Ok (o, rw, false, i))]))
                      nm ov a))
        as (evs & obs' & self' & Hrun & Hcalls & Hcount & Hact & Hfollow
            & Hlast & Hcfg).
      exists (EvStep a (Ok (o, rw, false, i)) :: evs), obs', self'.
      split; [exact Hrun|]. cbn [env Spy.calls Spy.env noop_action] in *.
      split; [rewrite Hcalls, <- !app_assoc; reflexivity|].
      split; [unfold count_steps in *; cbn [filter is_step List.length];
              lia|].
      split; [unfold steps_with in *; cbn [forallb is_ok];
              rewrite Z.eqb_refl, Hact; reflexivity|].
      split; [exact Hfollow|].
      split; [|exact Hcfg].
      destruct n as [|n].
      * destruct Hlast as [-> ->].
        exists o, [], (EvStep a (Ok (o, rw, false, i))).
        repeat split; reflexivity.
      * destruct Hlast as (o' & evs0 & ev & -> & -> & Hlive).
        exists o', (EvStep a (Ok (o, rw, false, i)) :: evs0), ev.
        repeat split; auto.
Qed.

(** A whole [reset]: the inner reset, then [noops] iterations. *)
Lemma reset_run (kwargs : Kwargs) (self : NoopResetEnv.t (Spy.t E)) :
  1 <= noop_max self ->
  override_positive self ->
  exists r0 noops evs obs self',
    reset kwargs self = (Ok (Some obs), self')
    /\ Spy.calls (env self')
       = Spy.calls (env self) ++ EvReset kwargs r0 :: evs
    /\ match override_num_noops self with
       | Some k => noops = k
       | None => 1 <= noops <= noop_max self
       end
    /\ count_steps evs = noops
    /\ steps_with (noop_action self) evs = true
    /\ reset_follows_done evs = true
    /\ (exists evs0 ev, evs = evs0 ++ [ev] /\ live_obs ev obs)
    /\ same_config self self'.
Proof.
  destruct self as [spy nm ov a]. unfold override_positive. cbn.
  intros Hmax Hov.
  destruct (spy_reset kwargs spy) as (o0 & e0 & _ & Hreset).
  assert (Hloop : forall noops spy0,
    0 < noops ->
    Spy.calls spy0 = Spy.calls spy ++ [EvReset kwargs (Ok o0)] ->
    exists evs obs self',
      reset_loop kwargs (Z.to_nat noops) None (mk spy0 nm ov a)
      = (Ok (Some obs), self')
      /\ Spy.calls (env self')
         = Spy.calls spy ++ EvReset kwargs (Ok o0) :: evs
      /\ count_steps evs = noops
      /\ steps_with a evs = true
      /\ reset_follows_done evs = true
      /\ (exists evs0 ev, evs = evs0 ++ [ev] /\ live_obs ev obs)
      /\ same_config (mk spy nm ov a) self').
  { intros noops spy0 Hpos Hcalls0.
    destruct (reset_loop_spec kwargs (Z.to_nat noops) None (mk spy0 nm ov a))
      as (evs & obs' & self' & Hrun & Hcalls & Hcount & Hact & Hfollow
          & Hlast & Hcfg).
    destruct (Z.to_nat noops) as [|n] eqn:Hn; [lia|].
    destruct Hlast as (o & evs0 & ev & -> & -> & Hlive).
    exists (evs0 ++ [ev]), o, self'. cbn in Hcalls, Hact.
    split; [exact Hrun|].
    split; [rewrite Hcalls, Hcalls0, <- app_assoc; reflexivity|].
    split; [lia|].
    split; [exact Hact|]. split; [exact Hfollow|].
    split; [exists evs0, ev; auto|exact Hcfg]. }
  unfold reset. run. rewrite Hreset. cbn.
  destruct ov as [k|];
    cbn [env set_env noop_max override_num_noops noop_action].
  - assert (Hk : (k >? 0) = true) by (apply Z.gtb_lt; lia).
    rewrite Hk. cbn.
    destruct (Hloop k (Spy.mk e0 (Spy.calls spy ++ [EvReset kwargs (Ok o0)])))
      as (evs & obs & self' & Hrun & Hrest); [lia|reflexivity|].
    exists (Ok o0), k, evs, obs, self'. split; [exact Hrun|].
    destruct Hrest as (Hc & Hn & Ha & Hf & Hl & Hcfg).
    split; [exact Hc|]. split; [reflexivity|]. split; [exact Hn|].
    split; [exact Ha|]. split; [exact Hf|]. split; [exact Hl|exact Hcfg].
  - destruct (spy_randint 1 (nm + 1)
                (Spy.mk e0 (Spy.calls spy ++ [EvReset kwargs (Ok o0)])))
      as (k & e1 & Hrange & Hrand); [lia|].
    rewrite Hrand. cbn.
    assert (Hk : (k >? 0) = true) by (apply Z.gtb_lt; lia).
    rewrite Hk. cbn.
    destruct (Hloop k (Spy.mk e1 (Spy.calls spy ++ [EvReset kwargs (Ok o0)])))
      as (evs & obs & self' & Hrun & Hrest); [lia|reflexivity|].
    exists (Ok o0), k, evs, obs, self'. split; [exact Hrun|].
    destruct Hrest as (Hc & Hn & Ha & Hf & Hl & Hcfg).
    split; [exact Hc|]. split; [lia|]. split; [exact Hn|].
    split; [exact Ha|]. split; [exact Hf|]. split; [exact Hl|exact Hcfg].
Qed.

(** C4. With [noop_max >= 1], a [reset] of [NoopResetEnv] returns (its
    assertion holds), and the inner steps it makes are all no-op steps:
    between 1 and [noop_max] of them when [override_num_noops] is not
    set, exactly [override_num_noops] when it is set and positive.  The
    attributes are left as they were, so this holds for every reset. *)
Theorem NoopResetEnv_reset_noop_count
    (kwargs : Kwargs) (self : NoopResetEnv.t (Spy.t E)) :
  1 <= noop_max self ->
  override_positive self ->
  exists r0 evs obs self',
    reset kwargs self = (Ok obs, self')
    /\ Spy.calls (env self')
       = Spy.calls (env self) ++ EvReset kwargs r0 :: evs
    /\ steps_with (noop_action self) evs = true
    /\ match override_num_noops self with
       | Some k => count_steps evs = k
       | None => 1 <= count_steps evs <= noop_max self
       end
    /\ same_config self self'.
Proof.
  intros Hmax Hov.
  destruct (reset_run kwargs self Hmax Hov)
    as (r0 & noops & evs & obs & self' & Hrun & Hcalls & Hnoops & Hcount
        & Hact & _ & _ & Hcfg).
  exists r0, evs, (Some obs), self'.
  split; [exact Hrun|]. split; [exact Hcalls|]. split; [exact Hact|].
  split; [|exact Hcfg].
  destruct (override_num_noops self); lia.
Qed.

(** A whole [reset] again, with the number of iterations named: it is
    [override_num_noops] when that is set, and otherwise the number the
    generator of the engine draws after the inner reset; the loop makes
    that many steps whatever they report. *)
Lemma reset_run_drawn (kwargs : Kwargs) (self : NoopResetEnv.t (Spy.t E)) :
  1 <= noop_max self ->
  override_positive self ->
  exists r0 noops evs obs self',
    reset kwargs self = (Ok (Some obs), self')
    /\ Spy.calls (env self')
       = Spy.calls (env self) ++ EvReset kwargs r0 :: evs
    /\ match override_num_noops self with
       | Some k => noops = k
       | None =>
           exists o0 e0 e1,
             gym.reset kwargs (Spy.env (env self)) = (Ok o0, e0)
             /\ gym.np_random_randint 1 (noop_max self + 1) e0
                = (Ok noops, e1)
       end
    /\ count_steps evs = noops
    /\ 1 <= noops
    /\ reset_follows_done evs = true
    /\ (exists evs0 ev, evs = evs0 ++ [ev] /\ live_obs ev obs).
Proof.
  destruct self as [spy nm ov a]. unfold override_positive. cbn.
  intros Hmax Hov.
  destruct (spy_reset kwargs spy) as (o0 & e0 & Hinner & Hreset).
  assert (Hloop : forall noops spy0,
    0 < noops ->
    Spy.calls spy0 = Spy.calls spy ++ [EvReset kwargs (Ok o0)] ->
    exists evs obs self',
      reset_loop kwargs (Z.to_nat noops) None (mk spy0 nm ov a)
      = (Ok (Some obs), self')
      /\ Spy.calls (env self')
         = Spy.calls spy ++ EvReset kwargs (Ok o0) :: evs
      /\ count_steps evs = noops
      /\ reset_follows_done evs = true
      /\ (exists evs0 ev, evs = evs0 ++ [ev] /\ live_obs ev obs)).
  { intros noops spy0 Hpos Hcalls0.
    destruct (reset_loop_spec kwargs (Z.to_nat noops) None (mk spy0 nm ov a))
      as (evs & obs' & self' & Hrun & Hcalls & Hcount & _ & Hfollow
          & Hlast & _).
    destruct (Z.to_nat noops) as [|n] eqn:Hn; [lia|].
    destruct Hlast as (o & evs0 & ev & -> & -> & Hlive).
    exists (evs0 ++ [ev]), o, self'. cbn in Hcalls.
    split; [exact Hrun|].
    split; [rewrite Hcalls, Hcalls0, <- app_assoc; reflexivity|].
    split; [lia|]. split; [exact Hfollow|].
    exists evs0, ev; auto. }
  unfold reset. run. rewrite Hreset. cbn.
  destruct ov as [k|];
    cbn [env set_env noop_max override_num_noops noop_action].
  - assert (Hk : (k >? 0) = true) by (apply Z.gtb_lt; lia).
    rewrite Hk. cbn.
    destruct (Hloop k (Spy.mk e0 (Spy.calls spy ++ [EvReset kwargs (Ok o0)])))
      as (evs & obs & self' & Hrun & Hc & Hn & Hf & Hl); [lia|reflexivity|].
    exists (Ok o0), k, evs, obs, self'. split; [exact Hrun|].
    split; [exact Hc|]. split; [reflexivity|]. split; [exact Hn|].
    split; [lia|]. split; [exact Hf|exact Hl].
  - destruct (randint_range 1 (nm + 1) e0 ltac:(lia))
      as (k & e1 & Hdraw & Hrange).
    assert (Hrand : Spy.np_random_randint 1 (nm + 1)
                      (Spy.mk e0 (Spy.calls spy ++ [EvReset kwargs (Ok o0)]))
                    = (Ok k,
                       Spy.mk e1 (Spy.calls spy ++ [EvReset kwargs (Ok o0)]))).
    { unfold Spy.np_random_randint. cbn. rewrite Hdraw. reflexivity. }
    rewrite Hrand. cbn.
    assert (Hk : (k >? 0) = true) by (apply Z.gtb_lt; lia).
    rewrite Hk. cbn.
    destruct (Hloop k (Spy.mk e1 (Spy.calls spy ++ [EvReset kwargs (Ok o0)])))
      as (evs & obs & self' & Hrun & Hc & Hn & Hf & Hl); [lia|reflexivity|].
    exists (Ok o0), k, evs, obs, self'. split; [exact Hrun|].
    split; [exact Hc|].
    split; [exists o0, e0, e1; split; [exact Hinner|exact Hdraw]|].
    split; [exact Hn|]. split; [lia|]. split; [exact Hf|exact Hl].
Qed.

(** C5. With [noop_max >= 1], every no-op step of a [reset] that reports
    [done] is directly followed by an inner reset, and the loop continues:
    it makes [noops] steps whatever they report, where [noops] is
    [override_num_noops] when that is set and otherwise the number drawn
    from the generator of the engine after the inner reset.  The
    observation returned is that of the last inner call, which is a reset
    or a step that did not report [done]. *)
Theorem NoopResetEnv_reset_returns_live_obs
    (kwargs : Kwargs) (self : NoopResetEnv.t (Spy.t E)) :
  1 <= noop_max self ->
  override_positive self ->
  exists r0 noops evs evs0 ev obs self',
    reset kwargs self = (Ok (Some obs), self')
    /\ Spy.calls (env self')
       = Spy.calls (env self) ++ EvReset kwargs r0 :: evs
    /\ match override_num_noops self with
       | Some k => noops = k
       | None =>
           exists o0 e0 e1,
             gym.reset kwargs (Spy.env (env self)) = (Ok o0, e0)
             /\ gym.np_random_randint 1 (noop_max self + 1) e0
                = (Ok noops, e1)
       end
    /\ count_steps evs = noops
    /\ reset_follows_done evs = true
    /\ 1 <= count_steps evs
    /\ evs = evs0 ++ [ev]
    /\ live_obs ev obs.
Proof.
  intros Hmax Hov.
  destruct (reset_run_drawn kwargs self Hmax Hov)
    as (r0 & noops & evs & obs & self' & Hrun & Hcalls & Hnoops & Hcount
        & Hpos & Hfollow & (evs0 & ev & Hevs & Hlive)).
  exists r0, noops, evs, evs0, ev, obs, self'.
  split; [exact Hrun|]. split; [exact Hcalls|]. split; [exact Hnoops|].
  split; [exact Hcount|]. split; [exact Hfollow|].
  split; [lia|]. split; [exact Hevs|exact Hlive].
Qed.

End NoopReset.

(** ** FireResetEnv *)

Section FireResetInit.
Context {E : Type} `{gym.Unwrapped E}.
Import FireResetEnv.

(** What decides the construction. *)
Lemma FireResetEnv_init_cases (env : E) :
  let m := gym.get_action_meanings env in
  (nth_error m 1 = None /\ (List.length m < 2)%nat
   /\ __init__ env = Raise IndexError)
  \/ (exists m1, nth_error m 1 = Some m1 /\ (2 <= List.length m)%nat
      /\ ((m1 = "FIRE" /\ (3 <= List.length m)%nat
           /\ __init__ env = Ok (mk env))
          \/ ((m1 <> "FIRE" \/ (List.length m < 3)%nat)
              /\ __init__ env = Raise AssertionError))).
Proof.
  intros m. unfold __init__, construct, bind, getitem. fold m.
  destruct (nth_error m 1) as [m1|] eqn:Hm1.
  - right. exists m1. split; [reflexivity|].
    assert (Hs : nth_error m 1 <> None) by congruence.
    apply nth_error_Some in Hs. split; [lia|].
    unfold ret, assert.
    destruct (String.eqb m1 "FIRE") eqn:Heq.
    + apply String.eqb_eq in Heq. rewrite Z.geb_leb.
      destruct (3 <=? _) eqn:Hle.
      * apply Z.leb_le in Hle. left.
        split; [exact Heq|]. split; [lia|reflexivity].
      * apply Z.leb_gt in Hle. right. split; [right; lia|reflexivity].
    + apply String.eqb_neq in Heq. right.
      split; [left; exact Heq|reflexivity].
  - left. split; [reflexivity|].
    apply nth_error_None in Hm1. split; [lia|reflexivity].
Qed.

End FireResetInit.

Section FireReset.
Context {E : Type} `{WellBehaved E}.
Import FireResetEnv.

(** C6, as amended.  The construction of a [FireResetEnv] succeeds exactly
    when the action list has "FIRE" at index 1 and at least 3 entries; it
    fails on an assertion when the list has an index 1 and misses one of
    the two, and on an index error when the list has no index 1.  Every
    [reset] resets the inner environment, steps with action 1, resets
    again if that step reported [done], steps with action 2, resets again
    if that step reported [done], and returns the observation of the
    action-2 step. *)
Theorem FireResetEnv_spec
    (spy : Spy.t E) (kwargs : Kwargs) (self : FireResetEnv.t (Spy.t E)) :
  let m := gym.get_action_meanings spy in
  let fire_ready :=
    nth_error m 1 = Some "FIRE" /\ (3 <= List.length m)%nat in
  (__init__ spy = Ok (mk spy) <-> fire_ready)
  /\ (__init__ spy = Raise AssertionError
      <-> (2 <= List.length m)%nat /\ ~ fire_ready)
  /\ (__init__ spy = Raise IndexError <-> (List.length m < 2)%nat)
  /\ exists r0 r1 r2 after1 after2 self',
      reset kwargs self = (Ok (sr_obs r2), self')
      /\ Spy.calls (env self')
         = Spy.calls (env self)
           ++ EvReset kwargs r0 :: fire_calls kwargs r1 r2 after1 after2.
Proof.
  intros m fire_ready. subst fire_ready.
  pose proof (FireResetEnv_init_cases spy) as Hinit. cbn zeta in Hinit.
  fold m in Hinit.
  split; [|split; [|split]].
  1-3: destruct Hinit as [(Hn & Hl & ->)
                         | (m1 & Hn & Hl & [(-> & Hl3 & ->) | (Hno & ->)])];
    rewrite ?Hn;
    (split; [try discriminate|]; intros Hx; try discriminate;
     repeat match goal with
            | Hc : _ /\ _ |- _ => destruct Hc
            | Hc : Some _ = Some _ |- _ => injection Hc as ->
            | Hc : _ \/ _ |- _ => destruct Hc
            end;
     try discriminate; try congruence; try lia;
     try (split; [reflexivity|lia]);
     try (split; [lia|]; intros [Heq Hl3]; try discriminate;
          try (injection Heq as ->); try congruence; try lia);
     try (exfalso; match goal with
                   | Hc : ~ _ |- _ => apply Hc; split; [reflexivity|lia]
                   end)).
  - destruct self as [spy0].
    destruct (spy_reset kwargs spy0) as (o0 & e0 & _ & Hr0).
    unfold reset. run. rewrite Hr0. cbn.
    match goal with
    | |- context [Spy.step 1 ?s] =>
        destruct (spy_step 1 s) as ([[[o1 rw1] d1] i1] & e1 & _ & Hs1)
    end.
    rewrite Hs1. cbn.
    destruct d1; cbn.
    + match goal with
      | |- context [Spy.reset kwargs ?s] =>
          destruct (spy_reset kwargs s) as (oa & ea & _ & Hra)
      end.
      rewrite Hra. cbn.
      match goal with
      | |- context [Spy.step 2 ?s] =>
          destruct (spy_step 2 s) as ([[[o2 rw2] d2] i2] & e2 & _ & Hs2)
      end.
      rewrite Hs2. cbn.
      destruct d2; cbn.
      * match goal with
        | |- context [Spy.reset kwargs ?s] =>
            destruct (spy_reset kwargs s) as (ob & eb & _ & Hrb)
        end.
        rewrite Hrb. cbn.
        exists (Ok o0), (o1, rw1, true, i1), (o2, rw2, true, i2),
          (Ok oa), (Ok ob). eexists. split; [reflexivity|].
        cbn. rewrite <- !app_assoc. reflexivity.
      * exists (Ok o0), (o1, rw1, true, i1), (o2, rw2, false, i2),
          (Ok oa), (Ok oa). eexists. split; [reflexivity|].
        cbn. rewrite <- !app_assoc. reflexivity.
    + match goal with
      | |- context [Spy.step 2 ?s] =>
          destruct (spy_step 2 s) as ([[[o2 rw2] d2] i2] & e2 & _ & Hs2)
      end.
      rewrite Hs2. cbn.
      destruct d2; cbn.
      * match goal with
        | |- context [Spy.reset kwargs ?s] =>
            destruct (spy_reset kwargs s) as (ob & eb & _ & Hrb)
        end.
        rewrite Hrb. cbn.
        exists (Ok o0), (o1, rw1, false, i1), (o2, rw2, true, i2),
          (Ok ob), (Ok ob). eexists. split; [reflexivity|].
        cbn. rewrite <- !app_assoc. reflexivity.
      * exists (Ok o0), (o1, rw1, false, i1), (o2, rw2, false, i2),
          (Ok o0), (Ok o0). eexists. split; [reflexivity|].
        cbn. rewrite <- !app_assoc. reflexivity.
Qed.

End FireReset.

(** ** MaxAndSkipEnv *)

Lemma cast_in_range (dt : np.dtype) (v : Z) :
  np.in_range dt v -> np.cast dt v = v.
Proof.
  unfold np.in_range, np.cast.
  destruct dt; cbn; intros Hv;
    try (rewrite Z.mod_small by lia; lia).
Qed.

Lemma assign_fits (dt : np.dtype) (slot obs : Obs) :
  fits dt (List.length slot) obs -> np.assign dt slot obs = Ok obs.
Proof.
  intros [Hlen Hrange]. unfold np.assign.
  rewrite Hlen, Nat.eqb_refl. apply f_equal.
  clear Hlen. induction Hrange as [|v obs Hv _ IH]; [reflexivity|].
  cbn [map]. rewrite IH, (cast_in_range dt v Hv). reflexivity.
Qed.

Lemma stored_fits (i skip : Z) (dt : np.dtype) (size : nat) (obs : Obs)
    (buffer : Obs * Obs) :
  fits dt size obs ->
  List.length (fst buffer) = size -> List.length (snd buffer) = size ->
  stored i skip dt obs buffer = Ok (store i skip obs buffer).
Proof.
  intros Hfit H0' H1'. unfold stored, store.
  rewrite !assign_fits by (rewrite ?H0', ?H1'; exact Hfit).
  destruct (i =? skip - 2), (i =? skip - 1); reflexivity.
Qed.

Lemma assign_raises (dt : np.dtype) (slot obs : Obs) (ex : Exn) :
  np.assign dt slot obs = Raise ex -> ex = ValueError /\ misfit slot obs.
Proof.
  unfold np.assign, misfit.
  destruct (Nat.eqb_spec (List.length obs) (List.length slot)) as [|Hne];
    [discriminate|].
  destruct obs as [|v [|w obs]]; try discriminate;
    intros Heq; injection Heq as <-;
    (split; [reflexivity|split; [exact Hne|cbn; lia]]).
Qed.

Lemma assign_length (dt : np.dtype) (slot obs slot' : Obs) :
  np.assign dt slot obs = Ok slot' -> List.length slot' = List.length slot.
Proof.
  unfold np.assign.
  destruct (Nat.eqb_spec (List.length obs) (List.length slot)) as [Heq|Hne].
  - intros Hok. injection Hok as <-. rewrite length_map. exact Heq.
  - destruct obs as [|v [|w obs]]; try discriminate.
    intros Hok. injection Hok as <-. apply repeat_length.
Qed.

(** The stores of one iteration keep the slots' sizes, and fail only with
    [ValueError] on a frame that does not fit the slot it goes to. *)
Lemma stored_cases (i skip : Z) (dt : np.dtype) (obs : Obs)
    (buffer : Obs * Obs) :
  match stored i skip dt obs buffer with
  | Ok buffer' =>
      List.length (fst buffer') = List.length (fst buffer)
      /\ List.length (snd buffer') = List.length (snd buffer)
  | Raise ex =>
      ex = ValueError
      /\ ((i = skip - 2 /\ misfit (fst buffer) obs)
          \/ (i = skip - 1 /\ misfit (snd buffer) obs))
  end.
Proof.
  unfold stored.
  destruct (Z.eqb_spec i (skip - 2)) as [H2|H2].
  - destruct (np.assign dt (fst buffer) obs) as [slot0|ex] eqn:H0'.
    + apply assign_length in H0'.
      destruct (Z.eqb_spec i (skip - 1)) as [H1'|H1']; [lia|].
      split; [exact H0'|reflexivity].
    + apply assign_raises in H0' as [-> Hmis].
      split; [reflexivity|]. left. split; assumption.
  - destruct (Z.eqb_spec i (skip - 1)) as [H1'|H1'].
    + destruct (np.assign dt (snd buffer) obs) as [slot1|ex] eqn:H1''.
      * apply assign_length in H1''. split; [reflexivity|exact H1''].
      * apply assign_raises in H1'' as [-> Hmis].
        split; [reflexivity|]. right. split; assumption.
    + split; reflexivity.
Qed.

Section MaxAndSkipLoop.
Context {E : Type} `{gym.Env E}.
Import MaxAndSkipEnv.

(** One iteration of the repeat loop: the inner step, the stores, and the
    rest of the loop unless the step reported [done] or a store raised. *)
Lemma step_loop_iter action n i total last e buffer skip dt o rw d inf e1 :
  gym.step action e = (Ok (o, rw, d, inf), e1) ->
  step_loop action (S n) i total last (mk e buffer skip dt)
  = match stored i skip dt o buffer with
    | Ok buffer' =>
        if d
        then (Ok (float_add total rw, Some (d, inf)), mk e1 buffer' skip dt)
        else step_loop action n (i + 1) (float_add total rw) (Some (d, inf))
               (mk e1 buffer' skip dt)
    | Raise ex => (Raise ex, mk e1 buffer skip dt)
    end.
Proof.
  intros Hstep. destruct buffer as [slot0 slot1].
  cbn [step_loop]. unfold set_slot0, set_slot1, stored. run.
  rewrite Hstep. cbn.
  destruct (Z.eqb_spec i (skip - 2)) as [H2|H2].
  - assert (Hn : (i =? skip - 1) = false) by (apply Z.eqb_neq; lia).
    rewrite ?Hn. cbn.
    destruct (np.assign dt slot0 o) as [s0|ex]; cbn; rewrite ?Hn; cbn;
      [destruct d; reflexivity | reflexivity].
  - cbn. destruct (Z.eqb_spec i (skip - 1)) as [H1'|H1']; cbn.
    + destruct (np.assign dt slot1 o) as [s1|ex]; cbn;
        [destruct d; reflexivity | reflexivity].
    + destruct d; reflexivity.
Qed.

(** The step around a loop that made at least one inner step. *)
Lemma step_of_loop action e buffer skip dt total d inf self' :
  step_loop action (Z.to_nat skip) 0 float_zero None (mk e buffer skip dt)
  = (Ok (total, Some (d, inf)), self') ->
  step action (mk e buffer skip dt)
  = (Ok (np.max_axis0 (_obs_buffer self'), total, d, inf), self').
Proof.
  intros Hloop. unfold step, bind, get. cbn [_skip].
  rewrite Hloop. reflexivity.
Qed.

End MaxAndSkipLoop.

Lemma slot_after_nil (old : Obs) (k : Z) : slot_after old k [] = old.
Proof.
  unfold slot_after. destruct (k <? 0); [reflexivity|].
  destruct (Z.to_nat k); reflexivity.
Qed.

Lemma slot_after_cons (old : Obs) (k : Z) (r : StepResult) rs :
  slot_after old k (r :: rs)
  = slot_after (if k =? 0 then sr_obs r else old) (k - 1) rs.
Proof.
  unfold slot_after.
  destruct (Z.ltb_spec k 0) as [Hk|Hk].
  - destruct (Z.eqb_spec k 0); [lia|].
    destruct (Z.ltb_spec (k - 1) 0); [reflexivity|lia].
  - destruct (Z.eqb_spec k 0) as [->|Hne].
    + reflexivity.
    + destruct (Z.ltb_spec (k - 1) 0); [lia|].
      replace (Z.to_nat k) with (S (Z.to_nat (k - 1))) by lia.
      reflexivity.
Qed.

Section MaxAndSkip.
Context {E : Type} `{WellBehaved E}.
Import MaxAndSkipEnv.

(** The repeat loop with [n] iterations left at index [i], on frames that
    have the slots' size and lie in the range of the buffer's dtype: it
    makes the inner steps [rs], at most [n] of them and fewer only when the
    last one reported [done]; it adds their rewards to [total] in order, and
    fills the two slots from the steps of index [skip - 2] and
    [skip - 1]. *)
Lemma step_loop_spec (action : Action) (dt : np.dtype) (size : nat)
    (n : nat) :
  frames_fit (E:=E) dt size ->
  forall i total last (spy : Spy.t E) (buffer : Obs * Obs) (skip : Z),
  List.length (fst buffer) = size -> List.length (snd buffer) = size ->
  exists rs self',
    step_loop action n i total last (mk spy buffer skip dt)
    = (Ok (fold_left float_add (map sr_reward rs) total,
           last_result rs last), self')
    /\ Spy.calls (env self')
       = Spy.calls spy ++ map (fun r => EvStep action (Ok r)) rs
    /\ (List.length rs <= n)%nat
    /\ (n <> O -> rs <> [])
    /\ none_done_before_last rs = true
    /\ ((List.length rs < n)%nat ->
        exists rs0 r, rs = rs0 ++ [r] /\ sr_done r = true)
    /\ _obs_buffer self'
       = (slot_after (fst buffer) (skip - 2 - i) rs,
          slot_after (snd buffer) (skip - 1 - i) rs)
    /\ _skip self' = skip
    /\ _obs_buffer_dtype self' = dt.
Proof.
  intros Hfit.
  induction n as [|n IH]; intros i total last spy buffer skip Hs0 Hs1.
  - exists [], (mk spy buffer skip dt).
    cbn [step_loop map fold_left last_result].
    rewrite !slot_after_nil, app_nil_r. unfold ret.
    repeat split; try reflexivity; try lia; try congruence.
    destruct buffer; reflexivity.
  - destruct (spy_step action spy)
      as ([[[o rw] d] inf] & e1 & Hinner & Hstep).
    pose proof (Hfit _ _ _ _ Hinner) as Ho. cbn [sr_obs] in Ho.
    pose proof (step_loop_iter (E:=Spy.t E) action n i total last spy
                  buffer skip dt o rw d inf _ Hstep) as Hiter.
    rewrite Hiter. clear Hiter.
    rewrite (stored_fits i skip dt size o buffer Ho Hs0 Hs1).
    destruct d.
    + exists [(o, rw, true, inf)]. eexists. split; [reflexivity|].
      cbn [env Spy.calls _obs_buffer _skip _obs_buffer_dtype map
           List.length].
      split; [reflexivity|]. split; [lia|]. split; [congruence|].
      split; [reflexivity|].
      split; [intros _; exists [], (o, rw, true, inf); split; reflexivity|].
      split; [|split; reflexivity].
      rewrite !slot_after_cons, !slot_after_nil. unfold store. cbn [sr_obs].
      f_equal.
      * destruct (Z.eqb_spec i (skip - 2)), (Z.eqb_spec (skip - 2 - i) 0);
          try reflexivity; lia.
      * destruct (Z.eqb_spec i (skip - 1)), (Z.eqb_spec (skip - 1 - i) 0);
          try reflexivity; lia.
    + assert (Hs0' : List.length (fst (store i skip o buffer)) = size).
      { unfold store. destruct Ho as [Hlen _].
        destruct (i =? skip - 2); cbn [fst]; assumption. }
      assert (Hs1' : List.length (snd (store i skip o buffer)) = size).
      { unfold store. destruct Ho as [Hlen _].
        destruct (i =? skip - 1); cbn [snd]; assumption. }
      destruct (IH (i + 1) (float_add total rw) (Some (false, inf))
                  (Spy.mk e1 (Spy.calls spy
                              ++ [EvStep action (Ok (o, rw, false, inf))]))
                  (store i skip o buffer) skip Hs0' Hs1')
        as (rs & self' & Hrun & Hcalls & Hlen & Hne & Hnone & Hearly
            & Hbuf & Hskip & Hdt).
      cbn [env Spy.calls _obs_buffer _skip] in *.
      exists ((o, rw, false, inf) :: rs), self'.
      split; [exact Hrun|].
      split; [rewrite Hcalls, <- app_assoc; reflexivity|].
      split; [cbn [List.length]; lia|]. split; [congruence|].
      split.
      { cbn [none_done_before_last sr_done negb andb].
        destruct rs; [reflexivity|exact Hnone]. }
      split.
      { intros Hlt. cbn [List.length] in Hlt.
        destruct Hearly as (rs0 & r & -> & Hd); [lia|].
        exists ((o, rw, false, inf) :: rs0), r. split; [reflexivity|exact Hd]. }
      split; [|split; [exact Hskip|exact Hdt]].
      rewrite Hbuf, !slot_after_cons. unfold store. cbn [fst snd sr_obs].
      f_equal.
      * replace (skip - 2 - (i + 1)) with (skip - 2 - i - 1) by lia.
        destruct (Z.eqb_spec i (skip - 2)), (Z.eqb_spec (skip - 2 - i) 0);
          try reflexivity; lia.
      * replace (skip - 1 - (i + 1)) with (skip - 1 - i - 1) by lia.
        destruct (Z.eqb_spec i (skip - 1)), (Z.eqb_spec (skip - 1 - i) 0);
          try reflexivity; lia.
Qed.

Lemma done_of_last (rs0' rs0 : list StepResult) r' r :
  rs0 ++ [r] = rs0' ++ [r'] -> sr_done r' = true -> sr_done r = true.
Proof.
  intros Heq Hd. apply app_inj_tail in Heq as [_ ->]. exact Hd.
Qed.

(** C3. With [skip = 4], on an inner environment whose frames have the
    size of the buffer's slots and lie in the range of its dtype (so that
    numpy stores them unchanged), [MaxAndSkipEnv.step] makes the inner
    steps [rs], all with the action it was given: at most 4, none but the last one
    reporting [done], and fewer than 4 only when the last one did.  It
    returns the sum of their rewards, with the [done] and [info] of the
    last one; slot 0 of the buffer takes the observation of the step of
    index 2 and slot 1 that of index 3, when they were made; and the
    observation returned is the element-wise maximum of the two slots.  In
    particular, when none of the first three steps reports [done] there
    are four steps and the observation is the maximum of the 3rd and 4th
    frames, and when the 2nd step reports [done] there are exactly two
    steps and the reward is the sum of theirs. *)
Theorem MaxAndSkipEnv_step_spec
    (action : Action) (size : nat) (self : MaxAndSkipEnv.t (Spy.t E)) :
  _skip self = 4 ->
  frames_fit (E:=E) (_obs_buffer_dtype self) size ->
  List.length (fst (_obs_buffer self)) = size ->
  List.length (snd (_obs_buffer self)) = size ->
  exists rs0 r max_frame self',
    let rs := rs0 ++ [r] in
    step action self
    = (Ok (max_frame, sum_rewards rs, sr_done r, sr_info r), self')
    /\ Spy.calls (env self')
       = Spy.calls (env self) ++ map (fun r => EvStep action (Ok r)) rs
    /\ (List.length rs <= 4)%nat
    /\ none_done_before_last rs = true
    /\ ((List.length rs < 4)%nat -> sr_done r = true)
    /\ _obs_buffer self'
       = (slot_after (fst (_obs_buffer self)) 2 rs,
          slot_after (snd (_obs_buffer self)) 3 rs)
    /\ max_frame
       = np.maximum (fst (_obs_buffer self')) (snd (_obs_buffer self'))
    /\ (forallb (fun r => negb (sr_done r)) (firstn 3 rs) = true ->
        exists r1 r2 r3 r4,
          rs = [r1; r2; r3; r4]
          /\ max_frame = np.maximum (sr_obs r3) (sr_obs r4))
    /\ (forall r1 r2 rest,
          rs = r1 :: r2 :: rest -> sr_done r2 = true ->
          rest = []
          /\ sum_rewards rs
             = float_add (float_add float_zero (sr_reward r1))
                 (sr_reward r2)).
Proof.
  destruct self as [spy buffer skip dt].
  cbn [_skip _obs_buffer _obs_buffer_dtype]. intros -> Hfit Hs0 Hs1.
  destruct (step_loop_spec action dt size 4 Hfit 0 float_zero None spy
              buffer 4 Hs0 Hs1)
    as (rs & self' & Hrun & Hcalls & Hlen & Hne & Hnone & Hearly
        & Hbuf & Hskip & Hdt).
  cbn [env _obs_buffer _skip] in *.
  assert (Hstep : forall rs0 r, rs = rs0 ++ [r] ->
    step action (mk spy buffer 4 dt)
    = (Ok (np.max_axis0 (_obs_buffer self'), sum_rewards rs,
           sr_done r, sr_info r), self')).
  { intros rs0 r ->. apply (step_of_loop (E:=Spy.t E)).
    change (Z.to_nat 4) with 4%nat. rewrite Hrun.
    unfold last_result, sum_rewards. rewrite fold_left_app. reflexivity. }
  assert (Hdone : forall rs0 r, rs = rs0 ++ [r] ->
    (List.length rs < 4)%nat -> sr_done r = true).
  { intros rs0 r Heq Hlt. destruct (Hearly Hlt) as (rs0' & r' & Heq' & Hd).
    apply (done_of_last rs0' rs0 r' r); congruence. }
  destruct rs as [|r1 [|r2 [|r3 [|r4 [|r5 rs]]]]];
    [exfalso; apply Hne; [lia|reflexivity]| | | | |cbn in Hlen; lia].
  - exists [], r1. eexists _, self'. cbn zeta.
    split; [apply (Hstep [] r1); reflexivity|].
    split; [exact Hcalls|]. split; [exact Hlen|]. split; [exact Hnone|].
    split; [apply (Hdone [] r1); reflexivity|].
    split; [exact Hbuf|]. split; [reflexivity|].
    split.
    + cbn. intros Hnd.
      rewrite (Hdone [] r1 eq_refl) in Hnd by (cbn; lia). discriminate.
    + intros ? ? ? Heq. discriminate.
  - exists [r1], r2. eexists _, self'. cbn zeta.
    split; [apply (Hstep [r1] r2); reflexivity|].
    split; [exact Hcalls|]. split; [exact Hlen|]. split; [exact Hnone|].
    split; [apply (Hdone [r1] r2); reflexivity|].
    split; [exact Hbuf|]. split; [reflexivity|].
    split.
    + cbn. intros Hnd.
      rewrite (Hdone [r1] r2 eq_refl) in Hnd by (cbn; lia).
      destruct (sr_done r1); discriminate.
    + intros ? ? ? Heq _. injection Heq as <- <- <-.
      split; reflexivity.
  - exists [r1; r2], r3. eexists _, self'. cbn zeta.
    split; [apply (Hstep [r1; r2] r3); reflexivity|].
    split; [exact Hcalls|]. split; [exact Hlen|]. split; [exact Hnone|].
    split; [apply (Hdone [r1; r2] r3); reflexivity|].
    split; [exact Hbuf|]. split; [reflexivity|].
    split.
    + cbn. intros Hnd.
      rewrite (Hdone [r1; r2] r3 eq_refl) in Hnd by (cbn; lia).
      destruct (sr_done r1), (sr_done r2); discriminate.
    + intros ? ? ? Heq Hd2. injection Heq as <- <- <-.
      cbn in Hnone. rewrite Hd2 in Hnone.
      destruct (sr_done r1); discriminate.
  - exists [r1; r2; r3], r4. eexists _, self'. cbn zeta.
    split; [apply (Hstep [r1; r2; r3] r4); reflexivity|].
    split; [exact Hcalls|]. split; [exact Hlen|]. split; [exact Hnone|].
    split; [cbn; lia|].
    split; [exact Hbuf|]. split; [reflexivity|].
    split.
    + intros _. exists r1, r2, r3, r4. split; [reflexivity|].
      rewrite Hbuf. reflexivity.
    + intros ? ? ? Heq Hd2. injection Heq as <- <- <-.
      cbn in Hnone. rewrite Hd2 in Hnone.
      destruct (sr_done r1); discriminate.
Qed.

End MaxAndSkip.

(** ** The spy only watches

    What a wrapper does on a spied environment is what it does on the
    environment itself, so that the call records below are records of the
    calls of the wrapper on any environment. *)

Section SpyTransparent.
Context {E : Type} `{gym.Env E}.

Lemma reset_loop_unspy (kwargs : Kwargs) (n : nat) :
  forall (obs : option Obs) (self : NoopResetEnv.t (Spy.t E)),
    map_self unspy_noop (NoopResetEnv.reset_loop kwargs n obs self)
    = NoopResetEnv.reset_loop kwargs n obs (unspy_noop self).
Proof.
  induction n as [|n IH]; intros obs [[e log] nm ov a]; [reflexivity|].
  cbn [NoopResetEnv.reset_loop]. unfold unspy_noop, map_self in *. run.
  unfold Spy.step. cbn.
  destruct (gym.step a e) as [[[[[o rw] d] i]|ex] e1]; cbn; [|reflexivity].
  destruct d; cbn.
  - unfold Spy.reset. cbn.
    destruct (gym.reset kwargs e1) as [[o2|ex] e2]; cbn; [|reflexivity].
    apply (IH (Some o2) (NoopResetEnv.mk (Spy.mk e2 _) nm ov a)).
  - apply (IH (Some o) (NoopResetEnv.mk (Spy.mk e1 _) nm ov a)).
Qed.

Lemma step_loop_unspy (action : Action) (n : nat) :
  forall i total last (self : MaxAndSkipEnv.t (Spy.t E)),
    map_self unspy_skip (MaxAndSkipEnv.step_loop action n i total last self)
    = MaxAndSkipEnv.step_loop action n i total last (unspy_skip self).
Proof.
  induction n as [|n IH]; intros i total last [[e log] buffer skip dt];
    [reflexivity|].
  destruct (gym.step action e) as [[[[[o rw] d] inf]|ex] e1] eqn:Hstep.
  - assert (Hspy : gym.step action (Spy.mk e log)
                   = (Ok (o, rw, d, inf),
                      Spy.mk e1 (log ++ [EvStep action (Ok (o, rw, d, inf))]))).
    { cbn. unfold Spy.step. cbn. rewrite Hstep. reflexivity. }
    pose proof (step_loop_iter (E:=Spy.t E) action n i total last
                  (Spy.mk e log) buffer skip dt o rw d inf _ Hspy) as Hl.
    pose proof (step_loop_iter (E:=E) action n i total last
                  e buffer skip dt o rw d inf _ Hstep) as Hr.
    unfold unspy_skip at 2. cbn [MaxAndSkipEnv.env MaxAndSkipEnv._obs_buffer
                                  MaxAndSkipEnv._skip
                                  MaxAndSkipEnv._obs_buffer_dtype Spy.env].
    rewrite Hl, Hr.
    destruct (stored i skip dt o buffer) as [buffer'|ex]; [|reflexivity].
    destruct d; [reflexivity|].
    apply (IH (i + 1) (float_add total rw) (Some (false, inf))
             (MaxAndSkipEnv.mk
                (Spy.mk e1 (log ++ [EvStep action (Ok (o, rw, false, inf))]))
                buffer' skip dt)).
  - cbn [MaxAndSkipEnv.step_loop]. unfold unspy_skip, map_self. run.
    unfold Spy.step. cbn. rewrite Hstep. reflexivity.
Qed.

Lemma spy_is_transparent (kwargs : Kwargs) (action : Action) :
  (forall self : NoopResetEnv.t (Spy.t E),
      map_self unspy_noop (NoopResetEnv.reset kwargs self)
      = NoopResetEnv.reset kwargs (unspy_noop self))
  /\ (forall self : FireResetEnv.t (Spy.t E),
      map_self unspy_fire (FireResetEnv.reset kwargs self)
      = FireResetEnv.reset kwargs (unspy_fire self))
  /\ (forall self : EpisodicLifeEnv.t (Spy.t E),
      map_self unspy_life (EpisodicLifeEnv.reset kwargs self)
      = EpisodicLifeEnv.reset kwargs (unspy_life self))
  /\ (forall self : EpisodicLifeEnv.t (Spy.t E),
      map_self unspy_life (EpisodicLifeEnv.step action self)
      = EpisodicLifeEnv.step action (unspy_life self))
  /\ (forall self : MaxAndSkipEnv.t (Spy.t E),
      map_self unspy_skip (MaxAndSkipEnv.step action self)
      = MaxAndSkipEnv.step action (unspy_skip self)).
Proof.
  split; [|split; [|split; [|split]]].
  - intros [[e log] nm ov a]. unfold NoopResetEnv.reset.
    pose proof (reset_loop_unspy kwargs) as Hloop.
    unfold unspy_noop, map_self in *. run.
    unfold Spy.reset, Spy.np_random_randint. cbn.
    destruct (gym.reset kwargs e) as [[o0|ex] e0]; cbn; [|reflexivity].
    destruct ov as [k|]; cbn.
    + destruct (k >? 0); cbn; [|reflexivity].
      apply (Hloop (Z.to_nat k) None
               (NoopResetEnv.mk (Spy.mk e0 _) nm (Some k) a)).
    + destruct (gym.np_random_randint 1 (nm + 1) e0) as [[k|ex] e1]; cbn;
        [|reflexivity].
      destruct (k >? 0); cbn; [|reflexivity].
      apply (Hloop (Z.to_nat k) None (NoopResetEnv.mk (Spy.mk e1 _) nm None a)).
  - intros [[e log]]. unfold FireResetEnv.reset, unspy_fire, map_self. run.
    unfold Spy.reset, Spy.step. cbn.
    destruct (gym.reset kwargs e) as [[o0|ex] e0]; cbn; [|reflexivity].
    destruct (gym.step 1 e0) as [[[[[o1 rw1] d1] i1]|ex] e1]; cbn;
      [|reflexivity].
    destruct d1; cbn.
    + destruct (gym.reset kwargs e1) as [[oa|ex] ea]; cbn; [|reflexivity].
      destruct (gym.step 2 ea) as [[[[[o2 rw2] d2] i2]|ex] e2]; cbn;
        [|reflexivity].
      destruct d2; cbn; [|reflexivity].
      destruct (gym.reset kwargs e2) as [[ob|ex] eb]; reflexivity.
    + destruct (gym.step 2 e1) as [[[[[o2 rw2] d2] i2]|ex] e2]; cbn;
        [|reflexivity].
      destruct d2; cbn; [|reflexivity].
      destruct (gym.reset kwargs e2) as [[ob|ex] eb]; reflexivity.
  - intros [[e log] l wrd]. unfold EpisodicLifeEnv.reset, unspy_life, map_self.
    run. unfold Spy.reset, Spy.step. cbn.
    destruct wrd; cbn.
    + destruct (gym.reset kwargs e) as [[o0|ex] e0]; reflexivity.
    + destruct (gym.step 0 e) as [[[[[o rw] d] i]|ex] e1]; reflexivity.
  - intros [[e log] l wrd]. unfold EpisodicLifeEnv.step, unspy_life, map_self.
    run. unfold Spy.step. cbn.
    destruct (gym.step action e) as [[[[[o rw] d] i]|ex] e1]; reflexivity.
  - intros [[e log] buffer skip dt]. unfold MaxAndSkipEnv.step.
    pose proof (step_loop_unspy action (Z.to_nat skip) 0 float_zero None
                  (MaxAndSkipEnv.mk (Spy.mk e log) buffer skip dt)) as Hloop.
    unfold unspy_skip, map_self, bind, get in *.
    cbn [MaxAndSkipEnv.env MaxAndSkipEnv._obs_buffer MaxAndSkipEnv._skip
         MaxAndSkipEnv._obs_buffer_dtype Spy.env fst snd] in *.
    rewrite <- Hloop.
    destruct (MaxAndSkipEnv.step_loop action (Z.to_nat skip) 0 float_zero None
                (MaxAndSkipEnv.mk (Spy.mk e log) buffer skip dt))
      as [[[total [[d inf]|]]|ex] self']; reflexivity.
Qed.

End SpyTransparent.

(** ** ClipRewardEnv *)

Section ClipReward.
Context {E : Type} `{gym.Env E}.
Import ClipRewardEnv.

(** C8. On every float that is a number, [ClipRewardEnv.reward] is the
    sign: [1.0] above zero, [-1.0] below, [0.0] at zero, and one of the
    three applies; [5.0], [-3.2] and [0.0] go to [1.0], [-1.0] and [0.0];
    and a step of the wrapper is the inner step with the reward replaced
    and nothing else changed. *)
Theorem ClipRewardEnv_reward_is_sign (r : Reward) :
  r <> S754_nan ->
  (float_gt r float_zero = true -> reward r = float_one)
  /\ (float_lt r float_zero = true -> reward r = SFopp float_one)
  /\ (float_eq r float_zero = true -> reward r = float_zero)
  /\ (float_gt r float_zero = true \/ float_lt r float_zero = true
      \/ float_eq r float_zero = true)
  /\ reward float_5_0 = float_one
  /\ reward float_minus_3_2 = SFopp float_one
  /\ reward float_zero = float_zero
  /\ forall (action : Action) (self : ClipRewardEnv.t E),
      step action self
      = match gym.step action (env self) with
        | (Ok (obs, x, done, info), e') =>
            (Ok (obs, reward x, done, info), mk e')
        | (Raise ex, e') => (Raise ex, mk e')
        end.
Proof.
  intros Hnum.
  split; [|split; [|split; [|split]]].
  - destruct r as [[|]|[|]| |[|] m e]; cbn; intros Hc;
      try discriminate; reflexivity.
  - destruct r as [[|]|[|]| |[|] m e]; cbn; intros Hc;
      try discriminate; reflexivity.
  - destruct r as [[|]|[|]| |[|] m e]; cbn; intros Hc;
      try discriminate; reflexivity.
  - destruct r as [[|]|[|]| |[|] m e]; try congruence; cbn; auto.
  - repeat split; try reflexivity.
    intros action [e]. unfold step. run.
    destruct (gym.step action e) as [[[[[obs x] done] info]|ex] e'];
      reflexivity.
Qed.

End ClipReward.

(** ** Rewards of the steps made while resetting *)

Section ResetRewards.
Context {E : Type} `{gym.Env E}.
Variable f : Reward -> Reward.

Lemma reset_loop_tamper (kwargs : Kwargs) (n : nat) :
  forall (obs : option Obs) (self : NoopResetEnv.t E),
    NoopResetEnv.reset_loop kwargs n obs (tamper_noop f self)
    = map_self (tamper_noop f) (NoopResetEnv.reset_loop kwargs n obs self).
Proof.
  induction n as [|n IH]; intros obs [e nm ov a]; [reflexivity|].
  cbn [NoopResetEnv.reset_loop]. unfold tamper_noop, map_self in *. run.
  unfold Tamper.step. run.
  destruct (gym.step a e) as [[[[[o rw] d] i]|ex] e1]; cbn; [|reflexivity].
  destruct d; cbn.
  - unfold Tamper.reset. run.
    destruct (gym.reset kwargs e1) as [[o2|ex] e2]; cbn; [|reflexivity].
    apply (IH (Some o2) (NoopResetEnv.mk e2 nm ov a)).
  - apply (IH (Some o) (NoopResetEnv.mk e1 nm ov a)).
Qed.

(** C10. The rewards of the inner steps made by a [reset] do not reach
    its caller: with every reward of the inner environment replaced by any
    [f] of it, the [reset] of [NoopResetEnv], of [FireResetEnv] and of
    [EpisodicLifeEnv] return the same observation (or raise the same
    exception) and leave the wrapper and the engine in the same state. *)
Theorem reset_ignores_rewards (kwargs : Kwargs) :
  (forall self : NoopResetEnv.t E,
      NoopResetEnv.reset kwargs (tamper_noop f self)
      = map_self (tamper_noop f) (NoopResetEnv.reset kwargs self))
  /\ (forall self : FireResetEnv.t E,
      FireResetEnv.reset kwargs (tamper_fire f self)
      = map_self (tamper_fire f) (FireResetEnv.reset kwargs self))
  /\ (forall self : EpisodicLifeEnv.t E,
      EpisodicLifeEnv.reset kwargs (tamper_life f self)
      = map_self (tamper_life f) (EpisodicLifeEnv.reset kwargs self)).
Proof.
  split; [|split].
  - intros [e nm ov a]. unfold NoopResetEnv.reset.
    pose proof (reset_loop_tamper kwargs) as Hloop.
    unfold tamper_noop, map_self in *. run. unfold Tamper.reset. run.
    destruct (gym.reset kwargs e) as [[o0|ex] e0]; cbn; [|reflexivity].
    destruct ov as [k|]; cbn.
    + destruct (k >? 0); cbn; [|reflexivity].
      apply (Hloop (Z.to_nat k) None (NoopResetEnv.mk e0 nm (Some k) a)).
    + destruct (gym.np_random_randint 1 (nm + 1) e0) as [[k|ex] e1]; cbn;
        [|reflexivity].
      destruct (k >? 0); cbn; [|reflexivity].
      apply (Hloop (Z.to_nat k) None (NoopResetEnv.mk e1 nm None a)).
  - intros [e]. unfold FireResetEnv.reset, tamper_fire, map_self. run.
    unfold Tamper.reset, Tamper.step. run.
    destruct (gym.reset kwargs e) as [[o0|ex] e0]; cbn; [|reflexivity].
    destruct (gym.step 1 e0) as [[[[[o1 rw1] d1] i1]|ex] e1]; cbn;
      [|reflexivity].
    destruct d1; cbn.
    + destruct (gym.reset kwargs e1) as [[oa|ex] ea]; cbn; [|reflexivity].
      destruct (gym.step 2 ea) as [[[[[o2 rw2] d2] i2]|ex] e2]; cbn;
        [|reflexivity].
      destruct d2; cbn; [|reflexivity].
      destruct (gym.reset kwargs e2) as [[ob|ex] eb]; reflexivity.
    + destruct (gym.step 2 e1) as [[[[[o2 rw2] d2] i2]|ex] e2]; cbn;
        [|reflexivity].
      destruct d2; cbn; [|reflexivity].
      destruct (gym.reset kwargs e2) as [[ob|ex] eb]; reflexivity.
  - intros [e l wrd]. unfold EpisodicLifeEnv.reset, tamper_life, map_self.
    run. unfold Tamper.reset, Tamper.step. run.
    destruct wrd; cbn.
    + destruct (gym.reset kwargs e) as [[o0|ex] e0]; reflexivity.
    + destruct (gym.step 0 e) as [[[[[o rw] d] i]|ex] e1]; reflexivity.
Qed.

End ResetRewards.

(** ** wrap_atari *)

Section WrapAtari.
Context {B : Type} `{gym.Unwrapped B}.
#[local] Arguments String.eqb : simpl never.

Lemma constructors_accept_iff (m : list string) :
  constructors_acceptb m = true <-> constructors_accept m.
Proof.
  unfold constructors_accept.
  destruct m as [|m0 rest]; cbn [constructors_acceptb nth_error].
  - split; [discriminate|]. intros [Hn _]. discriminate.
  - rewrite andb_true_iff, orb_true_iff, negb_true_iff, String.eqb_eq.
    split.
    + intros [-> Hfire]. split; [reflexivity|]. intros Hin.
      destruct Hfire as [Hno|Hat]; [congruence|].
      destruct rest as [|m1 [|m2 rest]]; try discriminate.
      apply String.eqb_eq in Hat. subst m1. cbn. split; [reflexivity|lia].
    + intros [Hn Hfire]. injection Hn as ->. split; [reflexivity|].
      destruct (str_in "FIRE" ("NOOP" :: rest)) eqn:Hin; [right|left; reflexivity].
      destruct (Hfire eq_refl) as [Hat Hlen].
      destruct rest as [|m1 [|m2 rest]]; cbn in Hat, Hlen; try lia;
        try discriminate.
      injection Hat as ->. reflexivity.
Qed.

Lemma three_actions (n : nat) :
  (Z.pos (Pos.succ (Pos.succ (Pos.of_succ_nat n))) >=? 3) = true.
Proof. rewrite Z.geb_leb. apply Z.leb_le. lia. Qed.

(** [wrap_atari], with its assertions and those of the constructors it
    calls worked out. *)
Lemma wrap_atari_cases (env : AtariEnv B)
    (episode_life clip_rewards : bool) (frame_stack : Z) :
  let m := gym.get_action_meanings env in
  if contains "NoFrameskip" (gym.spec_id env)
  then if constructors_acceptb m
       then exists env',
           wrap_atari env episode_life clip_rewards frame_stack = Ok env'
           /\ chain env'
              = chain env
                ++ atari_layers (gym.observation_space_shape env)
                     (str_in "FIRE" m) episode_life clip_rewards frame_stack
           /\ unwrapped env' = unwrapped env
       else exists ex,
           wrap_atari env episode_life clip_rewards frame_stack = Raise ex
  else wrap_atari env episode_life clip_rewards frame_stack
       = Raise AssertionError.
Proof.
  cbn zeta. unfold wrap_atari, call.
  unfold NoopResetEnv.__init__, MaxAndSkipEnv.__init__,
    EpisodicLifeEnv.__init__, FireResetEnv.__init__, ClipRewardEnv.__init__.
  run.
  destruct (contains "NoFrameskip" (gym.spec_id (unwrapped env)));
    cbn; [|reflexivity].
  destruct (gym.get_action_meanings (unwrapped env)) as [|m0 rest] eqn:Hm;
    cbn; [eexists; reflexivity|].
  destruct (String.eqb m0 "NOOP"); cbn; [|eexists; reflexivity].
  destruct episode_life; cbn; rewrite ?Hm; cbn;
    (destruct (String.eqb "FIRE" m0 || existsb (String.eqb "FIRE") rest)
       eqn:Hfire; cbn; rewrite ?Hm; cbn;
     [ destruct rest as [|m1 [|m2 rest]]; cbn; try (eexists; reflexivity);
       match goal with
       | |- context [String.eqb ?x "FIRE"] => destruct (String.eqb x "FIRE")
       end; cbn; try (eexists; reflexivity);
       rewrite (three_actions (List.length rest)); cbn
     | ]);
    destruct clip_rewards; cbn; destruct (frame_stack >? 1); cbn;
    eexists; (split; [reflexivity|]); cbn;
    rewrite <- ?app_assoc; cbn; split; reflexivity.
Qed.

(** C7, as amended.  [wrap_atari] fails on its assertion when the
    identifier of the base environment does not contain "NoFrameskip".
    When it does, [wrap_atari] returns an environment exactly when the
    constructors it calls accept the action list ("NOOP" at index 0, and,
    if the list contains "FIRE", "FIRE" at index 1 among at least 3
    actions); the chain it returns is then, from the inside out, the no-op
    reset with [noop_max = 30], the frame skip with [skip = 4], the
    episodic life iff [episode_life], the fire reset iff the action list
    contains "FIRE", the visual transform (grey with weights 1/3, resize
    to 84 x 84 x 1, channel first, division by 255), the reward clipping
    iff [clip_rewards], and the frame stack of depth [frame_stack] on
    axis 0 iff [frame_stack > 1]. *)
Theorem wrap_atari_spec (env : AtariEnv B)
    (episode_life clip_rewards : bool) (frame_stack : Z) :
  let m := gym.get_action_meanings env in
  let marked := contains "NoFrameskip" (gym.spec_id env) in
  let result := wrap_atari env episode_life clip_rewards frame_stack in
  (marked = false -> result = Raise AssertionError)
  /\ ((exists env', result = Ok env')
      <-> marked = true /\ constructors_accept m)
  /\ (forall env', result = Ok env' ->
      chain env'
      = chain env
        ++ atari_layers (gym.observation_space_shape env)
             (str_in "FIRE" m) episode_life clip_rewards frame_stack
      /\ unwrapped env' = unwrapped env).
Proof.
  intros m marked result.
  pose proof (wrap_atari_cases env episode_life clip_rewards frame_stack)
    as Hcases.
  cbn zeta in Hcases. fold m marked result in Hcases.
  pose proof (constructors_accept_iff m) as Hacc.
  destruct marked.
  - destruct (constructors_acceptb m).
    + destruct Hcases as (env' & Hres & Hchain & Hbase).
      split; [discriminate|]. split.
      * split; [intros _; split; [reflexivity|apply Hacc; reflexivity]|].
        intros _. exists env'. exact Hres.
      * intros env'' Heq. rewrite Hres in Heq. injection Heq as <-.
        split; [exact Hchain|exact Hbase].
    + destruct Hcases as (ex & Hres).
      split; [discriminate|]. split.
      * split.
        -- intros (env' & Heq). rewrite Hres in Heq. discriminate.
        -- intros [_ Hyes]. apply Hacc in Hyes. discriminate.
      * intros env' Heq. rewrite Hres in Heq. discriminate.
  - split; [intros _; exact Hcases|]. split.
    + split.
      * intros (env' & Heq). rewrite Hcases in Heq. discriminate.
      * intros [Hno _]. discriminate.
    + intros env' Heq. rewrite Hcases in Heq. discriminate.
Qed.

End WrapAtari.

(** ** Where the constructors are stricter than the descriptions *)

(** C6, refuted as stated: on an action list with a single entry the
    construction of [FireResetEnv] fails, but on an index error, not on an
    assertion. *)
Lemma FireResetEnv_init_one_action :
  let m := gym.get_action_meanings one_action_engine in
  (nth_error m 1 <> Some "FIRE" \/ (List.length m < 3)%nat)
  /\ FireResetEnv.__init__ one_action_engine = Raise IndexError
  /\ FireResetEnv.__init__ one_action_engine <> Raise AssertionError.
Proof.
  cbn zeta. split; [left; discriminate|].
  split; [reflexivity|discriminate].
Qed.

(** C7, refuted as stated: the identifier has the marker and the action
    list contains "FIRE", yet no chain is built, because [FireResetEnv]
    wants "FIRE" at index 1. *)
Lemma wrap_atari_fire_not_at_index_1 :
  contains "NoFrameskip" (gym.spec_id (Base fire_last_engine)) = true
  /\ str_in "FIRE" (gym.get_action_meanings (Base fire_last_engine)) = true
  /\ wrap_atari (Base fire_last_engine) false true 4 = Raise AssertionError.
Proof. repeat split; reflexivity. Qed.

(** ** The wrappers at work on the scripted game *)

Example life_loss_ends_the_episode :
  EpisodicLifeEnv.step 2 (EpisodicLifeEnv.mk breakout_losing 3 false)
  = (Ok (frame 2, float_one, true, []),
     EpisodicLifeEnv.mk
       (Scripted.mk
          [plays 3 float_5_0 false 2; plays 4 float_zero false 2;
           plays 5 float_one true 0]
          2 (frame 1) 3 11 ["NOOP"; "FIRE"; "RIGHT"; "LEFT"]
          "BreakoutNoFrameskip-v4" [2%nat])
       2 false).
Proof. reflexivity. Qed.

Example skip_four_frames :
  fst (MaxAndSkipEnv.step 3
         (MaxAndSkipEnv.mk breakout (np.zeros [2%nat], np.zeros [2%nat]) 4 np.uint8))
  = Ok ([4; 252], float_of_Z 6, false, []).
Proof. vm_compute. reflexivity. Qed.

Example skip_stops_when_done :
  let self := MaxAndSkipEnv.mk (spied breakout_ending)
                (np.zeros [2%nat], np.zeros [2%nat]) 4 np.uint8 in
  fst (MaxAndSkipEnv.step 3 self) = Ok ([0; 0], float_of_Z 6, true, [])
  /\ Spy.calls (MaxAndSkipEnv.env (snd (MaxAndSkipEnv.step 3 self)))
     = [EvStep 3 (Ok (frame 5, float_one, false, []));
        EvStep 3 (Ok (frame 6, float_5_0, true, []))].
Proof. split; vm_compute; reflexivity. Qed.

Example noop_reset_overridden :
  Spy.calls
    (NoopResetEnv.env
       (snd (NoopResetEnv.reset []
               (NoopResetEnv.mk (spied breakout) 30 (Some 2) 0))))
  = [EvReset [] (Ok (frame 0));
     EvStep 0 (Ok (frame 1, float_zero, false, []));
     EvStep 0 (Ok (frame 2, float_one, false, []))].
Proof. reflexivity. Qed.

(** The game ends on the 2nd no-op step: the engine is reset and the third
    no-op step is made all the same. *)
Example noop_reset_goes_on_after_done :
  Spy.calls
    (NoopResetEnv.env
       (snd (NoopResetEnv.reset []
               (NoopResetEnv.mk (spied breakout_ending) 30 (Some 3) 0))))
  = [EvReset [] (Ok (frame 4));
     EvStep 0 (Ok (frame 5, float_one, false, []));
     EvStep 0 (Ok (frame 6, float_5_0, true, []));
     EvReset [] (Ok (frame 4));
     EvStep 0 (Ok (frame 7, float_one, false, []))].
Proof. reflexivity. Qed.

Example noop_reset_refuses_zero :
  fst (NoopResetEnv.reset [] (NoopResetEnv.mk breakout 30 (Some 0) 0))
  = Raise AssertionError.
Proof. reflexivity. Qed.

Example wrap_breakout :
  option_map chain
    (match wrap_atari (Base breakout) false true 4 with
     | Ok env => Some env
     | Raise _ => None
     end)
  = Some [NoopResetLayer 30 None 0;
          MaxAndSkipLayer ([0; 0], [0; 0]) 4;
          FireResetLayer;
          ImageLayer; GreyLayer (one_third, one_third, one_third);
          ResizeLayer 84 84 1; CHWLayer; TruedivLayer 255;
          ClipRewardLayer; StackLayer 4 0].
Proof. vm_compute. reflexivity. Qed.

(** The scripted run of the description: lives go from 3 to 2 on step 3 and
    to 1 on step 7 while the engine never reports [done]; the wrapper
    reports [done] on steps 3 and 7 only, and the reset that follows is a
    no-op step, not a reset of the engine. *)
Example done_on_life_loss_only :
  let start := EpisodicLifeEnv.mk (spied losing_lives) 3 true in
  fst (play EpisodicLifeEnv.step [2; 2; 2; 3; 3; 1; 1; 0] start)
  = Ok [false; false; true; false; false; false; true; false]
  /\ Spy.calls
       (EpisodicLifeEnv.env
          (snd (EpisodicLifeEnv.reset []
                  (snd (play EpisodicLifeEnv.step [2; 2; 2] start)))))
     = [EvStep 2 (Ok (frame 1, float_zero, false, []));
        EvStep 2 (Ok (frame 2, float_zero, false, []));
        EvStep 2 (Ok (frame 3, float_zero, false, []));
        EvStep 0 (Ok (frame 4, float_one, false, []))].
Proof. split; reflexivity. Qed.

(** ** The theorems at concrete inputs *)

Lemma EpisodicLifeEnv_step_witness :
  WellBehaved Scripted.t
  /\ exists obs reward done info e' done' self',
      let self := EpisodicLifeEnv.mk (spied breakout_losing) 3 false in
      gym.step 2 (Spy.env (EpisodicLifeEnv.env self))
      = (Ok (obs, reward, done, info), e')
      /\ EpisodicLifeEnv.step 2 self = (Ok (obs, reward, done', info), self')
      /\ (done' = true <->
          done = true \/ 0 < gym.ale_lives e' < EpisodicLifeEnv.lives self)
      /\ EpisodicLifeEnv.was_real_done self' = done
      /\ EpisodicLifeEnv.lives self' = gym.ale_lives e'
      /\ EpisodicLifeEnv.env self'
         = Spy.mk e' (Spy.calls (EpisodicLifeEnv.env self)
                      ++ [EvStep 2 (Ok (obs, reward, done, info))]).
Proof.
  split; [exact Scripted_WellBehaved|].
  exact (EpisodicLifeEnv_step_spec 2
           (EpisodicLifeEnv.mk (spied breakout_losing) 3 false)).
Defined.

Lemma EpisodicLifeEnv_reset_witness :
  WellBehaved Scripted.t
  /\ exists obs self',
      let self := EpisodicLifeEnv.mk (spied breakout_losing) 2 false in
      EpisodicLifeEnv.reset [] self = (Ok obs, self')
      /\ EpisodicLifeEnv.lives self'
         = gym.ale_lives (EpisodicLifeEnv.env self')
      /\ exists reward done info e',
          gym.step 0 (Spy.env (EpisodicLifeEnv.env self))
          = (Ok (obs, reward, done, info), e')
          /\ EpisodicLifeEnv.env self'
             = Spy.mk e' (Spy.calls (EpisodicLifeEnv.env self)
                          ++ [EvStep 0 (Ok (obs, reward, done, info))]).
Proof.
  split; [exact Scripted_WellBehaved|].
  exact (EpisodicLifeEnv_reset_spec []
           (EpisodicLifeEnv.mk (spied breakout_losing) 2 false)).
Defined.

Lemma MaxAndSkipEnv_step_witness :
  let self := MaxAndSkipEnv.mk (Spy.mk (Pacer.mk 3 4) [])
                (np.zeros [2%nat], np.zeros [2%nat]) 4 np.uint8 in
  WellBehaved Pacer.t
  /\ MaxAndSkipEnv._skip self = 4
  /\ frames_fit (E:=Pacer.t) (MaxAndSkipEnv._obs_buffer_dtype self) 2
  /\ List.length (fst (MaxAndSkipEnv._obs_buffer self)) = 2%nat
  /\ List.length (snd (MaxAndSkipEnv._obs_buffer self)) = 2%nat
  /\ exists rs0 r max_frame self',
      let rs := rs0 ++ [r] in
      MaxAndSkipEnv.step 3 self
      = (Ok (max_frame, sum_rewards rs, sr_done r, sr_info r), self')
      /\ Spy.calls (MaxAndSkipEnv.env self')
         = Spy.calls (MaxAndSkipEnv.env self)
           ++ map (fun r => EvStep 3 (Ok r)) rs
      /\ (List.length rs <= 4)%nat
      /\ none_done_before_last rs = true
      /\ ((List.length rs < 4)%nat -> sr_done r = true)
      /\ MaxAndSkipEnv._obs_buffer self'
         = (slot_after (fst (MaxAndSkipEnv._obs_buffer self)) 2 rs,
            slot_after (snd (MaxAndSkipEnv._obs_buffer self)) 3 rs)
      /\ max_frame
         = np.maximum (fst (MaxAndSkipEnv._obs_buffer self'))
             (snd (MaxAndSkipEnv._obs_buffer self'))
      /\ (forallb (fun r => negb (sr_done r)) (firstn 3 rs) = true ->
          exists r1 r2 r3 r4,
            rs = [r1; r2; r3; r4]
            /\ max_frame = np.maximum (sr_obs r3) (sr_obs r4))
      /\ (forall r1 r2 rest,
            rs = r1 :: r2 :: rest -> sr_done r2 = true ->
            rest = []
            /\ sum_rewards rs
               = float_add (float_add float_zero (sr_reward r1))
                   (sr_reward r2)).
Proof.
  cbn zeta. split; [exact Pacer_WellBehaved|].
  split; [reflexivity|]. split; [exact Pacer_frames_fit|].
  split; [reflexivity|]. split; [reflexivity|].
  exact (MaxAndSkipEnv_step_spec 3 2
           (MaxAndSkipEnv.mk (Spy.mk (Pacer.mk 3 4) [])
              (np.zeros [2%nat], np.zeros [2%nat]) 4 np.uint8)
           eq_refl Pacer_frames_fit eq_refl eq_refl).
Defined.

Lemma NoopResetEnv_reset_noop_count_witness :
  let self := NoopResetEnv.mk (spied breakout) 30 None 0 in
  WellBehaved Scripted.t
  /\ 1 <= NoopResetEnv.noop_max self
  /\ override_positive self
  /\ exists r0 evs obs self',
      NoopResetEnv.reset [] self = (Ok obs, self')
      /\ Spy.calls (NoopResetEnv.env self')
         = Spy.calls (NoopResetEnv.env self) ++ EvReset [] r0 :: evs
      /\ steps_with (NoopResetEnv.noop_action self) evs = true
      /\ 1 <= count_steps evs <= NoopResetEnv.noop_max self
      /\ same_config self self'.
Proof.
  cbn zeta. split; [exact Scripted_WellBehaved|].
  split; [cbn; lia|]. split; [exact I|].
  refine (NoopResetEnv_reset_noop_count []
            (NoopResetEnv.mk (spied breakout) 30 None 0) _ I).
  cbn. lia.
Defined.

Lemma NoopResetEnv_reset_returns_live_obs_witness :
  let self := NoopResetEnv.mk (spied breakout_ending) 30 None 0 in
  WellBehaved Scripted.t
  /\ 1 <= NoopResetEnv.noop_max self
  /\ override_positive self
  /\ exists r0 noops evs evs0 ev obs self',
      NoopResetEnv.reset [] self = (Ok (Some obs), self')
      /\ Spy.calls (NoopResetEnv.env self')
         = Spy.calls (NoopResetEnv.env self) ++ EvReset [] r0 :: evs
      /\ match NoopResetEnv.override_num_noops self with
         | Some k => noops = k
         | None =>
             exists o0 e0 e1,
               gym.reset [] (Spy.env (NoopResetEnv.env self)) = (Ok o0, e0)
               /\ gym.np_random_randint 1 (NoopResetEnv.noop_max self + 1) e0
                  = (Ok noops, e1)
         end
      /\ count_steps evs = noops
      /\ reset_follows_done evs = true
      /\ 1 <= count_steps evs
      /\ evs = evs0 ++ [ev]
      /\ live_obs ev obs.
Proof.
  cbn zeta. split; [exact Scripted_WellBehaved|].
  split; [cbn; lia|].
  split; [exact I|].
  refine (NoopResetEnv_reset_returns_live_obs []
            (NoopResetEnv.mk (spied breakout_ending) 30 None 0) _ I).
  cbn. lia.
Defined.

Lemma FireResetEnv_witness :
  let spy := spied breakout_ending in
  let m := gym.get_action_meanings spy in
  let fire_ready :=
    nth_error m 1 = Some "FIRE" /\ (3 <= List.length m)%nat in
  WellBehaved Scripted.t
  /\ (FireResetEnv.__init__ spy = Ok (FireResetEnv.mk spy) <-> fire_ready)
  /\ (FireResetEnv.__init__ spy = Raise AssertionError
      <-> (2 <= List.length m)%nat /\ ~ fire_ready)
  /\ (FireResetEnv.__init__ spy = Raise IndexError
      <-> (List.length m < 2)%nat)
  /\ exists r0 r1 r2 after1 after2 self',
      FireResetEnv.reset [] (FireResetEnv.mk spy) = (Ok (sr_obs r2), self')
      /\ Spy.calls (FireResetEnv.env self')
         = Spy.calls spy ++ EvReset [] r0 :: fire_calls [] r1 r2 after1 after2.
Proof.
  cbn zeta. split; [exact Scripted_WellBehaved|].
  exact (FireResetEnv_spec (spied breakout_ending) []
           (FireResetEnv.mk (spied breakout_ending))).
Defined.

Lemma ClipRewardEnv_reward_is_sign_witness :
  float_5_0 <> S754_nan
  /\ (float_gt float_5_0 float_zero = true ->
      ClipRewardEnv.reward float_5_0 = float_one).
Proof.
  assert (Hnum : float_5_0 <> S754_nan) by discriminate.
  split; [exact Hnum|].
  exact (proj1 (ClipRewardEnv_reward_is_sign (E:=Scripted.t) float_5_0 Hnum)).
Defined.


(** * Further properties *)

(** ** NoopResetEnv: construction, refusals and call counts *)

Section NoopResetInit.
Context {E : Type} `{gym.Unwrapped E}.
Import NoopResetEnv.

(** X1. The construction of a [NoopResetEnv] succeeds exactly when the
    action list has "NOOP" at index 0, and the object then holds the given
    [noop_max], no override and the no-op action 0; it fails on an index
    error exactly when the action list is empty, and on an assertion
    exactly when the list starts with another name. *)
Theorem NoopResetEnv_init_spec (env : E) (nm : Z) :
  let m := gym.get_action_meanings env in
  (forall self,
      __init__ env nm = Ok self
      <-> self = mk env nm None 0 /\ nth_error m 0 = Some "NOOP")
  /\ (__init__ env nm = Raise IndexError <-> m = [])
  /\ (__init__ env nm = Raise AssertionError
      <-> exists m0, nth_error m 0 = Some m0 /\ m0 <> "NOOP").
Proof.
  intros m. unfold __init__, construct, bind, getitem. fold m.
  destruct m as [|m0 rest]; cbn [nth_error].
  - unfold raise. split; [|split].
    + intros self. split; [discriminate|]. intros [_ Hn]. discriminate.
    + split; reflexivity.
    + split; [discriminate|]. intros (m0 & Hn & _). discriminate.
  - unfold ret, assert.
    destruct (String.eqb m0 "NOOP") eqn:Heq.
    + apply String.eqb_eq in Heq. subst m0. unfold ret. split; [|split].
      * intros self. split.
        -- intros Hok. injection Hok as <-. split; reflexivity.
        -- intros [-> _]. reflexivity.
      * split; discriminate.
      * split; [discriminate|].
        intros (m0 & Hn & Hne). injection Hn as <-. congruence.
    + apply String.eqb_neq in Heq. unfold raise. split; [|split].
      * intros self. split; [discriminate|].
        intros [_ Hn]. injection Hn as ->. congruence.
      * split; discriminate.
      * split; [|reflexivity]. intros _. exists m0. split; [reflexivity|exact Heq].
Qed.

End NoopResetInit.

Section NoopResetCounts.
Context {E : Type} `{WellBehaved E}.
Import NoopResetEnv.

(** X2. With [override_num_noops] set to zero or less, [reset] fails on
    its assertion, after the inner reset and before any step; the
    attributes are left as they were. *)
Theorem NoopResetEnv_reset_refuses_override
    (kwargs : Kwargs) (self : NoopResetEnv.t (Spy.t E)) (k : Z) :
  override_num_noops self = Some k ->
  k <= 0 ->
  exists r0 self',
    reset kwargs self = (Raise AssertionError, self')
    /\ Spy.calls (env self') = Spy.calls (env self) ++ [EvReset kwargs r0]
    /\ same_config self self'.
Proof.
  destruct self as [spy nm ov a]. cbn [override_num_noops]. intros -> Hk.
  destruct (spy_reset kwargs spy) as (o0 & e0 & _ & Hreset).
  unfold reset. run. rewrite Hreset. cbn.
  assert (Hgt : (k >? 0) = false).
  { rewrite Z.gtb_ltb. apply Z.ltb_ge. lia. }
  rewrite Hgt. cbn.
  eexists _, _. split; [reflexivity|]. split; [reflexivity|].
  repeat split.
Qed.

(** The loop, counted: as many inner resets as steps that reported
    [done]. *)
Lemma reset_loop_counts (kwargs : Kwargs) (n : nat) :
  forall (obs : option Obs) (self : NoopResetEnv.t (Spy.t E)),
  exists evs obs' self',
    reset_loop kwargs n obs self = (Ok obs', self')
    /\ Spy.calls (env self') = Spy.calls (env self) ++ evs
    /\ count_steps evs = Z.of_nat n
    /\ count_resets evs = count_done evs.
Proof.
  induction n as [|n IH]; intros obs self.
  - exists [], obs, self. cbn. rewrite app_nil_r. repeat split; reflexivity.
  - destruct self as [spy nm ov a].
    destruct (spy_step a spy) as ([[[o rw] d] i] & e1 & _ & Hstep).
    destruct d.
    + destruct (spy_reset kwargs
                  (Spy.mk e1 (Spy.calls spy
                              ++ [EvStep a (Ok (o, rw, true, i))])))
        as (o2 & e2 & _ & Hreset).
      pose proof (reset_loop_done (E:=Spy.t E) kwargs n obs spy nm ov a
                    o rw i _ o2 _ Hstep Hreset) as Hiter.
      rewrite Hiter.
      destruct (IH (Some o2) (mk (Spy.mk e2 (Spy.calls
                  (Spy.mk e1 (Spy.calls spy
                              ++ [EvStep a (Ok (o, rw, true, i))]))
                  ++ [EvReset kwargs (Ok o2)])) nm ov a))
        as (evs & obs' & self' & Hrun & Hcalls & Hsteps & Hresets).
      exists (EvStep a (Ok (o, rw, true, i))
              :: EvReset kwargs (Ok o2) :: evs), obs', self'.
      split; [exact Hrun|]. cbn [env Spy.calls Spy.env] in *.
      split; [rewrite Hcalls, <- !app_assoc; reflexivity|].
      unfold count_steps, count_resets, count_done in *.
      cbn [filter is_step is_reset is_done_step List.length].
      split; lia.
    + pose proof (reset_loop_live (E:=Spy.t E) kwargs n obs spy nm ov a
                    o rw i _ Hstep) as Hiter.
      rewrite Hiter.
      destruct (IH (Some o)
                  (mk (Spy.mk e1 (Spy.calls spy
                                  ++ [EvStep a (Ok (o, rw, false, i))]))
                      nm ov a))
        as (evs & obs' & self' & Hrun & Hcalls & Hsteps & Hresets).
      exists (EvStep a (Ok (o, rw, false, i)) :: evs), obs', self'.
      split; [exact Hrun|]. cbn [env Spy.calls Spy.env] in *.
      split; [rewrite Hcalls, <- !app_assoc; reflexivity|].
      unfold count_steps, count_resets, count_done in *.
      cbn [filter is_step is_reset is_done_step List.length].
      split; lia.
Qed.

Lemma count_done_le_steps (evs : list Event) :
  count_done evs <= count_steps evs.
Proof.
  unfold count_done, count_steps.
  induction evs as [|[kw r|a [[[[o rw] [|]] i]|ex]] evs IH];
    cbn [filter is_done_step is_step List.length]; lia.
Qed.

(** X3. With [noop_max >= 1], a [reset] makes one inner reset more than
    there were no-op steps reporting [done]: the first one, and one after
    each such step.  So it makes at least one call more than it makes steps
    and at most one more than twice as many. *)
Theorem NoopResetEnv_reset_call_counts
    (kwargs : Kwargs) (self : NoopResetEnv.t (Spy.t E)) :
  1 <= noop_max self ->
  override_positive self ->
  exists evs obs self',
    reset kwargs self = (Ok obs, self')
    /\ Spy.calls (env self') = Spy.calls (env self) ++ evs
    /\ count_resets evs = 1 + count_done evs
    /\ 1 + count_steps evs <= Z.of_nat (List.length evs)
       <= 1 + 2 * count_steps evs.
Proof.
  destruct self as [spy nm ov a]. unfold override_positive. cbn.
  intros Hmax Hov.
  destruct (spy_reset kwargs spy) as (o0 & e0 & _ & Hreset).
  assert (Hloop : forall noops spy0,
    Spy.calls spy0 = Spy.calls spy ++ [EvReset kwargs (Ok o0)] ->
    exists evs obs self',
      reset_loop kwargs noops None (mk spy0 nm ov a) = (Ok obs, self')
      /\ Spy.calls (env self') = Spy.calls spy ++ evs
      /\ count_resets evs = 1 + count_done evs
      /\ 1 + count_steps evs <= Z.of_nat (List.length evs)
         <= 1 + 2 * count_steps evs).
  { intros noops spy0 Hcalls0.
    destruct (reset_loop_counts kwargs noops None (mk spy0 nm ov a))
      as (evs & obs' & self' & Hrun & Hcalls & Hsteps & Hresets).
    exists (EvReset kwargs (Ok o0) :: evs), obs', self'.
    cbn [env] in Hcalls.
    split; [exact Hrun|].
    split; [rewrite Hcalls, Hcalls0, <- app_assoc; reflexivity|].
    pose proof (count_done_le_steps evs) as Hle.
    assert (Hall : count_steps evs + count_resets evs
                   = Z.of_nat (List.length evs)).
    { clear. unfold count_steps, count_resets.
      induction evs as [|[kw r|a r] evs IH];
        cbn [filter is_step is_reset List.length]; lia. }
    unfold count_steps, count_resets, count_done in *.
    cbn [filter is_step is_reset is_done_step List.length].
    split; lia. }
  unfold reset. run. rewrite Hreset. cbn.
  destruct ov as [k|];
    cbn [env set_env noop_max override_num_noops noop_action].
  - assert (Hk : (k >? 0) = true) by (apply Z.gtb_lt; lia).
    rewrite Hk. cbn.
    apply (Hloop (Z.to_nat k)
             (Spy.mk e0 (Spy.calls spy ++ [EvReset kwargs (Ok o0)]))).
    reflexivity.
  - destruct (spy_randint 1 (nm + 1)
                (Spy.mk e0 (Spy.calls spy ++ [EvReset kwargs (Ok o0)])))
      as (k & e1 & Hrange & Hrand); [lia|].
    rewrite Hrand. cbn.
    assert (Hk : (k >? 0) = true) by (apply Z.gtb_lt; lia).
    rewrite Hk. cbn.
    apply (Hloop (Z.to_nat k)
             (Spy.mk e1 (Spy.calls spy ++ [EvReset kwargs (Ok o0)]))).
    reflexivity.
Qed.

End NoopResetCounts.

(** ** Exceptions of the inner environment *)

Section Exceptions.
Context {E : Type} `{gym.Env E}.

Lemma reset_loop_stops (kwargs : Kwargs) (n : nat) :
  forall (obs : option Obs) (self : NoopResetEnv.t (Spy.t E)),
  exists evs,
    Spy.calls (NoopResetEnv.env
                 (snd (NoopResetEnv.reset_loop kwargs n obs self)))
    = Spy.calls (NoopResetEnv.env self) ++ evs
    /\ stops_at_raise evs = true
    /\ raised evs = exn_of (fst (NoopResetEnv.reset_loop kwargs n obs self))
    /\ same_config self (snd (NoopResetEnv.reset_loop kwargs n obs self)).
Proof.
  induction n as [|n IH]; intros obs [[e log] nm ov a].
  - exists []. cbn. rewrite app_nil_r. repeat split.
  - cbn [NoopResetEnv.reset_loop]. run. unfold Spy.step. cbn.
    destruct (gym.step a e) as [[[[[o rw] d] i]|ex] e1]; cbn.
    + destruct d; cbn.
      * unfold Spy.reset. cbn.
        destruct (gym.reset kwargs e1) as [[o2|ex] e2]; cbn.
        -- match goal with
           | |- context [NoopResetEnv.reset_loop kwargs n ?o ?s] =>
               destruct (IH o s) as (evs & Hcalls & Hstop & Hraised & Hcfg)
           end.
           exists (EvStep a (Ok (o, rw, true, i))
                   :: EvReset kwargs (Ok o2) :: evs).
           split; [etransitivity; [exact Hcalls|];
                   cbn; rewrite <- !app_assoc; reflexivity|].
           split; [exact Hstop|]. split; [exact Hraised|exact Hcfg].
        -- exists [EvStep a (Ok (o, rw, true, i)); EvReset kwargs (Raise ex)].
           rewrite <- app_assoc. repeat split.
      * match goal with
        | |- context [NoopResetEnv.reset_loop kwargs n ?o ?s] =>
            destruct (IH o s) as (evs & Hcalls & Hstop & Hraised & Hcfg)
        end.
        exists (EvStep a (Ok (o, rw, false, i)) :: evs).
        split; [etransitivity; [exact Hcalls|];
                cbn; rewrite <- !app_assoc; reflexivity|].
        split; [exact Hstop|]. split; [exact Hraised|exact Hcfg].
    + exists [EvStep a (Raise ex)]. repeat split.
Qed.

(** X4. [NoopResetEnv.reset] neither swallows an exception of the inner
    environment nor goes on after one, whatever the environment does: the
    call that raised is the last call made and its exception is the one
    [reset] raises.  When [reset] raises and no inner call did, it is on its
    own assertion or on an exception of the random generator.  The
    attributes are left as they were in every case. *)
Theorem NoopResetEnv_reset_stops_at_exception
    (kwargs : Kwargs) (self : NoopResetEnv.t (Spy.t E)) :
  exists evs,
    Spy.calls (NoopResetEnv.env (snd (NoopResetEnv.reset kwargs self)))
    = Spy.calls (NoopResetEnv.env self) ++ evs
    /\ stops_at_raise evs = true
    /\ (forall ex, raised evs = Some ex ->
        fst (NoopResetEnv.reset kwargs self) = Raise ex)
    /\ (forall ex, fst (NoopResetEnv.reset kwargs self) = Raise ex ->
        raised evs = Some ex
        \/ ex = AssertionError
        \/ exists e,
            fst (gym.np_random_randint 1 (NoopResetEnv.noop_max self + 1) e)
            = Raise ex)
    /\ same_config self (snd (NoopResetEnv.reset kwargs self)).
Proof.
  destruct self as [[e log] nm ov a].
  assert (Hloop : forall noops e0 r0,
    is_ok r0 = true ->
    exists evs,
      Spy.calls (NoopResetEnv.env
                   (snd (NoopResetEnv.reset_loop kwargs noops None
                           (NoopResetEnv.mk
                              (Spy.mk e0 (log ++ [EvReset kwargs r0]))
                              nm ov a))))
      = log ++ evs
      /\ stops_at_raise evs = true
      /\ raised evs
         = exn_of (fst (NoopResetEnv.reset_loop kwargs noops None
                          (NoopResetEnv.mk
                             (Spy.mk e0 (log ++ [EvReset kwargs r0]))
                             nm ov a)))
      /\ same_config (NoopResetEnv.mk (Spy.mk e log) nm ov a)
           (snd (NoopResetEnv.reset_loop kwargs noops None
                   (NoopResetEnv.mk
                      (Spy.mk e0 (log ++ [EvReset kwargs r0])) nm ov a)))).
  { intros noops e0 r0 Hok.
    destruct (reset_loop_stops kwargs noops None
                (NoopResetEnv.mk (Spy.mk e0 (log ++ [EvReset kwargs r0]))
                   nm ov a))
      as (evs & Hcalls & Hstop & Hraised & Hcfg).
    exists (EvReset kwargs r0 :: evs).
    cbn [NoopResetEnv.env Spy.calls] in Hcalls.
    split; [rewrite Hcalls, <- app_assoc; reflexivity|].
    destruct r0 as [o0|ex]; [|discriminate].
    split; [exact Hstop|]. split; [exact Hraised|exact Hcfg]. }
  unfold NoopResetEnv.reset. run. unfold Spy.reset. cbn.
  destruct (gym.reset kwargs e) as [[o0|ex0] e0]; cbn.
  - destruct ov as [k|]; cbn.
    + destruct (k >? 0); cbn.
      * destruct (Hloop (Z.to_nat k) e0 (Ok o0) eq_refl)
          as (evs & Hcalls & Hstop & Hraised & Hcfg).
        cbn [NoopResetEnv.set_env NoopResetEnv.env NoopResetEnv.noop_max
             NoopResetEnv.override_num_noops NoopResetEnv.noop_action].
        set (R := NoopResetEnv.reset_loop kwargs (Z.to_nat k) None _) in *.
        exists evs. split; [exact Hcalls|]. split; [exact Hstop|].
        split; [|split; [|exact Hcfg]].
        -- intros ex Hex. rewrite Hraised in Hex.
           destruct (fst R); [discriminate|]. injection Hex as ->. reflexivity.
        -- intros ex Hex. left. rewrite Hraised, Hex. reflexivity.
      * exists [EvReset kwargs (Ok o0)].
        split; [reflexivity|]. split; [reflexivity|].
        split; [discriminate|]. split; [|repeat split].
        intros ex Hex. injection Hex as <-. right. left. reflexivity.
    + unfold Spy.np_random_randint. cbn.
      destruct (gym.np_random_randint 1 (nm + 1) e0) as [[k|exr] e1] eqn:Hrand;
        cbn.
      * destruct (k >? 0); cbn.
        -- destruct (Hloop (Z.to_nat k) e1 (Ok o0) eq_refl)
             as (evs & Hcalls & Hstop & Hraised & Hcfg).
           cbn [NoopResetEnv.set_env NoopResetEnv.env NoopResetEnv.noop_max
                NoopResetEnv.override_num_noops NoopResetEnv.noop_action].
           set (R := NoopResetEnv.reset_loop kwargs (Z.to_nat k) None _) in *.
           exists evs. split; [exact Hcalls|]. split; [exact Hstop|].
           split; [|split; [|exact Hcfg]].
           ++ intros ex Hex. rewrite Hraised in Hex.
              destruct (fst R); [discriminate|].
              injection Hex as ->. reflexivity.
           ++ intros ex Hex. left. rewrite Hraised, Hex. reflexivity.
        -- exists [EvReset kwargs (Ok o0)].
           split; [reflexivity|]. split; [reflexivity|].
           split; [discriminate|]. split; [|repeat split].
           intros ex Hex. injection Hex as <-. right. left. reflexivity.
      * exists [EvReset kwargs (Ok o0)].
        split; [reflexivity|]. split; [reflexivity|].
        split; [discriminate|]. split; [|repeat split].
        intros ex Hex. injection Hex as <-. right. right.
        exists e0. rewrite Hrand. reflexivity.
  - exists [EvReset kwargs (Raise ex0)].
    split; [reflexivity|]. split; [reflexivity|].
    split; [|split; [|repeat split]].
    + intros ex Hex. injection Hex as <-. reflexivity.
    + intros ex Hex. injection Hex as <-. left. reflexivity.
Qed.



(** X6. With [skip] zero or less, [MaxAndSkipEnv.step] raises
    [UnboundLocalError] and does nothing else: the inner environment and
    the buffer are left as they were. *)
Theorem MaxAndSkipEnv_step_without_window
    (action : Action) (self : MaxAndSkipEnv.t E) :
  MaxAndSkipEnv._skip self <= 0 ->
  MaxAndSkipEnv.step action self = (Raise UnboundLocalError, self).
Proof.
  destruct self as [e buffer skip dt]. cbn [MaxAndSkipEnv._skip].
  intros Hskip.
  unfold MaxAndSkipEnv.step, bind, get. cbn [MaxAndSkipEnv._skip].
  replace (Z.to_nat skip) with O by lia. reflexivity.
Qed.

End Exceptions.

(** ** MaxAndSkipEnv: any window length *)

Lemma maximum_length (a b : Obs) :
  List.length (np.maximum a b) = Nat.min (List.length a) (List.length b).
Proof.
  revert b. induction a as [|x a IH]; intros [|y b]; cbn; [reflexivity..|].
  rewrite IH. reflexivity.
Qed.

Lemma maximum_zeros (obs : Obs) :
  Forall (fun v => 0 <= v) obs ->
  np.maximum (repeat 0 (List.length obs)) obs = obs.
Proof.
  induction 1 as [|v obs Hv _ IH]; cbn; [reflexivity|].
  rewrite IH. f_equal. lia.
Qed.

Lemma slot_after_short (old : Obs) (k : Z) (rs : list StepResult) :
  Z.of_nat (List.length rs) <= k -> slot_after old k rs = old.
Proof.
  intros Hk. unfold slot_after.
  destruct (k <? 0); [reflexivity|].
  assert (Hnone : nth_error rs (Z.to_nat k) = None)
    by (apply nth_error_None; lia).
  rewrite Hnone. reflexivity.
Qed.

Lemma slot_after_at (old : Obs) (rs1 : list StepResult) r rs2 :
  slot_after old (Z.of_nat (List.length rs1)) (rs1 ++ r :: rs2) = sr_obs r.
Proof.
  unfold slot_after.
  destruct (Z.ltb_spec (Z.of_nat (List.length rs1)) 0) as [Hneg|_]; [lia|].
  rewrite Nat2Z.id, nth_error_app2, Nat.sub_diag by lia. reflexivity.
Qed.

Section MaxAndSkipWindow.
Context {E : Type} `{WellBehaved E}.
Import MaxAndSkipEnv.

(** A step with a window of at least one inner step, on frames that fit
    the slots. *)
Lemma step_window (action : Action) (size : nat)
    (self : MaxAndSkipEnv.t (Spy.t E)) :
  1 <= _skip self ->
  frames_fit (E:=E) (_obs_buffer_dtype self) size ->
  List.length (fst (_obs_buffer self)) = size ->
  List.length (snd (_obs_buffer self)) = size ->
  exists rs0 r self',
    step action self
    = (Ok (np.max_axis0 (_obs_buffer self'), sum_rewards (rs0 ++ [r]),
           sr_done r, sr_info r), self')
    /\ Spy.calls (env self')
       = Spy.calls (env self)
         ++ map (fun r => EvStep action (Ok r)) (rs0 ++ [r])
    /\ Z.of_nat (List.length (rs0 ++ [r])) <= _skip self
    /\ none_done_before_last (rs0 ++ [r]) = true
    /\ (Z.of_nat (List.length (rs0 ++ [r])) < _skip self -> sr_done r = true)
    /\ _obs_buffer self'
       = (slot_after (fst (_obs_buffer self)) (_skip self - 2) (rs0 ++ [r]),
          slot_after (snd (_obs_buffer self)) (_skip self - 1) (rs0 ++ [r]))
    /\ _skip self' = _skip self.
Proof.
  destruct self as [spy buffer skip dt].
  cbn [_skip env _obs_buffer _obs_buffer_dtype]. intros Hskip Hfit Hs0 Hs1.
  destruct (step_loop_spec action dt size (Z.to_nat skip) Hfit 0 float_zero
              None spy buffer skip Hs0 Hs1)
    as (rs & self' & Hrun & Hcalls & Hlen & Hne & Hnone & Hearly
        & Hbuf & Hsame & _).
  cbn [env _obs_buffer _skip] in *.
  destruct (exists_last (Hne ltac:(lia))) as (rs0 & r & ->).
  exists rs0, r, self'.
  split.
  { apply (step_of_loop (E:=Spy.t E)). rewrite Hrun.
    unfold last_result, sum_rewards. rewrite fold_left_app. reflexivity. }
  split; [exact Hcalls|]. split; [lia|]. split; [exact Hnone|].
  split.
  { intros Hlt. destruct Hearly as (rs0' & r' & Heq & Hd); [lia|].
    apply app_inj_tail in Heq as [_ ->]. exact Hd. }
  split; [|exact Hsame].
  rewrite Hbuf. f_equal; f_equal; lia.
Qed.

(** X7. For every [skip >= 1], on an inner environment whose frames have
    the size of the buffer's slots and lie in the range of its dtype,
    [MaxAndSkipEnv.step] makes at least one and
    at most [skip] inner steps with the action it was given, stops after
    the first that reports [done], and returns the sum of their rewards
    with the [done] and [info] of the last one and the element-wise maximum
    of the two slots; the slots take the observations of the steps of index
    [skip - 2] and [skip - 1] when these were made.  When the window is
    full and [skip >= 2], the observation returned is the maximum of the
    last two frames of the window. *)
Theorem MaxAndSkipEnv_step_any_skip
    (action : Action) (size : nat) (self : MaxAndSkipEnv.t (Spy.t E)) :
  1 <= _skip self ->
  frames_fit (E:=E) (_obs_buffer_dtype self) size ->
  List.length (fst (_obs_buffer self)) = size ->
  List.length (snd (_obs_buffer self)) = size ->
  exists rs0 r max_frame self',
    let rs := rs0 ++ [r] in
    step action self
    = (Ok (max_frame, sum_rewards rs, sr_done r, sr_info r), self')
    /\ Spy.calls (env self')
       = Spy.calls (env self) ++ map (fun r => EvStep action (Ok r)) rs
    /\ 1 <= Z.of_nat (List.length rs) <= _skip self
    /\ none_done_before_last rs = true
    /\ (Z.of_nat (List.length rs) < _skip self -> sr_done r = true)
    /\ _obs_buffer self'
       = (slot_after (fst (_obs_buffer self)) (_skip self - 2) rs,
          slot_after (snd (_obs_buffer self)) (_skip self - 1) rs)
    /\ max_frame
       = np.maximum (fst (_obs_buffer self')) (snd (_obs_buffer self'))
    /\ _skip self' = _skip self
    /\ (2 <= _skip self -> Z.of_nat (List.length rs) = _skip self ->
        exists rs1 r', rs0 = rs1 ++ [r']
                       /\ max_frame = np.maximum (sr_obs r') (sr_obs r)).
Proof.
  intros Hskip Hfit Hs0 Hs1.
  destruct (step_window action size self Hskip Hfit Hs0 Hs1)
    as (rs0 & r & self' & Hstep & Hcalls & Hlen & Hnone & Hearly & Hbuf
        & Hsame).
  exists rs0, r, (np.max_axis0 (_obs_buffer self')), self'. cbn zeta.
  split; [exact Hstep|]. split; [exact Hcalls|].
  split; [rewrite length_app in *; cbn [List.length] in *; lia|].
  split; [exact Hnone|]. split; [exact Hearly|]. split; [exact Hbuf|].
  split; [reflexivity|]. split; [exact Hsame|].
  intros H2 Hfull.
  rewrite length_app in Hfull. cbn [List.length] in Hfull.
  destruct rs0 as [|r0 rs0 _] using rev_ind; [cbn in Hfull; lia|].
  exists rs0, r0. split; [reflexivity|].
  rewrite Hbuf. unfold np.max_axis0. cbn [fst snd].
  rewrite length_app in Hfull. cbn [List.length] in Hfull.
  replace (_skip self - 2) with (Z.of_nat (List.length rs0)) by lia.
  replace (_skip self - 1) with (Z.of_nat (List.length (rs0 ++ [r0])))
    by (rewrite length_app; cbn [List.length]; lia).
  rewrite <- app_assoc. cbn [app].
  rewrite (slot_after_at _ rs0 r0 [r]).
  replace (rs0 ++ [r0; r]) with ((rs0 ++ [r0]) ++ [r])
    by (rewrite <- app_assoc; reflexivity).
  rewrite (slot_after_at _ (rs0 ++ [r0]) r []). reflexivity.
Qed.

(** X8. With [skip = 1], on an inner environment whose frames have the
    size of the buffer's slots and lie in the range of its dtype, a step
    makes exactly one inner step; slot 0 of the
    buffer is never written, and the observation returned is the maximum of
    that inner frame and whatever slot 0 holds.  On the zeroed buffer of a
    fresh wrapper and a frame without negative pixels, that is the inner
    frame itself. *)
Theorem MaxAndSkipEnv_step_skip_one
    (action : Action) (size : nat) (self : MaxAndSkipEnv.t (Spy.t E)) :
  _skip self = 1 ->
  frames_fit (E:=E) (_obs_buffer_dtype self) size ->
  List.length (fst (_obs_buffer self)) = size ->
  List.length (snd (_obs_buffer self)) = size ->
  exists r self',
    step action self
    = (Ok (np.maximum (fst (_obs_buffer self)) (sr_obs r),
           float_add float_zero (sr_reward r), sr_done r, sr_info r), self')
    /\ Spy.calls (env self') = Spy.calls (env self) ++ [EvStep action (Ok r)]
    /\ _obs_buffer self' = (fst (_obs_buffer self), sr_obs r)
    /\ (fst (_obs_buffer self) = repeat 0 (List.length (sr_obs r)) ->
        Forall (fun v => 0 <= v) (sr_obs r) ->
        np.maximum (fst (_obs_buffer self)) (sr_obs r) = sr_obs r).
Proof.
  intros Hskip Hfit Hs0 Hs1.
  destruct (step_window action size self ltac:(lia) Hfit Hs0 Hs1)
    as (rs0 & r & self' & Hstep & Hcalls & Hlen & _ & _ & Hbuf & _).
  rewrite Hskip in *. rewrite length_app in Hlen. cbn [List.length] in Hlen.
  destruct rs0 as [|r0 rs0]; [|cbn [List.length] in Hlen; lia].
  cbn [app map] in *.
  assert (Hbuf' : _obs_buffer self' = (fst (_obs_buffer self), sr_obs r)).
  { rewrite Hbuf. reflexivity. }
  exists r, self'.
  split.
  { rewrite Hstep, Hbuf'. reflexivity. }
  split; [exact Hcalls|]. split; [exact Hbuf'|].
  intros Hzero Hpos. rewrite Hzero. apply maximum_zeros. exact Hpos.
Qed.

(** X9. On an inner environment whose frames have the size of the
    buffer's slots and lie in the range of its dtype, [MaxAndSkipEnv.reset]
    does not touch the buffer, and a window that
    ends before the step of index [skip - 2] does not either: the
    observation of the first step after a reset is then the maximum of the
    two frames buffered before the reset. *)
Theorem MaxAndSkipEnv_stale_frames_after_reset
    (kwargs : Kwargs) (action : Action) (size : nat)
    (self : MaxAndSkipEnv.t (Spy.t E)) :
  1 <= _skip self ->
  frames_fit (E:=E) (_obs_buffer_dtype self) size ->
  List.length (fst (_obs_buffer self)) = size ->
  List.length (snd (_obs_buffer self)) = size ->
  exists obs0 self1 rs0 r max_frame self2,
    reset kwargs self = (Ok obs0, self1)
    /\ _obs_buffer self1 = _obs_buffer self
    /\ step action self1
       = (Ok (max_frame, sum_rewards (rs0 ++ [r]), sr_done r, sr_info r),
          self2)
    /\ Spy.calls (env self2)
       = Spy.calls (env self)
         ++ EvReset kwargs (Ok obs0)
            :: map (fun r => EvStep action (Ok r)) (rs0 ++ [r])
    /\ (Z.of_nat (List.length (rs0 ++ [r])) <= _skip self - 2 ->
        sr_done r = true
        /\ _obs_buffer self2 = _obs_buffer self
        /\ max_frame = np.max_axis0 (_obs_buffer self)).
Proof.
  destruct self as [spy [slot0 slot1] skip dt].
  cbn [_skip _obs_buffer _obs_buffer_dtype env].
  intros Hskip Hfit Hs0 Hs1.
  destruct (spy_reset kwargs spy) as (obs0 & e0 & _ & Hreset).
  destruct (step_window action size
              (mk (Spy.mk e0 (Spy.calls spy ++ [EvReset kwargs (Ok obs0)]))
                 (slot0, slot1) skip dt) Hskip Hfit Hs0 Hs1)
    as (rs0 & r & self2 & Hstep & Hcalls & Hlen & _ & Hearly & Hbuf & _).
  cbn [_skip _obs_buffer env Spy.calls fst snd] in *.
  exists obs0, (mk (Spy.mk e0 (Spy.calls spy ++ [EvReset kwargs (Ok obs0)]))
                  (slot0, slot1) skip dt), rs0, r,
    (np.max_axis0 (_obs_buffer self2)), self2.
  split.
  { unfold reset. run. rewrite Hreset. reflexivity. }
  split; [reflexivity|]. split; [exact Hstep|].
  split; [rewrite Hcalls, <- app_assoc; reflexivity|].
  intros Hshort. split; [apply Hearly; lia|].
  assert (Hkeep : _obs_buffer self2 = (slot0, slot1)).
  { rewrite Hbuf, !slot_after_short by lia. reflexivity. }
  split; [exact Hkeep|]. rewrite Hkeep. reflexivity.
Qed.

End MaxAndSkipWindow.

Section MaxAndSkipShape.
Context {E : Type} `{WellBehaved E}.
Import MaxAndSkipEnv.

Lemma step_loop_sizes (action : Action) (size : nat) (n : nat) :
  frames_of_size size ->
  forall i total last e slot0 slot1 skip dt,
    List.length slot0 = size -> List.length slot1 = size ->
    exists total' last' self',
      step_loop action n i total last (mk e (slot0, slot1) skip dt)
      = (Ok (total', last'), self')
      /\ List.length (fst (_obs_buffer self')) = size
      /\ List.length (snd (_obs_buffer self')) = size
      /\ _skip self' = skip
      /\ (n <> O -> last' <> None).
Proof.
  intros Hframes.
  induction n as [|n IH]; intros i total last e slot0 slot1 skip dt H0' H1'.
  - eexists _, _, _. split; [reflexivity|]. cbn.
    repeat split; auto; congruence.
  - destruct (step_returns action e) as ([[[o rw] d] inf] & e1 & Hstep).
    pose proof (Hframes action e _ _ Hstep) as Ho. cbn [sr_obs] in Ho.
    rewrite (step_loop_iter action n i total last e (slot0, slot1) skip dt
               o rw d inf e1 Hstep).
    pose proof (stored_cases i skip dt o (slot0, slot1)) as Hst.
    destruct (stored i skip dt o (slot0, slot1)) as [[s0 s1]|ex];
      cbn [fst snd] in Hst.
    + destruct Hst as [Hs0 Hs1]. rewrite H0' in Hs0. rewrite H1' in Hs1.
      destruct d.
      * eexists _, _, _. split; [reflexivity|].
        cbn [_obs_buffer _skip fst snd].
        repeat split; auto; discriminate.
      * destruct (IH (i + 1) (float_add total rw) (Some (false, inf)) e1
                    s0 s1 skip dt Hs0 Hs1)
          as (total' & last' & self' & Hrun & Hl0 & Hl1 & Hskip & Hlast).
        exists total', last', self'. split; [exact Hrun|].
        split; [exact Hl0|]. split; [exact Hl1|]. split; [exact Hskip|].
        intros _. destruct n as [|n].
        -- cbn in Hrun. unfold ret in Hrun. injection Hrun as _ <- _.
           discriminate.
        -- apply Hlast. discriminate.
    + exfalso.
      destruct Hst as [_ [[_ [Hm _]]|[_ [Hm _]]]]; apply Hm; congruence.
Qed.

(** X10. The buffer keeps its shape: when every frame of the inner
    environment has [size] pixels and both slots have [size] pixels, then
    after a step (with [skip >= 1]) both slots still have [size] pixels, and
    so has the observation returned; [skip] is left as it was. *)
Theorem MaxAndSkipEnv_step_keeps_shape
    (action : Action) (size : nat) (self : MaxAndSkipEnv.t E) :
  frames_of_size size ->
  1 <= _skip self ->
  List.length (fst (_obs_buffer self)) = size ->
  List.length (snd (_obs_buffer self)) = size ->
  exists result self',
    step action self = (Ok result, self')
    /\ List.length (sr_obs result) = size
    /\ List.length (fst (_obs_buffer self')) = size
    /\ List.length (snd (_obs_buffer self')) = size
    /\ _skip self' = _skip self.
Proof.
  destruct self as [e [slot0 slot1] skip dt]. cbn [_skip _obs_buffer fst snd].
  intros Hframes Hskip H0' H1'.
  destruct (step_loop_sizes action size (Z.to_nat skip) Hframes 0 float_zero
              None e slot0 slot1 skip dt H0' H1')
    as (total' & last' & self' & Hrun & Hl0 & Hl1 & Hsame & Hlast).
  destruct last' as [[d inf]|]; [|exfalso; apply Hlast; [lia|reflexivity]].
  exists (np.max_axis0 (_obs_buffer self'), total', d, inf), self'.
  split; [apply step_of_loop; exact Hrun|].
  split.
  { cbn [sr_obs]. unfold np.max_axis0. rewrite maximum_length, Hl0, Hl1.
    apply Nat.min_id. }
  split; [exact Hl0|]. split; [exact Hl1|exact Hsame].
Qed.

End MaxAndSkipShape.

(** ** The wrappers stacked as [wrap_atari] stacks them *)

Section Stacked.
Context {E : Type} `{gym.Env E}.

Lemma step_loop_strip_noop (action : Action) (n : nat) :
  forall i total last (self : MaxAndSkipEnv.t (NoopResetEnv.t E)),
    MaxAndSkipEnv.step_loop action n i total last self
    = (fst (MaxAndSkipEnv.step_loop action n i total last (strip_noop self)),
       put_noop (MaxAndSkipEnv.env self)
         (snd (MaxAndSkipEnv.step_loop action n i total last
                 (strip_noop self)))).
Proof.
  induction n as [|n IH]; intros i total last [[e nm ov a] buffer skip dt].
  - reflexivity.
  - destruct (gym.step action e) as [[[[[o rw] d] inf]|ex] e1] eqn:Hstep.
    + assert (Hnoop : gym.step action (NoopResetEnv.mk e nm ov a)
                      = (Ok (o, rw, d, inf), NoopResetEnv.mk e1 nm ov a)).
      { cbn. unfold NoopResetEnv.step. run. rewrite Hstep. reflexivity. }
      pose proof (step_loop_iter (E:=NoopResetEnv.t E) action n i total last
                    (NoopResetEnv.mk e nm ov a) buffer skip dt o rw d inf _
                    Hnoop)
        as Hl.
      pose proof (step_loop_iter (E:=E) action n i total last
                    e buffer skip dt o rw d inf _ Hstep) as Hr.
      unfold strip_noop. cbn [MaxAndSkipEnv.env MaxAndSkipEnv._obs_buffer
                              MaxAndSkipEnv._skip
                              MaxAndSkipEnv._obs_buffer_dtype
                              NoopResetEnv.env].
      rewrite Hl, Hr.
      destruct (stored i skip dt o buffer) as [buffer'|ex]; [|reflexivity].
      destruct d; [reflexivity|].
      rewrite (IH (i + 1) (float_add total rw) (Some (false, inf))
                 (MaxAndSkipEnv.mk (NoopResetEnv.mk e1 nm ov a)
                    buffer' skip dt)).
      reflexivity.
    + cbn [MaxAndSkipEnv.step_loop]. unfold strip_noop, put_noop. run.
      unfold NoopResetEnv.step. run. rewrite Hstep. reflexivity.
Qed.

(** X11. [NoopResetEnv] adds nothing to a step: a [MaxAndSkipEnv] put on a
    [NoopResetEnv], as [wrap_atari] does, returns from [step] what it
    returns when put on the environment itself, leaves the environment and
    its own buffer in the same state, and leaves the attributes of the
    [NoopResetEnv] as they were. *)
Theorem MaxAndSkipEnv_over_NoopResetEnv_step
    (action : Action) (self : MaxAndSkipEnv.t (NoopResetEnv.t E)) :
  MaxAndSkipEnv.step action self
  = (fst (MaxAndSkipEnv.step action (strip_noop self)),
     put_noop (MaxAndSkipEnv.env self)
       (snd (MaxAndSkipEnv.step action (strip_noop self)))).
Proof.
  destruct self as [[e nm ov a] buffer skip dt].
  pose proof (step_loop_strip_noop action (Z.to_nat skip) 0 float_zero None
                (MaxAndSkipEnv.mk (NoopResetEnv.mk e nm ov a) buffer skip dt))
    as Hloop.
  unfold MaxAndSkipEnv.step, bind, get, strip_noop in *.
  cbn [MaxAndSkipEnv._skip MaxAndSkipEnv.env MaxAndSkipEnv._obs_buffer_dtype
       MaxAndSkipEnv._obs_buffer NoopResetEnv.env] in *.
  rewrite Hloop.
  destruct (MaxAndSkipEnv.step_loop action (Z.to_nat skip) 0 float_zero None
              (MaxAndSkipEnv.mk e buffer skip dt))
    as [[[total [[d inf]|]]|ex] self']; reflexivity.
Qed.

End Stacked.

(** ** EpisodicLifeEnv: steps and resets in sequence *)

Section EpisodicLifeSequences.
Context {E : Type} `{WellBehaved E}.
Import EpisodicLifeEnv.

(** X12. The reset that follows a step is a real reset of the inner
    environment exactly when that step's inner [done] was true, and a single
    no-op step otherwise, also when the wrapper itself returned [done] for a
    lost life; either way [lives] is the count of the engine afterwards. *)
Theorem EpisodicLifeEnv_reset_after_step
    (action : Action) (kwargs : Kwargs)
    (self : EpisodicLifeEnv.t (Spy.t E)) :
  exists r done' self1 obs2 ev2 self2,
    step action self = (Ok (sr_obs r, sr_reward r, done', sr_info r), self1)
    /\ reset kwargs self1 = (Ok obs2, self2)
    /\ Spy.calls (env self2)
       = Spy.calls (env self) ++ [EvStep action (Ok r); ev2]
    /\ (if sr_done r
        then ev2 = EvReset kwargs (Ok obs2)
        else exists reward done info,
            ev2 = EvStep 0 (Ok (obs2, reward, done, info)))
    /\ lives self2 = gym.ale_lives (env self2).
Proof.
  destruct self as [spy l wrd].
  destruct (spy_step action spy) as ([[[o rw] d] i] & e1 & _ & Hstep).
  pose (spy1 := Spy.mk e1 (Spy.calls spy ++ [EvStep action (Ok (o, rw, d, i))])).
  assert (Hs : step action (mk spy l wrd)
               = (Ok (o, rw,
                      (if (0 <? gym.ale_lives e1) && (gym.ale_lives e1 <? l)
                       then true else d), i),
                  mk spy1 (gym.ale_lives e1) d)).
  { unfold step. run. rewrite Hstep. reflexivity. }
  destruct d.
  - destruct (spy_reset kwargs spy1) as (o2 & e2 & _ & Hreset).
    exists (o, rw, true, i). eexists _, (mk spy1 (gym.ale_lives e1) true).
    exists o2, (EvReset kwargs (Ok o2)).
    eexists. split; [exact Hs|].
    split; [unfold reset; run; rewrite Hreset; reflexivity|].
    split; [cbn; rewrite <- app_assoc; reflexivity|].
    split; reflexivity.
  - destruct (spy_step 0 spy1) as ([[[o2 rw2] d2] i2] & e2 & _ & Hstep2).
    exists (o, rw, false, i). eexists _, (mk spy1 (gym.ale_lives e1) false).
    exists o2, (EvStep 0 (Ok (o2, rw2, d2, i2))).
    eexists. split; [exact Hs|].
    split; [unfold reset; run; rewrite Hstep2; reflexivity|].
    split; [cbn; rewrite <- app_assoc; reflexivity|].
    split; [exists rw2, d2, i2; reflexivity|reflexivity].
Qed.

(** X13. From the second step on, the wrapper's [done] does not depend on
    what [lives] held at first: after a step, [lives] is the count of the
    engine, so the next step returns [done] exactly when the engine reports
    it or the engine's count went down during that step to a count above
    zero. *)
Theorem EpisodicLifeEnv_done_of_second_step
    (a1 a2 : Action) (self : EpisodicLifeEnv.t (Spy.t E)) :
  exists r1 e1 r2 e2 done1 self1 done2 self2,
    gym.step a1 (Spy.env (env self)) = (Ok r1, e1)
    /\ gym.step a2 e1 = (Ok r2, e2)
    /\ step a1 self = (Ok (sr_obs r1, sr_reward r1, done1, sr_info r1), self1)
    /\ step a2 self1 = (Ok (sr_obs r2, sr_reward r2, done2, sr_info r2), self2)
    /\ (done2 = true <->
        sr_done r2 = true \/ 0 < gym.ale_lives e2 < gym.ale_lives e1)
    /\ was_real_done self2 = sr_done r2
    /\ lives self2 = gym.ale_lives e2.
Proof.
  destruct self as [spy l wrd].
  destruct (spy_step a1 spy) as ([[[o1 rw1] d1] i1] & e1 & Hin1 & Hstep1).
  destruct (spy_step a2 (Spy.mk e1 (Spy.calls spy
                                    ++ [EvStep a1 (Ok (o1, rw1, d1, i1))])))
    as ([[[o2 rw2] d2] i2] & e2 & Hin2 & Hstep2).
  cbn [Spy.env] in Hin2.
  exists (o1, rw1, d1, i1), e1, (o2, rw2, d2, i2), e2.
  exists (if (0 <? gym.ale_lives e1) && (gym.ale_lives e1 <? l)
          then true else d1),
    (mk (Spy.mk e1 (Spy.calls spy ++ [EvStep a1 (Ok (o1, rw1, d1, i1))]))
       (gym.ale_lives e1) d1),
    (if (0 <? gym.ale_lives e2) && (gym.ale_lives e2 <? gym.ale_lives e1)
     then true else d2).
  eexists.
  split; [exact Hin1|]. split; [exact Hin2|].
  split; [unfold step; run; rewrite Hstep1; reflexivity|].
  split; [unfold step; run; rewrite Hstep2; reflexivity|].
  split; [|split; reflexivity].
  destruct (0 <? gym.ale_lives e2) eqn:Hpos,
           (gym.ale_lives e2 <? gym.ale_lives e1) eqn:Hless; cbn;
    try apply Z.ltb_lt in Hpos; try apply Z.ltb_lt in Hless;
    try apply Z.ltb_ge in Hpos; try apply Z.ltb_ge in Hless;
    (split; [intros Hd; auto; try (right; lia)
            |intros [Hd|Hd]; auto; lia]).
Qed.

(** X14. Stacked as [wrap_atari] stacks them, on an engine whose frames
    have the size of the buffer's slots and lie in the range of its dtype,
    the single no-op step of
    [EpisodicLifeEnv.reset] is a step of the [MaxAndSkipEnv] below it: up
    to [skip] steps of the engine with action 0, and no reset of the engine;
    the observation returned is the maximum of the two slots of the frame
    skip. *)
Theorem EpisodicLifeEnv_over_MaxAndSkipEnv_reset
    (kwargs : Kwargs) (size : nat)
    (self : EpisodicLifeEnv.t (MaxAndSkipEnv.t (Spy.t E))) :
  was_real_done self = false ->
  1 <= MaxAndSkipEnv._skip (env self) ->
  frames_fit (E:=E) (MaxAndSkipEnv._obs_buffer_dtype (env self)) size ->
  List.length (fst (MaxAndSkipEnv._obs_buffer (env self))) = size ->
  List.length (snd (MaxAndSkipEnv._obs_buffer (env self))) = size ->
  exists rs self',
    reset kwargs self
    = (Ok (np.max_axis0 (MaxAndSkipEnv._obs_buffer (env self'))), self')
    /\ Spy.calls (MaxAndSkipEnv.env (env self'))
       = Spy.calls (MaxAndSkipEnv.env (env self))
         ++ map (fun r => EvStep 0 (Ok r)) rs
    /\ 1 <= Z.of_nat (List.length rs) <= MaxAndSkipEnv._skip (env self)
    /\ lives self' = gym.ale_lives (Spy.env (MaxAndSkipEnv.env (env self'))).
Proof.
  destruct self as [skipper l wrd]. cbn [was_real_done env].
  intros -> Hskip Hfit Hs0 Hs1.
  destruct (step_window 0 size skipper Hskip Hfit Hs0 Hs1)
    as (rs0 & r & skipper' & Hstep & Hcalls & Hlen & _).
  exists (rs0 ++ [r]).
  unfold reset, bind, get, modify, ret, self_env, on_attr.
  cbn [was_real_done env].
  change (gym.step 0 skipper) with (MaxAndSkipEnv.step 0 skipper).
  rewrite Hstep. cbn.
  exists (mk skipper' (gym.ale_lives (Spy.env (MaxAndSkipEnv.env skipper')))
            false).
  split; [reflexivity|]. cbn [env lives].
  split; [exact Hcalls|]. split; [|reflexivity].
  rewrite length_app in *. cbn [List.length] in *. lia.
Qed.

End EpisodicLifeSequences.

Section EpisodicLifeErrors.
Context {E : Type} `{gym.Env E}.
Import EpisodicLifeEnv.

(** X15. When the inner call of [step] or of [reset] raises, the wrapper
    raises the same exception and assigns nothing: [lives] and
    [was_real_done] are what they were, so a [reset] tried again takes the
    path it would have taken. *)
Theorem EpisodicLifeEnv_untouched_by_exception
    (action : Action) (kwargs : Kwargs) (self : EpisodicLifeEnv.t E) :
  (forall ex e',
      gym.step action (env self) = (Raise ex, e') ->
      step action self = (Raise ex, set_env e' self))
  /\ (forall ex e',
      was_real_done self = true ->
      gym.reset kwargs (env self) = (Raise ex, e') ->
      reset kwargs self = (Raise ex, set_env e' self))
  /\ (forall ex e',
      was_real_done self = false ->
      gym.step 0 (env self) = (Raise ex, e') ->
      reset kwargs self = (Raise ex, set_env e' self)).
Proof.
  destruct self as [e l wrd]. split; [|split].
  - intros ex e' Hin. unfold step. run. rewrite Hin. reflexivity.
  - intros ex e' Hwrd Hin. cbn in Hwrd. subst wrd.
    unfold reset. run. rewrite Hin. reflexivity.
  - intros ex e' Hwrd Hin. cbn in Hwrd. subst wrd.
    unfold reset. run. rewrite Hin. reflexivity.
Qed.

End EpisodicLifeErrors.

(** ** ClipRewardEnv: the values of the sign *)

(** X16. [ClipRewardEnv.reward] gives one of [1.0], [-1.0] and [0.0] for
    every float but NaN, which it returns as it is; it takes negative zero
    to positive zero and each infinity to the unit of its sign; and
    clipping a clipped reward changes nothing. *)
Theorem ClipRewardEnv_reward_values (r : Reward) :
  (r <> S754_nan ->
   ClipRewardEnv.reward r = float_one
   \/ ClipRewardEnv.reward r = SFopp float_one
   \/ ClipRewardEnv.reward r = float_zero)
  /\ ClipRewardEnv.reward S754_nan = S754_nan
  /\ ClipRewardEnv.reward (S754_zero true) = float_zero
  /\ ClipRewardEnv.reward (S754_infinity false) = float_one
  /\ ClipRewardEnv.reward (S754_infinity true) = SFopp float_one
  /\ ClipRewardEnv.reward (ClipRewardEnv.reward r) = ClipRewardEnv.reward r.
Proof.
  split; [|repeat split].
  - intros Hnum. destruct r as [[|]|[|]| |[|] m e]; cbn; auto. congruence.
  - destruct r as [[|]|[|]| |[|] m e]; reflexivity.
Qed.

(** ** wrap_atari: how it fails *)

Lemma prefix_spec (a b : string) :
  String.prefix a b = true <-> exists post, b = String.append a post.
Proof.
  revert b. induction a as [|c a IH]; intros [|c' b]; cbn.
  - split; [intros _; exists ""; reflexivity|reflexivity].
  - split; [intros _; exists (String c' b); reflexivity|reflexivity].
  - split; [discriminate|]. intros (post & Heq). discriminate.
  - destruct (Ascii.ascii_dec c c') as [->|Hne].
    + rewrite IH. split.
      * intros (post & ->). exists post. reflexivity.
      * intros (post & Heq). injection Heq as ->. exists post. reflexivity.
    + split; [discriminate|]. intros (post & Heq). injection Heq as -> _.
      congruence.
Qed.

Lemma contains_spec (sub s : string) :
  contains sub s = true
  <-> exists pre post, s = String.append pre (String.append sub post).
Proof.
  split.
  - induction s as [|c s IH]; cbn [contains].
    + destruct (String.prefix sub "") eqn:Hp; [|discriminate].
      intros _. apply prefix_spec in Hp as (post & Heq).
      exists "", post. exact Heq.
    + destruct (String.prefix sub (String c s)) eqn:Hp.
      * intros _. apply prefix_spec in Hp as (post & Heq).
        exists "", post. exact Heq.
      * intros Hc. destruct (IH Hc) as (pre & post & ->).
        exists (String c pre), post. reflexivity.
  - intros (pre & post & ->). induction pre as [|c pre IH].
    + cbn [String.append].
      assert (Hp : String.prefix sub (String.append sub post) = true)
        by (apply prefix_spec; exists post; reflexivity).
      destruct (String.append sub post); cbn [contains]; rewrite Hp;
        reflexivity.
    + cbn [String.append contains]. rewrite IH.
      destruct (String.prefix sub _); reflexivity.
Qed.

Section WrapAtariErrors.
Context {B : Type} `{gym.Unwrapped B}.
#[local] Arguments String.eqb : simpl never.

(** X17. [wrap_atari] raises nothing but assertion and index errors.  It
    raises an index error exactly when the identifier has the marker and
    the action list is empty (the first constructor reads index 0 of it);
    and it raises an assertion error whenever the identifier is not of the
    form [pre ++ "NoFrameskip" ++ post]. *)
Theorem wrap_atari_errors (env : AtariEnv B)
    (episode_life clip_rewards : bool) (frame_stack : Z) :
  let m := gym.get_action_meanings env in
  let marked := contains "NoFrameskip" (gym.spec_id env) in
  let result := wrap_atari env episode_life clip_rewards frame_stack in
  (forall ex, result = Raise ex -> ex = AssertionError \/ ex = IndexError)
  /\ (result = Raise IndexError <-> marked = true /\ m = [])
  /\ (result = Raise AssertionError
      \/ exists pre post,
          gym.spec_id env
          = String.append pre (String.append "NoFrameskip" post)).
Proof.
  cbn zeta.
  pose proof (contains_spec "NoFrameskip" (gym.spec_id env)) as Hmark.
  unfold wrap_atari, call.
  unfold NoopResetEnv.__init__, MaxAndSkipEnv.__init__,
    EpisodicLifeEnv.__init__, FireResetEnv.__init__, ClipRewardEnv.__init__.
  run.
  destruct (contains "NoFrameskip" (gym.spec_id (unwrapped env))); cbn.
  - assert (Hform : exists pre post,
      gym.spec_id (unwrapped env)
      = String.append pre (String.append "NoFrameskip" post))
      by (apply Hmark; reflexivity).
    clear Hmark.
    destruct (gym.get_action_meanings (unwrapped env)) as [|m0 rest] eqn:Hm;
      cbn.
    { split; [intros ex Hex; injection Hex as <-; right; reflexivity|].
      split; [split; [split; reflexivity|reflexivity]|right; exact Hform]. }
    destruct (String.eqb m0 "NOOP") eqn:Hnoop; cbn.
    2:{ split; [intros ex Hex; injection Hex as <-; left; reflexivity|].
        split; [|right; exact Hform].
        split; [discriminate|]. intros [_ Hnil]. discriminate. }
    apply String.eqb_eq in Hnoop. subst m0.
    assert (Hfn : String.eqb "FIRE" "NOOP" = false) by reflexivity.
    destruct rest as [|m1 rest];
      destruct episode_life; cbn; rewrite ?Hm; cbn; rewrite ?Hfn; cbn;
      try (destruct (String.eqb "FIRE" m1 || existsb (String.eqb "FIRE") rest);
           cbn; rewrite ?Hm; cbn;
           [ destruct (String.eqb m1 "FIRE"); cbn;
             [ destruct rest as [|m2 rest]; cbn;
               rewrite ?(three_actions (List.length rest)); cbn
             | ]
           | ]);
      try (destruct clip_rewards; cbn; destruct (frame_stack >? 1); cbn);
      (split; [intros ex Hex; try discriminate; injection Hex as <-;
               auto
              |split; [split; [try discriminate|intros [_ Hnil]; discriminate]
                      |right; exact Hform]]).
  - split; [intros ex Hex; injection Hex as <-; left; reflexivity|].
    split; [|left; reflexivity].
    split; [discriminate|]. intros [Hno _]. discriminate.
Qed.

End WrapAtariErrors.

(** ** FireResetEnv: exceptions *)

Section FireResetErrors.
Context {E : Type} `{gym.Env E}.

(** X18. [FireResetEnv.reset] raises exactly when one of its inner calls
    does, and raises what that call raised: it makes between one and five
    inner calls, none after one that raised, and has no exception of its
    own. *)
Theorem FireResetEnv_reset_stops_at_exception
    (kwargs : Kwargs) (self : FireResetEnv.t (Spy.t E)) :
  exists evs,
    Spy.calls (FireResetEnv.env (snd (FireResetEnv.reset kwargs self)))
    = Spy.calls (FireResetEnv.env self) ++ evs
    /\ stops_at_raise evs = true
    /\ raised evs = exn_of (fst (FireResetEnv.reset kwargs self))
    /\ (1 <= List.length evs <= 5)%nat.
Proof.
  destruct self as [[e log]]. unfold FireResetEnv.reset. run.
  unfold Spy.reset, Spy.step. cbn.
  destruct (gym.reset kwargs e) as [[o0|ex] e0]; cbn.
  2:{ exists [EvReset kwargs (Raise ex)]. repeat split; cbn; lia. }
  destruct (gym.step 1 e0) as [[[[[o1 rw1] d1] i1]|ex] e1]; cbn.
  2:{ exists [EvReset kwargs (Ok o0); EvStep 1 (Raise ex)].
      rewrite <- app_assoc. repeat split; cbn; lia. }
  destruct d1; cbn.
  - destruct (gym.reset kwargs e1) as [[oa|ex] ea]; cbn.
    2:{ eexists [_; _; EvReset kwargs (Raise ex)].
        rewrite <- !app_assoc. repeat split; cbn; lia. }
    destruct (gym.step 2 ea) as [[[[[o2 rw2] d2] i2]|ex] e2]; cbn.
    2:{ eexists [_; _; _; EvStep 2 (Raise ex)].
        rewrite <- !app_assoc. repeat split; cbn; lia. }
    destruct d2; cbn.
    + destruct (gym.reset kwargs e2) as [[ob|ex] eb]; cbn;
        eexists [_; _; _; _; _];
        rewrite <- !app_assoc; repeat split; cbn; lia.
    + eexists [_; _; _; _].
      rewrite <- !app_assoc. repeat split; cbn; lia.
  - destruct (gym.step 2 e1) as [[[[[o2 rw2] d2] i2]|ex] e2]; cbn.
    2:{ eexists [_; _; EvStep 2 (Raise ex)].
        rewrite <- !app_assoc. repeat split; cbn; lia. }
    destruct d2; cbn.
    + destruct (gym.reset kwargs e2) as [[ob|ex] eb]; cbn;
        eexists [_; _; _; _];
        rewrite <- !app_assoc; repeat split; cbn; lia.
    + eexists [_; _; _].
      rewrite <- !app_assoc. repeat split; cbn; lia.
Qed.

End FireResetErrors.

(** ** The further properties at concrete inputs *)

#[export] Instance Ticker_WellBehaved : WellBehaved Ticker.t.
Proof.
  split.
  - intros kwargs e. eexists _, _. reflexivity.
  - intros action e. eexists _, _. reflexivity.
  - intros low high e Hlt. cbn. unfold Ticker.np_random_randint.
    apply Z.ltb_lt in Hlt as Hb. rewrite Hb. eexists _, _.
    split; [reflexivity|].
    pose proof (Z.mod_pos_bound (Ticker.seed e) (high - low)). lia.
Qed.

Lemma Ticker_frames : frames_of_size (E:=Ticker.t) 2.
Proof.
  intros action e r e' Hstep. cbn in Hstep. unfold Ticker.step in Hstep.
  injection Hstep as <- _. reflexivity.
Qed.

(** An engine that crashes on its third call: the no-op reset made two calls
    and raises what the third raised. *)
Example noop_reset_on_a_crash :
  let self := NoopResetEnv.mk (Spy.mk (Fused.mk 2 0) []) 30 (Some 5) 0 in
  fst (NoopResetEnv.reset [] self) = Raise (EnvError "engine crashed")
  /\ Spy.calls (NoopResetEnv.env (snd (NoopResetEnv.reset [] self)))
     = [EvReset [] (Ok (frame 0));
        EvStep 0 (Ok (frame 1, float_one, false, []));
        EvStep 0 (Raise (EnvError "engine crashed"))].
Proof. split; reflexivity. Qed.

Example skip_on_a_crash :
  let self := MaxAndSkipEnv.mk (Spy.mk (Fused.mk 3 0) [])
                (np.zeros [2%nat], np.zeros [2%nat]) 4 np.uint8 in
  fst (MaxAndSkipEnv.step 1 self) = Raise (EnvError "engine crashed")
  /\ MaxAndSkipEnv._obs_buffer (snd (MaxAndSkipEnv.step 1 self))
     = (frame 3, [0; 0]).
Proof. split; reflexivity. Qed.

(** What the buffer does to frames that are not of its kind: pixels
    outside of [uint8] wrap around, a frame of another size is refused
    when it is to be stored (on the step of index [skip - 2], after three
    inner steps), and a frame of one pixel fills the slot. *)
Example store_wraps_pixels :
  fst (MaxAndSkipEnv.step 1
         (MaxAndSkipEnv.mk overexposed
            (np.zeros [2%nat], np.zeros [2%nat]) 2 np.uint8))
  = Ok ([44; 255], float_of_Z 2, false, []).
Proof. vm_compute. reflexivity. Qed.

Example store_refuses_another_size :
  let self := MaxAndSkipEnv.mk (spied widescreen)
                (np.zeros [2%nat], np.zeros [2%nat]) 4 np.uint8 in
  fst (MaxAndSkipEnv.step 1 self) = Raise ValueError
  /\ Spy.calls (MaxAndSkipEnv.env (snd (MaxAndSkipEnv.step 1 self)))
     = [EvStep 1 (Ok ([1; 2; 3], float_one, false, []));
        EvStep 1 (Ok ([4; 5; 6], float_one, false, []));
        EvStep 1 (Ok ([7; 8; 9], float_one, false, []))]
  /\ MaxAndSkipEnv._obs_buffer (snd (MaxAndSkipEnv.step 1 self))
     = ([0; 0], [0; 0]).
Proof. repeat split; reflexivity. Qed.

Example store_broadcasts_one_pixel :
  fst (MaxAndSkipEnv.step 1
         (MaxAndSkipEnv.mk pinhole
            (np.zeros [2%nat], np.zeros [2%nat]) 2 np.uint8))
  = Ok ([9; 9], float_of_Z 2, false, []).
Proof. vm_compute. reflexivity. Qed.

Lemma NoopResetEnv_reset_refuses_override_witness :
  let self := NoopResetEnv.mk (spied breakout) 30 (Some 0) 0 in
  WellBehaved Scripted.t
  /\ NoopResetEnv.override_num_noops self = Some 0
  /\ 0 <= 0
  /\ exists r0 self',
      NoopResetEnv.reset [] self = (Raise AssertionError, self')
      /\ Spy.calls (NoopResetEnv.env self')
         = Spy.calls (NoopResetEnv.env self) ++ [EvReset [] r0]
      /\ same_config self self'.
Proof.
  cbn zeta. split; [exact Scripted_WellBehaved|].
  split; [reflexivity|]. split; [lia|].
  refine (NoopResetEnv_reset_refuses_override []
            (NoopResetEnv.mk (spied breakout) 30 (Some 0) 0) 0 eq_refl _).
  lia.
Defined.

Lemma NoopResetEnv_reset_call_counts_witness :
  let self := NoopResetEnv.mk (Spy.mk (Ticker.mk 0 4) []) 30 None 0 in
  WellBehaved Ticker.t
  /\ 1 <= NoopResetEnv.noop_max self
  /\ override_positive self
  /\ exists evs obs self',
      NoopResetEnv.reset [] self = (Ok obs, self')
      /\ Spy.calls (NoopResetEnv.env self')
         = Spy.calls (NoopResetEnv.env self) ++ evs
      /\ count_resets evs = 1 + count_done evs
      /\ 1 + count_steps evs <= Z.of_nat (List.length evs)
         <= 1 + 2 * count_steps evs.
Proof.
  cbn zeta. split; [exact Ticker_WellBehaved|].
  split; [cbn; lia|]. split; [exact I|].
  refine (NoopResetEnv_reset_call_counts []
            (NoopResetEnv.mk (Spy.mk (Ticker.mk 0 4) []) 30 None 0) _ I).
  cbn. lia.
Defined.

Lemma MaxAndSkipEnv_step_without_window_witness :
  let self := MaxAndSkipEnv.mk breakout (np.zeros [2%nat], np.zeros [2%nat]) 0 np.uint8 in
  MaxAndSkipEnv._skip self <= 0
  /\ MaxAndSkipEnv.step 3 self = (Raise UnboundLocalError, self).
Proof.
  cbn zeta. split; [cbn; lia|].
  refine (MaxAndSkipEnv_step_without_window 3
            (MaxAndSkipEnv.mk breakout (np.zeros [2%nat], np.zeros [2%nat]) 0 np.uint8)
            _).
  cbn. lia.
Defined.

Lemma MaxAndSkipEnv_step_any_skip_witness :
  let self := MaxAndSkipEnv.mk (Spy.mk (Pacer.mk 0 4) [])
                (np.zeros [2%nat], np.zeros [2%nat]) 3 np.uint8 in
  WellBehaved Pacer.t
  /\ 1 <= MaxAndSkipEnv._skip self
  /\ frames_fit (E:=Pacer.t) (MaxAndSkipEnv._obs_buffer_dtype self) 2
  /\ List.length (fst (MaxAndSkipEnv._obs_buffer self)) = 2%nat
  /\ List.length (snd (MaxAndSkipEnv._obs_buffer self)) = 2%nat
  /\ exists rs0 r max_frame self',
      let rs := rs0 ++ [r] in
      MaxAndSkipEnv.step 2 self
      = (Ok (max_frame, sum_rewards rs, sr_done r, sr_info r), self')
      /\ Spy.calls (MaxAndSkipEnv.env self')
         = Spy.calls (MaxAndSkipEnv.env self)
           ++ map (fun r => EvStep 2 (Ok r)) rs
      /\ 1 <= Z.of_nat (List.length rs) <= MaxAndSkipEnv._skip self
      /\ none_done_before_last rs = true
      /\ (Z.of_nat (List.length rs) < MaxAndSkipEnv._skip self ->
          sr_done r = true)
      /\ MaxAndSkipEnv._obs_buffer self'
         = (slot_after (fst (MaxAndSkipEnv._obs_buffer self))
              (MaxAndSkipEnv._skip self - 2) rs,
            slot_after (snd (MaxAndSkipEnv._obs_buffer self))
              (MaxAndSkipEnv._skip self - 1) rs)
      /\ max_frame
         = np.maximum (fst (MaxAndSkipEnv._obs_buffer self'))
             (snd (MaxAndSkipEnv._obs_buffer self'))
      /\ MaxAndSkipEnv._skip self' = MaxAndSkipEnv._skip self
      /\ (2 <= MaxAndSkipEnv._skip self ->
          Z.of_nat (List.length rs) = MaxAndSkipEnv._skip self ->
          exists rs1 r', rs0 = rs1 ++ [r']
                         /\ max_frame = np.maximum (sr_obs r') (sr_obs r)).
Proof.
  cbn zeta. split; [exact Pacer_WellBehaved|].
  split; [cbn; lia|]. split; [exact Pacer_frames_fit|].
  split; [reflexivity|]. split; [reflexivity|].
  refine (MaxAndSkipEnv_step_any_skip 2 2
            (MaxAndSkipEnv.mk (Spy.mk (Pacer.mk 0 4) [])
               (np.zeros [2%nat], np.zeros [2%nat]) 3 np.uint8)
            _ Pacer_frames_fit eq_refl eq_refl).
  cbn. lia.
Defined.

Lemma MaxAndSkipEnv_step_skip_one_witness :
  let self := MaxAndSkipEnv.mk (Spy.mk (Pacer.mk 0 4) [])
                (np.zeros [2%nat], np.zeros [2%nat]) 1 np.uint8 in
  WellBehaved Pacer.t
  /\ MaxAndSkipEnv._skip self = 1
  /\ frames_fit (E:=Pacer.t) (MaxAndSkipEnv._obs_buffer_dtype self) 2
  /\ List.length (fst (MaxAndSkipEnv._obs_buffer self)) = 2%nat
  /\ List.length (snd (MaxAndSkipEnv._obs_buffer self)) = 2%nat
  /\ exists r self',
      MaxAndSkipEnv.step 2 self
      = (Ok (np.maximum (fst (MaxAndSkipEnv._obs_buffer self)) (sr_obs r),
             float_add float_zero (sr_reward r), sr_done r, sr_info r), self')
      /\ Spy.calls (MaxAndSkipEnv.env self')
         = Spy.calls (MaxAndSkipEnv.env self) ++ [EvStep 2 (Ok r)]
      /\ MaxAndSkipEnv._obs_buffer self'
         = (fst (MaxAndSkipEnv._obs_buffer self), sr_obs r)
      /\ (fst (MaxAndSkipEnv._obs_buffer self)
          = repeat 0 (List.length (sr_obs r)) ->
          Forall (fun v => 0 <= v) (sr_obs r) ->
          np.maximum (fst (MaxAndSkipEnv._obs_buffer self)) (sr_obs r)
          = sr_obs r).
Proof.
  cbn zeta. split; [exact Pacer_WellBehaved|].
  split; [reflexivity|]. split; [exact Pacer_frames_fit|].
  split; [reflexivity|]. split; [reflexivity|].
  exact (MaxAndSkipEnv_step_skip_one 2 2
           (MaxAndSkipEnv.mk (Spy.mk (Pacer.mk 0 4) [])
              (np.zeros [2%nat], np.zeros [2%nat]) 1 np.uint8)
           eq_refl Pacer_frames_fit eq_refl eq_refl).
Defined.

Lemma MaxAndSkipEnv_stale_frames_after_reset_witness :
  let self := MaxAndSkipEnv.mk (Spy.mk (Pacer.mk 7 4) [])
                (frame 9, frame 8) 8 np.uint8 in
  WellBehaved Pacer.t
  /\ 1 <= MaxAndSkipEnv._skip self
  /\ frames_fit (E:=Pacer.t) (MaxAndSkipEnv._obs_buffer_dtype self) 2
  /\ List.length (fst (MaxAndSkipEnv._obs_buffer self)) = 2%nat
  /\ List.length (snd (MaxAndSkipEnv._obs_buffer self)) = 2%nat
  /\ exists obs0 self1 rs0 r max_frame self2,
      MaxAndSkipEnv.reset [] self = (Ok obs0, self1)
      /\ MaxAndSkipEnv._obs_buffer self1 = MaxAndSkipEnv._obs_buffer self
      /\ MaxAndSkipEnv.step 1 self1
         = (Ok (max_frame, sum_rewards (rs0 ++ [r]), sr_done r, sr_info r),
            self2)
      /\ Spy.calls (MaxAndSkipEnv.env self2)
         = Spy.calls (MaxAndSkipEnv.env self)
           ++ EvReset [] (Ok obs0)
              :: map (fun r => EvStep 1 (Ok r)) (rs0 ++ [r])
      /\ (Z.of_nat (List.length (rs0 ++ [r])) <= MaxAndSkipEnv._skip self - 2 ->
          sr_done r = true
          /\ MaxAndSkipEnv._obs_buffer self2 = MaxAndSkipEnv._obs_buffer self
          /\ max_frame = np.max_axis0 (MaxAndSkipEnv._obs_buffer self)).
Proof.
  cbn zeta. split; [exact Pacer_WellBehaved|].
  split; [cbn; lia|]. split; [exact Pacer_frames_fit|].
  split; [reflexivity|]. split; [reflexivity|].
  refine (MaxAndSkipEnv_stale_frames_after_reset [] 1 2
            (MaxAndSkipEnv.mk (Spy.mk (Pacer.mk 7 4) [])
               (frame 9, frame 8) 8 np.uint8)
            _ Pacer_frames_fit eq_refl eq_refl).
  cbn. lia.
Defined.

Example stale_frames_returned :
  let self := MaxAndSkipEnv.mk breakout_ending (frame 9, frame 8) 4 np.uint8 in
  fst (MaxAndSkipEnv.step 1 (snd (MaxAndSkipEnv.reset [] self)))
  = Ok ([9; 247], float_of_Z 6, true, []).
Proof. vm_compute. reflexivity. Qed.

Lemma MaxAndSkipEnv_step_keeps_shape_witness :
  let self := MaxAndSkipEnv.mk (Ticker.mk 0 4)
                (np.zeros [2%nat], np.zeros [2%nat]) 4 np.uint8 in
  WellBehaved Ticker.t
  /\ frames_of_size (E:=Ticker.t) 2
  /\ 1 <= MaxAndSkipEnv._skip self
  /\ List.length (fst (MaxAndSkipEnv._obs_buffer self)) = 2%nat
  /\ List.length (snd (MaxAndSkipEnv._obs_buffer self)) = 2%nat
  /\ exists result self',
      MaxAndSkipEnv.step 1 self = (Ok result, self')
      /\ List.length (sr_obs result) = 2%nat
      /\ List.length (fst (MaxAndSkipEnv._obs_buffer self')) = 2%nat
      /\ List.length (snd (MaxAndSkipEnv._obs_buffer self')) = 2%nat
      /\ MaxAndSkipEnv._skip self' = MaxAndSkipEnv._skip self.
Proof.
  cbn zeta. split; [exact Ticker_WellBehaved|].
  split; [exact Ticker_frames|]. split; [cbn; lia|].
  split; [reflexivity|]. split; [reflexivity|].
  refine (MaxAndSkipEnv_step_keeps_shape 1 2
            (MaxAndSkipEnv.mk (Ticker.mk 0 4)
               (np.zeros [2%nat], np.zeros [2%nat]) 4 np.uint8)
            Ticker_frames _ eq_refl eq_refl).
  cbn. lia.
Defined.

Lemma EpisodicLifeEnv_reset_after_step_witness :
  let self := EpisodicLifeEnv.mk (spied breakout_losing) 3 false in
  WellBehaved Scripted.t
  /\ exists r done' self1 obs2 ev2 self2,
      EpisodicLifeEnv.step 2 self
      = (Ok (sr_obs r, sr_reward r, done', sr_info r), self1)
      /\ EpisodicLifeEnv.reset [] self1 = (Ok obs2, self2)
      /\ Spy.calls (EpisodicLifeEnv.env self2)
         = Spy.calls (EpisodicLifeEnv.env self) ++ [EvStep 2 (Ok r); ev2]
      /\ (if sr_done r
          then ev2 = EvReset [] (Ok obs2)
          else exists reward done info,
              ev2 = EvStep 0 (Ok (obs2, reward, done, info)))
      /\ EpisodicLifeEnv.lives self2
         = gym.ale_lives (EpisodicLifeEnv.env self2).
Proof.
  cbn zeta. split; [exact Scripted_WellBehaved|].
  exact (EpisodicLifeEnv_reset_after_step 2 []
           (EpisodicLifeEnv.mk (spied breakout_losing) 3 false)).
Defined.

Lemma EpisodicLifeEnv_done_of_second_step_witness :
  let self := EpisodicLifeEnv.mk (spied breakout) 0 true in
  WellBehaved Scripted.t
  /\ exists r1 e1 r2 e2 done1 self1 done2 self2,
      gym.step 1 (Spy.env (EpisodicLifeEnv.env self)) = (Ok r1, e1)
      /\ gym.step 2 e1 = (Ok r2, e2)
      /\ EpisodicLifeEnv.step 1 self
         = (Ok (sr_obs r1, sr_reward r1, done1, sr_info r1), self1)
      /\ EpisodicLifeEnv.step 2 self1
         = (Ok (sr_obs r2, sr_reward r2, done2, sr_info r2), self2)
      /\ (done2 = true <->
          sr_done r2 = true \/ 0 < gym.ale_lives e2 < gym.ale_lives e1)
      /\ EpisodicLifeEnv.was_real_done self2 = sr_done r2
      /\ EpisodicLifeEnv.lives self2 = gym.ale_lives e2.
Proof.
  cbn zeta. split; [exact Scripted_WellBehaved|].
  exact (EpisodicLifeEnv_done_of_second_step 1 2
           (EpisodicLifeEnv.mk (spied breakout) 0 true)).
Defined.

Lemma EpisodicLifeEnv_over_MaxAndSkipEnv_reset_witness :
  let self :=
    EpisodicLifeEnv.mk
      (MaxAndSkipEnv.mk (Spy.mk (Pacer.mk 0 4) [])
         (np.zeros [2%nat], np.zeros [2%nat]) 4 np.uint8) 3 false in
  WellBehaved Pacer.t
  /\ EpisodicLifeEnv.was_real_done self = false
  /\ 1 <= MaxAndSkipEnv._skip (EpisodicLifeEnv.env self)
  /\ frames_fit (E:=Pacer.t)
       (MaxAndSkipEnv._obs_buffer_dtype (EpisodicLifeEnv.env self)) 2
  /\ List.length
       (fst (MaxAndSkipEnv._obs_buffer (EpisodicLifeEnv.env self))) = 2%nat
  /\ List.length
       (snd (MaxAndSkipEnv._obs_buffer (EpisodicLifeEnv.env self))) = 2%nat
  /\ exists rs self',
      EpisodicLifeEnv.reset [] self
      = (Ok (np.max_axis0
               (MaxAndSkipEnv._obs_buffer (EpisodicLifeEnv.env self'))),
         self')
      /\ Spy.calls (MaxAndSkipEnv.env (EpisodicLifeEnv.env self'))
         = Spy.calls (MaxAndSkipEnv.env (EpisodicLifeEnv.env self))
           ++ map (fun r => EvStep 0 (Ok r)) rs
      /\ 1 <= Z.of_nat (List.length rs)
         <= MaxAndSkipEnv._skip (EpisodicLifeEnv.env self)
      /\ EpisodicLifeEnv.lives self'
         = gym.ale_lives
             (Spy.env (MaxAndSkipEnv.env (EpisodicLifeEnv.env self'))).
Proof.
  cbn zeta. split; [exact Pacer_WellBehaved|].
  split; [reflexivity|]. split; [cbn; lia|].
  split; [exact Pacer_frames_fit|].
  split; [reflexivity|]. split; [reflexivity|].
  refine (EpisodicLifeEnv_over_MaxAndSkipEnv_reset [] 2
            (EpisodicLifeEnv.mk
               (MaxAndSkipEnv.mk (Spy.mk (Pacer.mk 0 4) [])
                  (np.zeros [2%nat], np.zeros [2%nat]) 4 np.uint8) 3 false)
            eq_refl _ Pacer_frames_fit eq_refl eq_refl).
  cbn. lia.
Defined.

(** The no-op advance of the stack: four frames of the engine. *)
Example stacked_noop_advance :
  let self :=
    EpisodicLifeEnv.mk
      (MaxAndSkipEnv.mk (spied breakout)
         (np.zeros [2%nat], np.zeros [2%nat]) 4 np.uint8) 3 false in
  Spy.calls
    (MaxAndSkipEnv.env
       (EpisodicLifeEnv.env (snd (EpisodicLifeEnv.reset [] self))))
  = [EvStep 0 (Ok (frame 1, float_zero, false, []));
     EvStep 0 (Ok (frame 2, float_one, false, []));
     EvStep 0 (Ok (frame 3, float_5_0, false, []));
     EvStep 0 (Ok (frame 4, float_zero, false, []))].
Proof. reflexivity. Qed.

(** A crashed engine under the episodic life: the step raises and the life
    count and the flag stay. *)
Example life_step_on_a_crash :
  EpisodicLifeEnv.step 1 (EpisodicLifeEnv.mk (Fused.mk 0 7) 2 false)
  = (Raise (EnvError "engine crashed"),
     EpisodicLifeEnv.mk (Fused.mk 0 7) 2 false).
Proof. reflexivity. Qed.
